(** * Pandora Campus downloader: download bookkeeping and chapter merging

    A shallow embedding of the TypeScript sources
    - [check-downloads.ts]  (status reconciliation),
    - [merge-chapters.ts]   (chapter segmentation and merging),
    - [index.ts]            (batched download and retry),
    - [cleanup-files.ts]    (expected files and cleanup),
    together with the properties the specification states about them.

    JavaScript strings are sequences of UTF-16 code units; they are modelled
    as [list N].  The book directory is a finite map from paths (lists of
    path components) to files.  Code that reads or writes the directory,
    drives the browser, throws or exits runs in a small state-and-exception
    monad over a [World]. *)

From Stdlib Require Import ZArith NArith Lia Bool Ascii String DecimalString.
From Stdlib Require DecimalPos.
From stdpp Require Import gmap list fin_maps.

Local Open Scope Z_scope.

(** ** JavaScript strings *)

Module JS.

(** An ASCII string literal of the source, as code units. *)
Definition lit (s : string) : list N :=
  List.map N_of_ascii (list_ascii_of_string s).

Definition in_range (lo hi c : N) : bool := ((lo <=? c) && (c <=? hi))%N.

(** [\d], [A-Z], [a-z] and [a-zA-Z0-9]. *)
Definition is_digit (c : N) : bool := in_range 48 57 c.
Definition is_upper (c : N) : bool := in_range 65 90 c.
Definition is_lower (c : N) : bool := in_range 97 122 c.
Definition is_alnum (c : N) : bool := is_lower c || is_upper c || is_digit c.

(** [\s] of ECMAScript: white space and line terminators. *)
Definition is_space (c : N) : bool :=
  (in_range 9 13 c || (c =? 32) || (c =? 160) || (c =? 5760)
   || in_range 8192 8202 c || (c =? 8232) || (c =? 8233) || (c =? 8239)
   || (c =? 8287) || (c =? 12288) || (c =? 65279))%N.

(** [s.replace(/[cls]/g, rep)]: every code unit of the class is replaced. *)
Definition replace_class (cls : N -> bool) (rep : list N) (s : list N) : list N :=
  List.flat_map (fun c => if cls c then rep else [c]) s.

(** [s.replace(/[cls]+/g, rep)]: every maximal run of the class is replaced
    once.  [in_run] tells that the previous code unit was in the class. *)
Fixpoint replace_runs_from (cls : N -> bool) (rep : list N) (in_run : bool)
         (s : list N) : list N :=
  match s with
  | [] => []
  | c :: s' =>
      if cls c
      then (if in_run then [] else rep) ++ replace_runs_from cls rep true s'
      else c :: replace_runs_from cls rep false s'
  end.

Definition replace_runs (cls : N -> bool) (rep : list N) (s : list N) : list N :=
  replace_runs_from cls rep false s.

Fixpoint drop_leading (cls : N -> bool) (s : list N) : list N :=
  match s with
  | [] => []
  | c :: s' => if cls c then drop_leading cls s' else s
  end.

Definition drop_trailing (cls : N -> bool) (s : list N) : list N :=
  List.rev (drop_leading cls (List.rev s)).

(** [s.replace(/^c+|c+$/g, "")]: the leading run is removed by the first
    alternative, the trailing run by the second. *)
Definition strip_both (cls : N -> bool) (s : list N) : list N :=
  drop_trailing cls (drop_leading cls s).

(** [String.prototype.toLowerCase], code unit by code unit.  Basic Latin
    and Latin-1 letters are mapped as Unicode does; code units beyond
    Latin-1 are left as they are. *)
Definition lower_unit (c : N) : N :=
  if is_upper c then (c + 32)%N
  else if in_range 192 222 c && negb (c =? 215)%N then (c + 32)%N
  else c.

Definition toLowerCase (s : list N) : list N := List.map lower_unit s.

Fixpoint starts_with (pat s : list N) : bool :=
  match pat, s with
  | [], _ => true
  | _ :: _, [] => false
  | p :: pat', c :: s' => (p =? c)%N && starts_with pat' s'
  end.

(** [hay.includes(needle)]. *)
Fixpoint includes (needle hay : list N) : bool :=
  starts_with needle hay ||
  match hay with
  | [] => false
  | _ :: hay' => includes needle hay'
  end.

(** Matching a literal under the [i] flag (no [u] flag): two code units
    match when their canonical forms agree; a code unit outside Basic
    Latin never canonicalizes into it, so for an ASCII pattern this is
    ASCII case folding.  Returns the rest of the subject after the match. *)
Definition fold_ascii (c : N) : N := if is_lower c then (c - 32)%N else c.

Fixpoint match_literal_ci (pat s : list N) : option (list N) :=
  match pat, s with
  | [], _ => Some s
  | _ :: _, [] => None
  | p :: pat', c :: s' =>
      if (fold_ascii p =? fold_ascii c)%N then match_literal_ci pat' s' else None
  end.

(** [n.toString()] for an integer-valued number. *)
Definition toString (n : Z) : list N := lit (NilZero.string_of_int (Z.to_int n)).

(** [s.padStart(len, pad)]. *)
Fixpoint fill (pad : list N) (k : nat) (cur : list N) : list N :=
  match k with
  | O => []
  | S k' =>
      match cur with
      | [] => match pad with
              | [] => []
              | p :: pad' => p :: fill pad k' pad'
              end
      | p :: cur' => p :: fill pad k' cur'
      end
  end.

Definition padStart (len : nat) (pad : list N) (s : list N) : list N :=
  if (len <=? length s)%nat then s
  else match pad with
       | [] => s
       | _ :: _ => fill pad (len - length s) pad ++ s
       end.

(** [s.substring(0, n)]. *)
Definition substring0 (n : nat) (s : list N) : list N := take n s.

End JS.

(** ** Data model (the interfaces of the sources) *)

(** [pageNum] is a number holding an integer. *)
Record TocItem := {
  docbookId : list N;
  title : list N;
  pageNum : Z;
}.

Record Metadata := {
  bookNumber : option (list N);
  extractedAt : list N;
  totalPages : Z;
  tableOfContents : list TocItem;
}.

Inductive Status := success | failed.

Record DownloadStatus := {
  ds_docbookId : list N;
  ds_title : list N;
  ds_pageNum : Z;
  ds_status : Status;
  ds_fileName : list N;
  ds_filePath : list (list N);
  ds_fileExists : bool;
  ds_fileSize : option Z;
}.

Record OutputReport := {
  r_bookNumber : option (list N);
  r_checkedAt : list N;
  r_totalPages : Z;
  successCount : Z;
  failedCount : Z;
  downloadStatuses : list DownloadStatus;
  failedItems : list TocItem;
}.

Record Chapter := {
  chapterNumber : Z;
  c_title : list N;
  startPage : Z;
  endPage : Z;
  pages : list TocItem;
}.

Definition is_success (s : DownloadStatus) : bool :=
  match ds_status s with success => true | failed => false end.

Definition is_failed (s : DownloadStatus) : bool :=
  match ds_status s with success => false | failed => true end.

(** ** The world: book directory, browser events, exceptions *)

(** What a file holds, as the programs read it back: [JSON.parse] of a
    manifest or of a report, a PDF that [PDFDocument.load] accepts (its
    pages are named by numbers), or bytes that neither accepts. *)
Inductive Content :=
| CMetadata (m : Metadata)
| CReport (r : OutputReport)
| CPdf (pgs : list N)
| CRaw.

(** [f_size] is what [fs.statSync] reports; [None] when it throws. *)
Record File := {
  f_size : option Z;
  f_data : Content;
}.

(** What the browser side of a run does, in program order: launching and
    closing the browser, the capture of one page on the login page, and one
    batch of captures started together.  Timers and console output are not
    recorded. *)
Inductive Event :=
| EvLaunch
| EvClose
| EvSequential (item : TocItem)
| EvBatch (items : list TocItem).

Record World := {
  files : gmap (list (list N)) File;
  events : list Event;
}.

Inductive Err :=
| MetadataNotFound
| NoSuchFile
| StatFailed
| SyntaxError
| TypeError
| LoginFailed
| NoBookNumberInUrl
| CaptureFailed.

Inductive Outcome (A : Type) :=
| Returned (a : A)
| Thrown (e : Err)
| Exited (code : Z).

Arguments Returned {A} a.
Arguments Thrown {A} e.
Arguments Exited {A} code.

(** The collaborators outside the programs: the clock ([now]), the size
    in bytes of what [writeFileSync] writes, the working directory, whether
    the login succeeds, the book number found in [page.url()], and the page
    capture, which yields the artifact or fails. *)
Record Env := {
  now : list N;
  encoded_size : Content -> Z;
  cwd : list (list N);
  login_ok : bool;
  page_url_book : option (list N);
  capture : list N -> TocItem -> option File;
}.

Definition M (A : Type) : Type := World -> Outcome A * World.

Definition ret {A} (a : A) : M A := fun w => (Returned a, w).

Definition bind {A B} (c : M A) (k : A -> M B) : M B :=
  fun w =>
    match c w with
    | (Returned a, w') => k a w'
    | (Thrown e, w') => (Thrown e, w')
    | (Exited n, w') => (Exited n, w')
    end.

Definition throw {A} (e : Err) : M A := fun w => (Thrown e, w).

Definition exit {A} (code : Z) : M A := fun w => (Exited code, w).

Definition try_catch {A} (c : M A) (handler : Err -> M A) : M A :=
  fun w =>
    match c w with
    | (Thrown e, w') => handler e w'
    | r => r
    end.

(** [try { c } finally { f }]; [process.exit] inside [c] skips [f]. *)
Definition try_finally {A} (c : M A) (f : M unit) : M A :=
  fun w =>
    match c w with
    | (Returned a, w') => bind f (fun _ => ret a) w'
    | (Thrown e, w') => bind f (fun _ => throw e) w'
    | (Exited n, w') => (Exited n, w')
    end.

Declare Scope io_scope.
Delimit Scope io_scope with io.
Notation "x <- c ;; k" := (bind c (fun x => k))
  (at level 100, c at next level, right associativity) : io_scope.
Notation "c ;;; k" := (bind c (fun _ => k))
  (at level 100, right associativity) : io_scope.
Local Open Scope io_scope.

Definition emit (e : Event) : M unit :=
  fun w => (Returned tt, {| files := files w; events := events w ++ [e] |}).

(** [path.join(dir, name)] for a [name] that is one path component, as the
    file names built below are. *)
Definition path_join (dir : list (list N)) (name : list N) : list (list N) :=
  dir ++ [name].

Definition existsSync (p : list (list N)) : M bool :=
  fun w => (Returned (match files w !! p with Some _ => true | None => false end), w).

Definition statSync (p : list (list N)) : M Z :=
  fun w =>
    match files w !! p with
    | Some f => match f_size f with
                | Some n => (Returned n, w)
                | None => (Thrown StatFailed, w)
                end
    | None => (Thrown NoSuchFile, w)
    end.

Definition readFileSync (p : list (list N)) : M Content :=
  fun w =>
    match files w !! p with
    | Some f => (Returned (f_data f), w)
    | None => (Thrown NoSuchFile, w)
    end.

Definition writeFileSync (env : Env) (p : list (list N)) (c : Content) : M unit :=
  fun w =>
    (Returned tt,
     {| files := <[p := {| f_size := Some (encoded_size env c); f_data := c |}]> (files w);
        events := events w |}).

(** [JSON.parse] followed by the first use of the value as a manifest. *)
Definition as_metadata (c : Content) : M Metadata :=
  match c with
  | CMetadata m => ret m
  | CReport _ => throw TypeError
  | CPdf _ | CRaw => throw SyntaxError
  end.

(** ** check-downloads.ts *)

(** Line 55. *)
Definition fileName_check (tocItem : TocItem) : list N :=
  JS.lit "page_"
  ++ JS.padStart 3 (JS.lit "0") (JS.toString (pageNum tocItem))
  ++ JS.lit "_"
  ++ JS.replace_class (fun c => negb (JS.is_alnum c)) (JS.lit "_") (docbookId tocItem)
  ++ JS.lit ".pdf".

(** The body of the loop of lines 54-85, up to the two pushes. *)
Definition check_item (bookDir : list (list N)) (tocItem : TocItem) : M DownloadStatus :=
  let fileName := fileName_check tocItem in
  let filePath := path_join bookDir fileName in
  fileExists <- existsSync filePath ;;
  fileSize <- (if fileExists
               then try_catch (n <- statSync filePath ;; ret (Some n))
                              (fun _ => ret None)
               else ret None) ;;
  ret {| ds_docbookId := docbookId tocItem;
         ds_title := title tocItem;
         ds_pageNum := pageNum tocItem;
         ds_status :=
           if fileExists &&
              match fileSize with None => true | Some n => 1000 <? n end
           then success else failed;
         ds_fileName := fileName;
         ds_filePath := filePath;
         ds_fileExists := fileExists;
         ds_fileSize := fileSize |}.

Fixpoint check_loop (bookDir : list (list N)) (toc : list TocItem)
         (downloadStatuses : list DownloadStatus) (failedItems : list TocItem)
  : M (list DownloadStatus * list TocItem) :=
  match toc with
  | [] => ret (downloadStatuses, failedItems)
  | tocItem :: rest =>
      status <- check_item bookDir tocItem ;;
      check_loop bookDir rest (downloadStatuses ++ [status])
        (match ds_status status with
         | failed => failedItems ++ [tocItem]
         | success => failedItems
         end)
  end.

Definition checkDownloadStatus (env : Env) (bookDir : list (list N)) : M OutputReport :=
  let metadataPath := path_join bookDir (JS.lit "metadata.json") in
  present <- existsSync metadataPath ;;
  if negb present then throw MetadataNotFound else
  raw <- readFileSync metadataPath ;;
  metadata <- as_metadata raw ;;
  acc <- check_loop bookDir (tableOfContents metadata) [] [] ;;
  let '(statuses, failedItems) := acc in
  let report :=
    {| r_bookNumber := bookNumber metadata;
       r_checkedAt := now env;
       r_totalPages := totalPages metadata;
       successCount := Z.of_nat (length (List.filter is_success statuses));
       failedCount := Z.of_nat (length (List.filter is_failed statuses));
       downloadStatuses := statuses;
       failedItems := failedItems |} in
  writeFileSync env (path_join bookDir (JS.lit "output.json")) (CReport report) ;;;
  ret report.

(** [getFailedItems]; [None] is [undefined], read from a JSON object that
    has no [failedItems]. *)
Definition getFailedItems (env : Env) (bookDir : list (list N))
  : M (option (list TocItem)) :=
  let outputPath := path_join bookDir (JS.lit "output.json") in
  present <- existsSync outputPath ;;
  if negb present then
    report <- checkDownloadStatus env bookDir ;;
    ret (Some (failedItems report))
  else
    raw <- readFileSync outputPath ;;
    match raw with
    | CReport report => ret (Some (failedItems report))
    | CMetadata _ => ret None
    | CPdf _ | CRaw => throw SyntaxError
    end.

(** ** merge-chapters.ts *)

(** [titleLower.includes("premessa")], line 68. *)
Definition is_premessa (title : list N) : bool :=
  JS.includes (JS.lit "premessa") (JS.toLowerCase title).

(** [title.match(/^Capitolo\s+\d+/i)], line 89: the literal, then at least
    one white space, then at least one digit. *)
Definition isChapterStart (title : list N) : bool :=
  match JS.match_literal_ci (JS.lit "Capitolo") title with
  | Some (c :: rest) =>
      JS.is_space c &&
      match JS.drop_leading JS.is_space rest with
      | d :: _ => JS.is_digit d
      | [] => false
      end
  | _ => false
  end.

(** The variables of the loop of [identifyChapters]. *)
Record SegState := {
  st_chapters : list Chapter;
  st_currentChapter : option Chapter;
  st_chapterNumber : Z;
}.

Definition set_endPage (e : Z) (c : Chapter) : Chapter :=
  {| chapterNumber := chapterNumber c; c_title := c_title c;
     startPage := startPage c; endPage := e; pages := pages c |}.

Definition push_page (item : TocItem) (c : Chapter) : Chapter :=
  {| chapterNumber := chapterNumber c; c_title := c_title c;
     startPage := startPage c; endPage := endPage c;
     pages := pages c ++ [item] |}.

(** "Save previous chapter if exists", lines 70-73 and 93-96. *)
Definition save_previous (st : SegState) (item : TocItem) : list Chapter :=
  match st_currentChapter st with
  | Some c => st_chapters st ++ [set_endPage (pageNum item - 1) c]
  | None => st_chapters st
  end.

(** One iteration of the loop, lines 63-113; [len] is [tocItems.length]. *)
Definition segment_step (len : Z) (st : SegState) (item : TocItem) : SegState :=
  if is_premessa (title item) then
    {| st_chapters :=
         save_previous st item ++
         [ {| chapterNumber := 0; c_title := title item;
              startPage := pageNum item; endPage := pageNum item;
              pages := [item] |} ];
       st_currentChapter := None;
       st_chapterNumber := st_chapterNumber st |}
  else if isChapterStart (title item) then
    {| st_chapters := save_previous st item;
       st_currentChapter :=
         Some {| chapterNumber := st_chapterNumber st + 1; c_title := title item;
                 startPage := pageNum item; endPage := len;
                 pages := [item] |};
       st_chapterNumber := st_chapterNumber st + 1 |}
  else
    match st_currentChapter st with
    | Some c =>
        {| st_chapters := st_chapters st;
           st_currentChapter := Some (push_page item c);
           st_chapterNumber := st_chapterNumber st |}
    | None => st
    end.

Definition segment_init : SegState :=
  {| st_chapters := []; st_currentChapter := None; st_chapterNumber := 0 |}.

Definition segment_loop (len : Z) (st : SegState) (items : list TocItem) : SegState :=
  List.fold_left (segment_step len) items st.

(** "Add the last chapter", lines 117-120.  An open chapter was opened by
    an item, so [tocItems[tocItems.length - 1]] exists whenever it is read. *)
Definition segment_finish (tocItems : list TocItem) (st : SegState) : list Chapter :=
  match st_currentChapter st with
  | Some c =>
      match last tocItems with
      | Some l => st_chapters st ++ [set_endPage (pageNum l) c]
      | None => st_chapters st
      end
  | None => st_chapters st
  end.

Definition identifyChapters (tocItems : list TocItem) : list Chapter :=
  segment_finish tocItems
    (segment_loop (Z.of_nat (length tocItems)) segment_init tocItems).

(** Lines 195-217. *)
Definition sanitizeFileName (title : list N) : list N :=
  let s := JS.replace_class (JS.in_range 224 229) (JS.lit "a") title in
  let s := JS.replace_class (JS.in_range 232 235) (JS.lit "e") s in
  let s := JS.replace_class (JS.in_range 236 239) (JS.lit "i") s in
  let s := JS.replace_class (JS.in_range 242 246) (JS.lit "o") s in
  let s := JS.replace_class (JS.in_range 249 252) (JS.lit "u") s in
  let s := JS.replace_class (fun c => (c =? 231)%N) (JS.lit "c") s in
  let s := JS.replace_class (fun c => (c =? 241)%N) (JS.lit "n") s in
  let s := JS.replace_class (fun c => (c =? 39)%N || (c =? 39)%N || (c =? 96)%N) [] s in
  let s := JS.replace_class
             (fun c => negb (JS.is_alnum c || JS.is_space c || (c =? 45)%N
                             || (c =? 95)%N || (c =? 46)%N)) [] s in
  let s := JS.replace_runs JS.is_space (JS.lit "_") s in
  let s := JS.strip_both (fun c => (c =? 95)%N) s in
  let s := JS.toLowerCase s in
  JS.substring0 80 s.

(** Lines 140-142. *)
Definition fileName_merge (page : TocItem) : list N :=
  JS.lit "page_"
  ++ JS.padStart 3 (JS.lit "0") (JS.toString (pageNum page))
  ++ JS.lit "_"
  ++ JS.replace_class (fun c => negb (JS.is_alnum c)) (JS.lit "_") (docbookId page)
  ++ JS.lit ".pdf".

(** [PDFDocument.load]. *)
Definition PDFDocument_load (c : Content) : M (list N) :=
  match c with
  | CPdf pgs => ret pgs
  | _ => throw SyntaxError
  end.

(** The empty A4 page; the page name 0 is kept for it. *)
Definition blank_page : N := 0%N.

(** [mergedPdf.save()], line 186: a document without pages is given one
    empty page before it is serialised. *)
Definition PDFDocument_save (pgs : list N) : list N :=
  match pgs with
  | [] => [blank_page]
  | _ :: _ => pgs
  end.

(** The loop of lines 139-168; [mergedPdf] is the document built so far. *)
Fixpoint merge_pages_loop (bookDir : list (list N)) (pgs : list TocItem)
         (mergedPdf : list N) : M (list N) :=
  match pgs with
  | [] => ret mergedPdf
  | page :: rest =>
      let filePath := path_join bookDir (fileName_merge page) in
      present <- existsSync filePath ;;
      if negb present then merge_pages_loop bookDir rest mergedPdf
      else
        mergedPdf' <- try_catch
                        (pdfBytes <- readFileSync filePath ;;
                         pdf <- PDFDocument_load pdfBytes ;;
                         ret (mergedPdf ++ pdf))
                        (fun _ => ret mergedPdf) ;;
        merge_pages_loop bookDir rest mergedPdf'
  end.

(** Lines 171-182. *)
Definition outputFileName (chapter : Chapter) : list N :=
  if chapterNumber chapter =? 0 then JS.lit "premessa.pdf"
  else JS.lit "chapter_"
       ++ JS.padStart 2 (JS.lit "0") (JS.toString (chapterNumber chapter))
       ++ JS.lit "_" ++ sanitizeFileName (c_title chapter) ++ JS.lit ".pdf".

Definition mergeChapterPages (env : Env) (bookDir processedDir : list (list N))
           (chapter : Chapter) : M unit :=
  try_catch
    (mergedPdf <- merge_pages_loop bookDir (pages chapter) [] ;;
     let outputPath := path_join processedDir (outputFileName chapter) in
     let pdfBytes := CPdf (PDFDocument_save mergedPdf) in
     writeFileSync env outputPath pdfBytes)
    (fun _ => ret tt).

Fixpoint for_each {A} (f : A -> M unit) (l : list A) : M unit :=
  match l with
  | [] => ret tt
  | x :: l' => f x ;;; for_each f l'
  end.

(** Lines 26-55; creating the [processed] directory leaves no file. *)
Definition mergeChapterPDFs (env : Env) (bookDir : list (list N)) : M unit :=
  let metadataPath := path_join bookDir (JS.lit "metadata.json") in
  present <- existsSync metadataPath ;;
  if negb present then throw MetadataNotFound else
  raw <- readFileSync metadataPath ;;
  metadata <- as_metadata raw ;;
  let chapters := identifyChapters (tableOfContents metadata) in
  let processedDir := path_join bookDir (JS.lit "processed") in
  for_each (mergeChapterPages env bookDir processedDir) chapters.

(** ** index.ts *)

(** Lines 543-545, in [extractAndGeneratePDF]. *)
Definition fileName_capture (tocItem : TocItem) : list N :=
  JS.lit "page_"
  ++ JS.padStart 3 (JS.lit "0") (JS.toString (pageNum tocItem))
  ++ JS.lit "_"
  ++ JS.replace_class (fun c => negb (JS.is_alnum c)) (JS.lit "_") (docbookId tocItem)
  ++ JS.lit ".pdf".

Definition putFile (p : list (list N)) (f : File) : M unit :=
  fun w => (Returned tt, {| files := <[p := f]> (files w); events := events w |}).

(** Navigation, waiting and [extractAndGeneratePDF]: the page capture either
    writes the artifact or throws. *)
Definition capture_page (env : Env) (tocItem : TocItem)
           (bookDir : list (list N)) (bookNumber : list N) : M unit :=
  match capture env bookNumber tocItem with
  | Some f => putFile (path_join bookDir (fileName_capture tocItem)) f
  | None => throw CaptureFailed
  end.

(** [downloadSinglePage]: the error is logged and thrown again. *)
Definition downloadSinglePage (env : Env) (tocItem : TocItem)
           (bookDir : list (list N)) (bookNumber : list N) : M unit :=
  emit (EvSequential tocItem) ;;;
  try_catch (capture_page env tocItem bookDir bookNumber) (fun e => throw e).

(** [downloadSinglePageWithNewPage]: the error is logged and swallowed. *)
Definition downloadSinglePageWithNewPage (env : Env) (tocItem : TocItem)
           (bookDir : list (list N)) (bookNumber : list N) : M unit :=
  try_catch (capture_page env tocItem bookDir bookNumber) (fun _ => ret tt).

Definition batchSize : nat := 10.

(** [tocItems.slice(i, j)]. *)
Definition slice {A} (i j : nat) (l : list A) : list A := take (j - i) (drop i l).

(** The loop of lines 357-385 from index [i].  Each turn adds [batchSize]
    to [i], so [fuel] turns are never used up when [fuel] is the length of
    the list.  The members of a batch are settled in list order. *)
Fixpoint batch_loop (env : Env) (fuel i : nat) (tocItems : list TocItem)
         (bookDir : list (list N)) (bookNumber : list N) : M unit :=
  match fuel with
  | O => ret tt
  | S fuel' =>
      if (i <? length tocItems)%nat then
        let batch := slice i (i + batchSize) tocItems in
        emit (EvBatch batch) ;;;
        for_each (fun tocItem =>
                    downloadSinglePageWithNewPage env tocItem bookDir bookNumber)
                 batch ;;;
        batch_loop env fuel' (i + batchSize) tocItems bookDir bookNumber
      else ret tt
  end.

Definition downloadPagesInBatches (env : Env) (tocItems : list TocItem)
           (bookDir : list (list N)) (bookNumber : list N) : M unit :=
  batch_loop env (length tocItems) 0 tocItems bookDir bookNumber.

(** A string used as a condition: [undefined] and the empty string are falsy. *)
Definition truthy (s : option (list N)) : option (list N) :=
  match s with
  | Some (c :: r) => Some (c :: r)
  | _ => None
  end.

(** Lines 268-285 and 698-715: the first page alone, then the rest. *)
Definition download_all (env : Env) (tocItems : list TocItem)
           (bookDir : list (list N)) (bookNumber : list N) : M unit :=
  match tocItems with
  | [] => throw TypeError
  | first :: _ =>
      downloadSinglePage env first bookDir bookNumber ;;;
      if (1 <? length tocItems)%nat
      then downloadPagesInBatches env (drop 1 tocItems) bookDir bookNumber
      else ret tt
  end.

(** [downloadPagesAsPDF], lines 220-305. *)
Definition downloadPagesAsPDF (env : Env) (tocItems : list TocItem)
           (bookNumber : option (list N)) : M unit :=
  try_catch
    (finalBookNumber <-
       match truthy bookNumber with
       | Some b => ret b
       | None => match page_url_book env with
                 | Some b => ret b
                 | None => throw NoBookNumberInUrl
                 end
       end ;;
     let bookFolderName :=
       JS.replace_class (fun c => negb (JS.is_alnum c)) (JS.lit "_") finalBookNumber in
     let bookDir := cwd env ++ [JS.lit "downloads"; bookFolderName] in
     let metadata :=
       {| bookNumber := bookNumber; extractedAt := now env;
          totalPages := Z.of_nat (length tocItems);
          tableOfContents := tocItems |} in
     writeFileSync env (path_join bookDir (JS.lit "metadata.json")) (CMetadata metadata) ;;;
     download_all env tocItems bookDir finalBookNumber ;;;
     try_catch (mergeChapterPDFs env bookDir) (fun _ => ret tt))
    (fun e => throw e).

(** [downloadPagesAsPDFForRetry], lines 687-722. *)
Definition downloadPagesAsPDFForRetry (env : Env) (tocItems : list TocItem)
           (bookDir : list (list N)) (bookNumber : list N) : M unit :=
  try_catch (download_all env tocItems bookDir bookNumber) (fun e => throw e).

(** [loginToPandoraCampus]: the browser is launched; when the login fails it
    is closed and the error thrown again. *)
Definition loginToPandoraCampus (env : Env) : M unit :=
  emit EvLaunch ;;;
  if login_ok env then ret tt else (emit EvClose ;;; throw LoginFailed).

(** [x || fallback] on strings and on numbers. *)
Definition or_string (s : option (list N)) (fallback : list N) : list N :=
  match truthy s with Some v => v | None => fallback end.

Definition or_zero (n : option Z) : Z :=
  match n with Some v => v | None => 0 end.

Definition unknown_title (docbookId : list N) : list N :=
  JS.lit "Unknown Title (" ++ docbookId ++ JS.lit ")".

(** "Last resort: create fake data", lines 802-806 and 816-820. *)
Definition fake_items (failedDocbookIds : list (list N)) : list TocItem :=
  imap (fun index id =>
          {| docbookId := id;
             title := JS.lit "Retry Page " ++ JS.toString (Z.of_nat index + 1);
             pageNum := Z.of_nat index + 1 |})
       failedDocbookIds.

(** Lines 760-821. *)
Definition reconstruct_items (bookDir : list (list N))
           (failedDocbookIds : list (list N)) : M (list TocItem) :=
  try_catch
    (let outputPath := path_join bookDir (JS.lit "output.json") in
     present <- existsSync outputPath ;;
     if present then
       raw <- readFileSync outputPath ;;
       statuses <- match raw with
                   | CReport r => ret (downloadStatuses r)
                   | CMetadata _ => ret []
                   | CPdf _ | CRaw => throw SyntaxError
                   end ;;
       ret (List.map
              (fun id =>
                 let item := List.find (fun s => bool_decide (ds_docbookId s = id)) statuses in
                 {| docbookId := id;
                    title := or_string (ds_title <$> item) (unknown_title id);
                    pageNum := or_zero (ds_pageNum <$> item) |})
              failedDocbookIds)
     else
       let metadataPath := path_join bookDir (JS.lit "metadata.json") in
       present' <- existsSync metadataPath ;;
       if present' then
         raw <- readFileSync metadataPath ;;
         toc <- match raw with
                | CMetadata m => ret (tableOfContents m)
                | CReport _ => ret []
                | CPdf _ | CRaw => throw SyntaxError
                end ;;
         ret (List.map
                (fun id =>
                   let item := List.find (fun t => bool_decide (docbookId t = id)) toc in
                   {| docbookId := id;
                      title := or_string (title <$> item) (unknown_title id);
                      pageNum := or_zero (pageNum <$> item) |})
                failedDocbookIds)
       else ret (fake_items failedDocbookIds))
    (fun _ => ret (fake_items failedDocbookIds)).

(** [bookDir.split(/[/\\]/).pop() || ""] with every [_] turned into [.]. *)
Definition inferred_book_number (bookDir : list (list N)) : list N :=
  JS.replace_class (fun c => (c =? 95)%N) (JS.lit ".")
    (match last bookDir with Some d => d | None => [] end).

(** [retryFailedDownloads], lines 725-845.  The [finally] block is reached
    only when the body returned, and then [browser] is set. *)
Definition retryFailedDownloads (env : Env) (bookDir : list (list N))
           (bookId : option (list N)) : M unit :=
  failed_opt <- getFailedItems env bookDir ;;
  match failed_opt with
  | None => throw TypeError
  | Some failedItems =>
      if (length failedItems =? 0)%nat then ret tt
      else
        let failedDocbookIds := List.map docbookId failedItems in
        try_finally
          (try_catch
             (loginToPandoraCampus env ;;;
              tocItems <- reconstruct_items bookDir failedDocbookIds ;;
              let bookNumber :=
                match truthy bookId with
                | Some b => b
                | None => inferred_book_number bookDir
                end in
              downloadPagesAsPDFForRetry env tocItems bookDir bookNumber)
             (fun _ => exit 1))
          (emit EvClose)
  end.

(** ** cleanup-files.ts *)

(** Lines 66-71. *)
Definition fileName_cleanup (item : TocItem) : list N :=
  JS.lit "page_"
  ++ JS.padStart 3 (JS.lit "0") (JS.toString (pageNum item))
  ++ JS.lit "_"
  ++ JS.replace_class (fun c => negb (JS.is_alnum c)) (JS.lit "_") (docbookId item)
  ++ JS.lit ".pdf".

(** [getExpectedFiles], lines 30-88. *)
Definition getExpectedFiles (bookDir : list (list N)) : M (gset (list N)) :=
  let expectedFiles : gset (list N) := {[ JS.lit "output.json"; JS.lit "metadata.json" ]} in
  try_catch
    (let outputPath := path_join bookDir (JS.lit "output.json") in
     present <- existsSync outputPath ;;
     if present then
       raw <- readFileSync outputPath ;;
       statuses <- match raw with
                   | CReport r => ret (downloadStatuses r)
                   | CMetadata _ => ret []
                   | CPdf _ | CRaw => throw SyntaxError
                   end ;;
       ret (expectedFiles ∪
            list_to_set (List.filter (fun n => negb (bool_decide (n = [])))
                                     (List.map ds_fileName statuses)))
     else
       let metadataPath := path_join bookDir (JS.lit "metadata.json") in
       present' <- existsSync metadataPath ;;
       if present' then
         raw <- readFileSync metadataPath ;;
         toc <- match raw with
                | CMetadata m => ret (tableOfContents m)
                | CReport _ => ret []
                | CPdf _ | CRaw => throw SyntaxError
                end ;;
         ret (expectedFiles ∪ list_to_set (List.map fileName_cleanup toc))
       else ret expectedFiles)
    (fun _ => ret expectedFiles).

(** ** Definitions used by the statements *)

(** The classification of lines 55-78 as a function of the directory. *)
Definition status_of (fs : gmap (list (list N)) File) (bookDir : list (list N))
           (tocItem : TocItem) : DownloadStatus :=
  let filePath := path_join bookDir (fileName_check tocItem) in
  let fileExists := match fs !! filePath with Some _ => true | None => false end in
  let fileSize := match fs !! filePath with Some f => f_size f | None => None end in
  {| ds_docbookId := docbookId tocItem;
     ds_title := title tocItem;
     ds_pageNum := pageNum tocItem;
     ds_status :=
       if fileExists && match fileSize with None => true | Some n => 1000 <? n end
       then success else failed;
     ds_fileName := fileName_check tocItem;
     ds_filePath := filePath;
     ds_fileExists := fileExists;
     ds_fileSize := fileSize |}.

(** The naming convention in the words of the specification:
    [page_<pageNum zero-padded to 3 digits>_<id with non-alphanumerics
    replaced by underscore>] with the extension [.pdf]. *)
Definition zero_pad (width : nat) (digits : list N) : list N :=
  List.repeat 48%N (width - length digits) ++ digits.

Definition artifact_name_spec (pageNum : Z) (id : list N) : list N :=
  JS.lit "page_" ++ zero_pad 3 (JS.toString pageNum) ++ JS.lit "_"
  ++ List.map (fun c => if JS.is_alnum c then c else 95%N) id ++ JS.lit ".pdf".

(** Sample data. *)
Definition mk_item (n : Z) (id ttl : string) : TocItem :=
  {| docbookId := JS.lit id; title := JS.lit ttl; pageNum := n |}.

Definition demo_dir : list (list N) := [JS.lit "downloads"; JS.lit "10_978_8815_415073"].

Definition demo_env : Env :=
  {| now := JS.lit "2025-01-01T00:00:00.000Z";
     encoded_size := fun _ => 2048;
     cwd := [];
     login_ok := true;
     page_url_book := Some (JS.lit "10.978.8815/415073");
     capture := fun _ _ => Some {| f_size := Some 4096; f_data := CPdf [] |} |}.

Definition demo_toc3 : list TocItem :=
  [mk_item 1 "_11_1" "Capitolo 1 Inizio"; mk_item 2 "_11_2" "1.1 Sezione";
   mk_item 3 "_11_3" "1.2 Sezione"].

Definition demo_meta3 : Metadata :=
  {| bookNumber := Some (JS.lit "10.978.8815/415073");
     extractedAt := JS.lit "2025-01-01T00:00:00.000Z";
     totalPages := 3;
     tableOfContents := demo_toc3 |}.

(** Page 1 is a good capture, page 2 a 500-byte one, page 3 is missing. *)
Definition demo_world3 : World :=
  {| files :=
       <[path_join demo_dir (JS.lit "metadata.json") :=
           {| f_size := Some 300; f_data := CMetadata demo_meta3 |}]>
       (<[path_join demo_dir (JS.lit "page_001__11_1.pdf") :=
           {| f_size := Some 52000; f_data := CPdf [1%N] |}]>
       (<[path_join demo_dir (JS.lit "page_002__11_2.pdf") :=
           {| f_size := Some 500; f_data := CPdf [2%N] |}]> ∅));
     events := [] |}.

(** The report [checkDownloadStatus] returns when the manifest is there. *)
Definition report_of (env : Env) (fs : gmap (list (list N)) File)
           (bookDir : list (list N)) (m : Metadata) : OutputReport :=
  let statuses := List.map (status_of fs bookDir) (tableOfContents m) in
  {| r_bookNumber := bookNumber m;
     r_checkedAt := now env;
     r_totalPages := totalPages m;
     successCount := Z.of_nat (length (List.filter is_success statuses));
     failedCount := Z.of_nat (length (List.filter is_failed statuses));
     downloadStatuses := statuses;
     failedItems :=
       List.filter (fun t => is_failed (status_of fs bookDir t)) (tableOfContents m) |}.

(** Two chapters overlap when their page ranges share a page number. *)
Definition overlap (a b : Chapter) : Prop :=
  exists p : Z, startPage a <= p <= endPage a /\ startPage b <= p <= endPage b.

(** The manifest invariant on page numbers: the entry at index [i] has
    [pageNum = i + 1]. *)
Definition contiguous_from_1 (toc : list TocItem) : Prop :=
  forall (i : nat) (item : TocItem), toc !! i = Some item -> pageNum item = Z.of_nat i + 1.

(** Page numbers strictly above [b] and strictly increasing. *)
Fixpoint increasing_from (b : Z) (items : list TocItem) : Prop :=
  match items with
  | [] => True
  | x :: rest => b < pageNum x /\ increasing_from (pageNum x) rest
  end.

(** The page number of the last item, [b] when there is none. *)
Definition last_page (b : Z) (items : list TocItem) : Z :=
  List.fold_left (fun _ x => pageNum x) items b.

(** Chapters in list order lie one after the other. *)
Definition chained (l : list Chapter) : Prop :=
  forall (i j : nat) (a b : Chapter),
    (i < j)%nat -> l !! i = Some a -> l !! j = Some b -> endPage a < startPage b.

(** The invariant of the loop of [identifyChapters] after an item with page
    number [lastp]. *)
Definition seg_inv (st : SegState) (lastp : Z) : Prop :=
  chained (st_chapters st) /\
  Forall (fun a => endPage a <= lastp) (st_chapters st) /\
  match st_currentChapter st with
  | Some c => startPage c <= lastp /\
              Forall (fun a => endPage a < startPage c) (st_chapters st)
  | None => True
  end.

(** The items held by the chapters of a loop state, in order. *)
Definition all_pages (st : SegState) : list TocItem :=
  concat (List.map pages (st_chapters st))
  ++ match st_currentChapter st with Some c => pages c | None => [] end.

(** Loop states that differ only in the tentative [endPage] of the open
    chapter. *)
Definition same_but_endPage (s t : SegState) : Prop :=
  st_chapters s = st_chapters t /\
  st_chapterNumber s = st_chapterNumber t /\
  match st_currentChapter s, st_currentChapter t with
  | Some c, Some d => set_endPage 0 c = set_endPage 0 d
  | None, None => True
  | _, _ => False
  end.

Definition demo_toc5 : list TocItem :=
  [mk_item 1 "_11_1" "Premessa"; mk_item 2 "_11_2" "Capitolo 1";
   mk_item 3 "_11_3" "1.1 Le fonti"; mk_item 4 "_11_4" "1.2 I soggetti";
   mk_item 5 "_11_5" "1.3 Gli atti"].

(** A preface, a page that belongs to no chapter, then a chapter. *)
Definition demo_toc_orphan : list TocItem :=
  [mk_item 1 "_11_1" "Premessa"; mk_item 2 "_11_2" "Nota dell'editore";
   mk_item 3 "_11_3" "Capitolo 1 Le fonti"; mk_item 4 "_11_4" "1.1 Sezione"].

(** The artifacts found for the pages of a chapter, in page order, and the
    PDF pages each contributes (none when it does not load). *)
Definition present_artifacts (fs : gmap (list (list N)) File) (bookDir : list (list N))
           (pgs : list TocItem) : list File :=
  omap (fun page => fs !! path_join bookDir (fileName_merge page)) pgs.

Definition pdf_pages (f : File) : list N :=
  match f_data f with CPdf p => p | _ => [] end.

(** The document C8 describes: the artifacts that exist, one after the
    other, and nothing else. *)
Definition merged_claimed (fs : gmap (list (list N)) File) (bookDir : list (list N))
           (chapter : Chapter) : Content :=
  CPdf (concat (List.map pdf_pages (present_artifacts fs bookDir (pages chapter)))).

(** Pages 1 and 3 of the chapter are on disk, page 2 is not. *)
Definition demo_chapter3 : Chapter :=
  {| chapterNumber := 1; c_title := JS.lit "Capitolo 1 Inizio";
     startPage := 1; endPage := 3; pages := demo_toc3 |}.

Definition demo_world_gap : World :=
  {| files :=
       <[path_join demo_dir (JS.lit "page_001__11_1.pdf") :=
           {| f_size := Some 52000; f_data := CPdf [11%N; 12%N] |}]>
       (<[path_join demo_dir (JS.lit "page_003__11_3.pdf") :=
           {| f_size := Some 48000; f_data := CPdf [31%N] |}]> ∅);
     events := [] |}.

(** A directory whose report lists no failed item. *)
Definition demo_report_clean : OutputReport :=
  {| r_bookNumber := Some (JS.lit "10.978.8815/415073");
     r_checkedAt := JS.lit "2025-01-01T00:00:00.000Z";
     r_totalPages := 0; successCount := 0; failedCount := 0;
     downloadStatuses := []; failedItems := [] |}.

Definition demo_world_clean : World :=
  {| files :=
       <[path_join demo_dir (JS.lit "output.json") :=
           {| f_size := Some 120; f_data := CReport demo_report_clean |}]> ∅;
     events := [] |}.

(** The batches the loop of [downloadPagesInBatches] forms from index [i]. *)
Fixpoint batches_from (fuel i : nat) (tocItems : list TocItem) : list (list TocItem) :=
  match fuel with
  | O => []
  | S fuel' =>
      if (i <? length tocItems)%nat
      then slice i (i + batchSize) tocItems :: batches_from fuel' (i + batchSize) tocItems
      else []
  end.

(** [finalBookNumber] of [downloadPagesAsPDF], when it can be determined. *)
Definition final_book_number (env : Env) (bookNumber : option (list N))
  : option (list N) :=
  match truthy bookNumber with
  | Some b => Some b
  | None => page_url_book env
  end.

(** A computation that leaves the browser alone and does not end the
    process. *)
Definition keeps_events {A} (c : M A) : Prop :=
  forall w, events (c w).2 = events w /\ forall n, (c w).1 <> Exited n.

(** A computation that moreover always returns. *)
Definition returns_quietly (c : M unit) : Prop :=
  forall w, exists w', c w = (Returned tt, w') /\ events w' = events w.

Definition batch_lengths (evs : list Event) : list nat :=
  omap (fun e => match e with EvBatch b => Some (length b) | _ => None end) evs.

Definition demo_toc12 : list TocItem :=
  [mk_item 1 "_11_1" "Premessa"; mk_item 2 "_11_2" "Capitolo 1 Le fonti";
   mk_item 3 "_11_3" "1.1"; mk_item 4 "_11_4" "1.2"; mk_item 5 "_11_5" "1.3";
   mk_item 6 "_11_6" "1.4"; mk_item 7 "_11_7" "Capitolo 2 I soggetti";
   mk_item 8 "_11_8" "2.1"; mk_item 9 "_11_9" "2.2"; mk_item 10 "_11_10" "2.3";
   mk_item 11 "_11_11" "2.4"; mk_item 12 "_11_12" "2.5"].

Definition empty_world : World := {| files := ∅; events := [] |}.

(** *** Title sanitization, in the words of the specification *)

(** "Accented characters to their unaccented base form": the accented
    letters of Latin-1, upper and lower case. *)
Definition base_form (c : N) : N :=
  if JS.in_range 192 197 c then 65%N
  else if (c =? 199)%N then 67%N
  else if JS.in_range 200 203 c then 69%N
  else if JS.in_range 204 207 c then 73%N
  else if (c =? 209)%N then 78%N
  else if JS.in_range 210 214 c then 79%N
  else if JS.in_range 217 220 c then 85%N
  else if (c =? 221)%N then 89%N
  else if JS.in_range 224 229 c then 97%N
  else if (c =? 231)%N then 99%N
  else if JS.in_range 232 235 c then 101%N
  else if JS.in_range 236 239 c then 105%N
  else if (c =? 241)%N then 110%N
  else if JS.in_range 242 246 c then 111%N
  else if JS.in_range 249 252 c then 117%N
  else if (c =? 253)%N || (c =? 255)%N then 121%N
  else c.

(** Quote and apostrophe characters: apostrophe, double quote, backtick and
    the curly quotes. *)
Definition is_quote (c : N) : bool :=
  ((c =? 39) || (c =? 34) || (c =? 96)
   || (c =? 8216) || (c =? 8217) || (c =? 8220) || (c =? 8221))%N.

(** The set [[A-Za-z0-9 _.-]]. *)
Definition in_claimed_set (c : N) : bool :=
  (JS.is_alnum c || (c =? 32) || (c =? 95) || (c =? 46) || (c =? 45))%N.

Definition is_underscore (c : N) : bool := (c =? 95)%N.

Definition sanitize_claimed (title : list N) : list N :=
  take 80
    (JS.toLowerCase
       (JS.strip_both is_underscore
          (JS.replace_runs JS.is_space [95%N]
             (List.filter in_claimed_set
                (List.filter (fun c => negb (is_quote c))
                   (List.map base_form title)))))).

(** *** Title sanitization, as the code does it *)

(** The replacements of lines 199-205: lower-case accented letters only. *)
Definition translit (c : N) : N :=
  if JS.in_range 224 229 c then 97%N
  else if JS.in_range 232 235 c then 101%N
  else if JS.in_range 236 239 c then 105%N
  else if JS.in_range 242 246 c then 111%N
  else if JS.in_range 249 252 c then 117%N
  else if (c =? 231)%N then 99%N
  else if (c =? 241)%N then 110%N
  else c.

(** What line 209 keeps: [[a-zA-Z0-9\s\-_.]]. *)
Definition kept (c : N) : bool :=
  (JS.is_alnum c || JS.is_space c || (c =? 45) || (c =? 95) || (c =? 46))%N.

Definition ascii_lower (c : N) : N := if JS.is_upper c then (c + 32)%N else c.

Definition sanitize_amended (title : list N) : list N :=
  take 80
    (List.map ascii_lower
       (JS.strip_both is_underscore
          (JS.replace_runs JS.is_space [95%N]
             (List.filter kept (List.map translit title))))).

(** The alphabet of a sanitized title: [[a-z0-9_.-]]. *)
Definition in_file_alphabet (c : N) : bool :=
  (JS.is_lower c || JS.is_digit c || (c =? 45) || (c =? 95) || (c =? 46))%N.

(** What is left once white space has become underscores: [[a-zA-Z0-9_.-]]. *)
Definition no_space_kept (c : N) : bool :=
  (JS.is_alnum c || (c =? 45) || (c =? 95) || (c =? 46))%N.

(** One code unit under [replace(/[cls]/g, r)] with a one-unit replacement. *)
Definition subst_class (cls : N -> bool) (r : N) (c : N) : N :=
  if cls c then r else c.

(** ** Definitions used by the further properties *)

(** The manifest [checkDownloadStatus] and [mergeChapterPDFs] read, when
    [metadata.json] is there and parses to one. *)
Definition read_manifest (fs : gmap (list (list N)) File) (bookDir : list (list N))
  : option Metadata :=
  match fs !! path_join bookDir (JS.lit "metadata.json") with
  | Some f => match f_data f with CMetadata m => Some m | _ => None end
  | None => None
  end.

Definition set_checkedAt (t : list N) (r : OutputReport) : OutputReport :=
  {| r_bookNumber := r_bookNumber r; r_checkedAt := t;
     r_totalPages := r_totalPages r; successCount := successCount r;
     failedCount := failedCount r; downloadStatuses := downloadStatuses r;
     failedItems := failedItems r |}.

(** A directory without manifest, and one whose [metadata.json] is not JSON. *)
Definition demo_world_raw : World :=
  {| files := <[path_join demo_dir (JS.lit "metadata.json") :=
                  {| f_size := Some 10; f_data := CRaw |}]> ∅;
     events := [] |}.

Definition demo_env_later : Env :=
  {| now := JS.lit "2025-02-02T00:00:00.000Z";
     encoded_size := fun _ => 4096;
     cwd := [];
     login_ok := false;
     page_url_book := None;
     capture := fun _ _ => None |}.

(** A chapter marker: a Premessa page or a chapter start. *)
Definition is_marker (item : TocItem) : bool :=
  is_premessa (title item) || isChapterStart (title item).

(** A chapter start that is not taken as a Premessa page. *)
Definition is_numbered_marker (item : TocItem) : bool :=
  negb (is_premessa (title item)) && isChapterStart (title item).

(** The chapter [c] was opened by the item [m]: it is its first page and
    gives it its title and start page. *)
Definition opened_by (c : Chapter) (m : TocItem) : Prop :=
  head (pages c) = Some m /\ c_title c = title m /\ startPage c = pageNum m.

(** Chapter number 0 is that of Premessa pages, and of them only. *)
Definition numbered_by (c : Chapter) (m : TocItem) : Prop :=
  (chapterNumber c = 0 <-> is_premessa (title m) = true) /\ 0 <= chapterNumber c.

(** The chapters of a loop state, the open one last. *)
Definition st_all (st : SegState) : list Chapter :=
  st_chapters st ++ match st_currentChapter st with Some c => [c] | None => [] end.

(** A table of contents with two chapters, a preface in between and pages
    that belong to none. *)
Definition demo_toc8 : list TocItem :=
  [mk_item 1 "_1" "Indice"; mk_item 2 "_2" "Capitolo 1 Le fonti";
   mk_item 3 "_3" "1.1 Nozione"; mk_item 4 "_4" "Premessa alla parte seconda";
   mk_item 5 "_5" "Avvertenza"; mk_item 6 "_6" "capitolo  2 I soggetti";
   mk_item 7 "_7" "2.1 Persone"; mk_item 8 "_8" "2.2 Enti"].

(** Page numbers [b + 1], [b + 2], ... in order. *)
Fixpoint consecutive_from (b : Z) (items : list TocItem) : Prop :=
  match items with
  | [] => True
  | x :: rest => pageNum x = b + 1 /\ consecutive_from (b + 1) rest
  end.

(** The pages of the chapter are exactly those numbered [startPage] to
    [endPage], in order, and there is at least one. *)
Definition exact_range (c : Chapter) : Prop :=
  List.map pageNum (pages c) = seqZ (startPage c) (endPage c - startPage c + 1) /\
  startPage c <= endPage c.

(** The invariant of the loop for consecutive page numbers, after the page
    numbered [lastp]. *)
Definition range_inv (st : SegState) (lastp : Z) : Prop :=
  Forall exact_range (st_chapters st) /\
  match st_currentChapter st with
  | Some c => List.map pageNum (pages c) = seqZ (startPage c) (lastp - startPage c + 1) /\
              startPage c <= lastp
  | None => True
  end.

(** A computation that changes no file outside the paths in [P]. *)
Definition writes_only {A} (P : list (list N) -> Prop) (c : M A) : Prop :=
  forall w p, ~ P p -> files (c w).2 !! p = files w !! p.

(** The file [mergeChapterPages] writes for a chapter, read off the book
    directory [fs]. *)
Definition merged_file (env : Env) (fs : gmap (list (list N)) File)
           (bookDir : list (list N)) (chapter : Chapter) : File :=
  let doc := CPdf (PDFDocument_save
                     (concat (List.map pdf_pages
                                (present_artifacts fs bookDir (pages chapter))))) in
  {| f_size := Some (encoded_size env doc); f_data := doc |}.

(** The paths of the chapter documents of a directory. *)
Definition in_processed (bookDir : list (list N)) (p : list (list N)) : Prop :=
  exists name, p = path_join (path_join bookDir (JS.lit "processed")) name.

(** The paths of the page artifacts of a directory. *)
Definition is_artifact_path (bookDir : list (list N)) (p : list (list N)) : Prop :=
  exists t, p = path_join bookDir (fileName_capture t).

(** A book directory with a manifest and two of its three pages. *)
Definition demo_world_book : World :=
  {| files :=
       <[path_join demo_dir (JS.lit "metadata.json") :=
           {| f_size := Some 300; f_data := CMetadata demo_meta3 |}]>
       (files demo_world_gap);
     events := [] |}.

(** The directory after the captures of [items], taken one after the other:
    a capture that succeeds stores its artifact, one that fails stores
    nothing. *)
Definition store_captures (env : Env) (bookNumber : list N) (bookDir : list (list N))
           (items : list TocItem) (fs : gmap (list (list N)) File)
  : gmap (list (list N)) File :=
  List.fold_left
    (fun fs t =>
       match capture env bookNumber t with
       | Some f => <[path_join bookDir (fileName_capture t) := f]> fs
       | None => fs
       end)
    items fs.

(** An environment where the capture of page 2 fails. *)
Definition demo_env_flaky : Env :=
  {| now := JS.lit "2025-01-01T00:00:00.000Z";
     encoded_size := fun _ => 2048;
     cwd := [];
     login_ok := true;
     page_url_book := Some (JS.lit "10.978.8815/415073");
     capture := fun _ t =>
       if pageNum t =? 2 then None
       else Some {| f_size := Some 4096; f_data := CPdf [Z.to_N (pageNum t)] |} |}.

(** The book directory [downloadPagesAsPDF] uses for a book number
    (lines 250-251). *)
Definition book_dir_of (env : Env) (finalBookNumber : list N) : list (list N) :=
  cwd env ++ [JS.lit "downloads";
              JS.replace_class (fun c => negb (JS.is_alnum c)) (JS.lit "_") finalBookNumber].

(** An artifact the reconciler accepts: its size is unknown or above 1000. *)
Definition viable (f : File) : Prop :=
  match f_size f with Some n => 1000 < n | None => True end.

Definition has_viable (fs : gmap (list (list N)) File) (p : list (list N)) : Prop :=
  exists f, fs !! p = Some f /\ viable f.

(** The page descriptors [retryFailedDownloads] rebuilds for the failed ids
    (lines 760-821), as a function of the directory. *)
Definition reconstructed (fs : gmap (list (list N)) File) (bookDir : list (list N))
           (failedDocbookIds : list (list N)) : list TocItem :=
  match fs !! path_join bookDir (JS.lit "output.json") with
  | Some f =>
      match f_data f with
      | CReport r =>
          List.map
            (fun id =>
               let item := List.find (fun s => bool_decide (ds_docbookId s = id))
                                     (downloadStatuses r) in
               {| docbookId := id;
                  title := or_string (ds_title <$> item) (unknown_title id);
                  pageNum := or_zero (ds_pageNum <$> item) |})
            failedDocbookIds
      | CMetadata _ =>
          List.map (fun id => {| docbookId := id; title := unknown_title id; pageNum := 0 |})
                   failedDocbookIds
      | CPdf _ | CRaw => fake_items failedDocbookIds
      end
  | None =>
      match fs !! path_join bookDir (JS.lit "metadata.json") with
      | Some f =>
          match f_data f with
          | CMetadata m =>
              List.map
                (fun id =>
                   let item := List.find (fun t => bool_decide (docbookId t = id))
                                         (tableOfContents m) in
                   {| docbookId := id;
                      title := or_string (title <$> item) (unknown_title id);
                      pageNum := or_zero (pageNum <$> item) |})
                failedDocbookIds
          | CReport _ =>
              List.map (fun id => {| docbookId := id; title := unknown_title id; pageNum := 0 |})
                       failedDocbookIds
          | CPdf _ | CRaw => fake_items failedDocbookIds
          end
      | None => fake_items failedDocbookIds
      end
  end.

(** The book number [retryFailedDownloads] uses (lines 823-832). *)
Definition retry_book_number (bookDir : list (list N)) (bookId : option (list N)) : list N :=
  match truthy bookId with
  | Some b => b
  | None => inferred_book_number bookDir
  end.

(** The directory [checkDownloadStatus] leaves for [demo_world3]. *)
Definition demo_world_checked : World :=
  (checkDownloadStatus demo_env demo_dir demo_world3).2.

(** ** cleanup-files.ts: cleanupDirectory *)

(** Directories are not stored: a directory is there when a file lies below
    it.  [entry_name dir p] is the name of the entry of [dir] under which
    the path [p] lies. *)
Definition entry_name (dir p : list (list N)) : option (list N) :=
  if bool_decide (take (length dir) p = dir) then head (drop (length dir) p) else None.

(** The names [fs.readdirSync(dir)] lists: the files and the subdirectories
    of [dir], each once. *)
Definition dir_entries (fs : gmap (list (list N)) File) (dir : list (list N))
  : list (list N) :=
  elements (list_to_set (omap (entry_name dir) (elements (dom fs))) : gset (list N)).

(** [fs.existsSync] on a path that may be a directory. *)
Definition existsSync_any (p : list (list N)) : M bool :=
  fun w =>
    (Returned (match files w !! p with
               | Some _ => true
               | None => match dir_entries (files w) p with [] => false | _ => true end
               end), w).

(** [fs.readdirSync]; it throws on a path that holds a file. *)
Definition readdirSync (dir : list (list N)) : M (list (list N)) :=
  fun w =>
    match files w !! dir with
    | Some _ => (Thrown NoSuchFile, w)
    | None => (Returned (dir_entries (files w) dir), w)
    end.

(** [fs.statSync] on an entry of a directory, for its size in the listing:
    a subdirectory has stats; a file has them when [f_size] is known. *)
Definition stat_entry (p : list (list N)) : M unit :=
  fun w =>
    match files w !! p with
    | Some f => match f_size f with
                | Some _ => (Returned tt, w)
                | None => (Thrown StatFailed, w)
                end
    | None => (Returned tt, w)
    end.

(** [fs.unlinkSync]: removes a file; throws on anything else. *)
Definition unlinkSync (p : list (list N)) : M unit :=
  fun w =>
    match files w !! p with
    | Some _ => (Returned tt, {| files := delete p (files w); events := events w |})
    | None => (Thrown NoSuchFile, w)
    end.

(** [cleanupDirectory], lines 90-187. *)
Definition cleanupDirectory (bookDir : list (list N)) (dryRun : bool) : M unit :=
  present <- existsSync_any bookDir ;;
  if negb present then ret tt else
  expectedFiles <- getExpectedFiles bookDir ;;
  if (size expectedFiles =? 0)%nat then ret tt else
  allFiles <- readdirSync bookDir ;;
  let filesToDelete :=
    List.filter (fun file => negb (bool_decide (file ∈ expectedFiles))) allFiles in
  if (0 <? length filesToDelete)%nat then
    for_each (fun file => stat_entry (path_join bookDir file)) filesToDelete ;;;
    if negb dryRun then
      for_each (fun file => try_catch (unlinkSync (path_join bookDir file))
                                      (fun _ => ret tt))
               filesToDelete
    else ret tt
  else ret tt.

(** A checked directory with a stray file and a chapter document. *)
Definition demo_world_messy : World :=
  {| files :=
       <[path_join demo_dir (JS.lit "page_009_old.pdf") :=
           {| f_size := Some 700; f_data := CPdf [9%N] |}]>
       (<[path_join (path_join demo_dir (JS.lit "processed")) (JS.lit "premessa.pdf") :=
           {| f_size := Some 900; f_data := CPdf [1%N] |}]>
        (files demo_world_checked));
     events := [] |}.

(** The directory after the deletion loop of lines 153-163 on [names]. *)
Definition unlink_all (dir : list (list N)) (names : list (list N))
           (fs : gmap (list (list N)) File) : gmap (list (list N)) File :=
  fold_left (fun fs name => delete (path_join dir name) fs) names fs.

(** Whether [fs.statSync] succeeds on every entry of [names]. *)
Definition stat_all_ok (fs : gmap (list (list N)) File) (dir : list (list N))
           (names : list (list N)) : bool :=
  forallb (fun name => match fs !! path_join dir name with
                       | Some f => match f_size f with Some _ => true | None => false end
                       | None => true
                       end) names.

(** The entries of [dir] that are not expected: [filesToDelete]. *)
Definition stray_entries (fs : gmap (list (list N)) File) (dir : list (list N))
           (expected : gset (list N)) : list (list N) :=
  List.filter (fun file => negb (bool_decide (file ∈ expected))) (dir_entries fs dir).


(** ** File names and the numbers in them *)

(** Reading a string of decimal digits back. *)
Fixpoint uint_of_units (s : list N) : option Decimal.uint :=
  match s with
  | [] => Some Decimal.Nil
  | c :: s' =>
      match uint_of_units s' with
      | None => None
      | Some d =>
          match c with
          | 48%N => Some (Decimal.D0 d) | 49%N => Some (Decimal.D1 d)
          | 50%N => Some (Decimal.D2 d) | 51%N => Some (Decimal.D3 d)
          | 52%N => Some (Decimal.D4 d) | 53%N => Some (Decimal.D5 d)
          | 54%N => Some (Decimal.D6 d) | 55%N => Some (Decimal.D7 d)
          | 56%N => Some (Decimal.D8 d) | 57%N => Some (Decimal.D9 d)
          | _ => None
          end
      end
  end.

(** The number a string of decimal digits denotes; leading zeros count for
    nothing. *)
Definition digits_value (s : list N) : option Z :=
  match uint_of_units s with Some d => Some (Z.of_uint d) | None => None end.

(** The identifier part of an artifact name. *)
Definition sanitized_id (item : TocItem) : list N :=
  JS.replace_class (fun c => negb (JS.is_alnum c)) (JS.lit "_") (docbookId item).

(** The Premessa pages of a table of contents. *)
Definition premessa_pages (toc : list TocItem) : list TocItem :=
  List.filter (fun item => is_premessa (title item)) toc.


(** * Properties *)

(** ** Properties of check-downloads.ts *)

Lemma check_item_run bookDir tocItem w :
  check_item bookDir tocItem w = (Returned (status_of (files w) bookDir tocItem), w).
Proof.
  unfold check_item, status_of, bind, existsSync, try_catch, statSync, ret.
  destruct (files w !! path_join bookDir (fileName_check tocItem)) as [f|] eqn:E;
    cbv zeta; rewrite ?E; [|done].
  destruct (f_size f); done.
Qed.

Lemma check_loop_run bookDir toc acc fl w :
  check_loop bookDir toc acc fl w =
  (Returned (acc ++ List.map (status_of (files w) bookDir) toc,
             fl ++ List.filter (fun t => is_failed (status_of (files w) bookDir t)) toc), w).
Proof.
  revert acc fl. induction toc as [|t toc IH]; intros acc fl; simpl.
  - unfold ret. by rewrite !app_nil_r.
  - unfold bind at 1. rewrite check_item_run, IH.
    unfold is_failed.
    destruct (ds_status (status_of (files w) bookDir t)); simpl;
      by rewrite <- ?app_assoc.
Qed.

Lemma checkDownloadStatus_run env bookDir w f m :
  files w !! path_join bookDir (JS.lit "metadata.json") = Some f ->
  f_data f = CMetadata m ->
  checkDownloadStatus env bookDir w =
  (Returned (report_of env (files w) bookDir m),
   {| files := <[path_join bookDir (JS.lit "output.json") :=
                   {| f_size := Some (encoded_size env (CReport (report_of env (files w) bookDir m)));
                      f_data := CReport (report_of env (files w) bookDir m) |}]> (files w);
      events := events w |}).
Proof.
  intros Hf Hm.
  unfold checkDownloadStatus, bind, existsSync, readFileSync.
  repeat (progress (simpl; rewrite ?Hf, ?Hm)).
  rewrite check_loop_run. reflexivity.
Qed.

Lemma status_of_success fs bookDir tocItem :
  ds_status (status_of fs bookDir tocItem) = success <->
  exists file, fs !! path_join bookDir (fileName_check tocItem) = Some file /\
               (f_size file = None \/ exists n, f_size file = Some n /\ 1000 < n).
Proof.
  unfold status_of. simpl.
  destruct (fs !! path_join bookDir (fileName_check tocItem)) as [f|]; simpl.
  - destruct (f_size f) as [n|] eqn:Hs.
    + destruct (Z.ltb_spec 1000 n) as [Hlt|Hge]; split; try done.
      * intros _. exists f. split; [done|]. right. exists n. done.
      * intros (f' & Hf' & [Hn | (n' & Hn' & Hlt)]);
          injection Hf' as <-; rewrite Hs in *; [done|].
        injection Hn' as <-. lia.
    + split; [|done]. intros _. exists f. auto.
  - split; [done|]. intros (f' & Hf' & _). done.
Qed.

(** C1: when the manifest is readable, [checkDownloadStatus] returns a
    report with one status per entry of [tableOfContents], in order, and the
    entry is [success] exactly when a file exists at the derived path and
    either its size could not be read or it is larger than 1000 bytes; an
    artifact of 500 bytes is [failed] although [fileExists] is [true]. *)
Theorem checkDownloadStatus_classifies env bookDir w f m :
  files w !! path_join bookDir (JS.lit "metadata.json") = Some f ->
  f_data f = CMetadata m ->
  exists report w',
    checkDownloadStatus env bookDir w = (Returned report, w') /\
    length (downloadStatuses report) = length (tableOfContents m) /\
    forall (i : nat) (tocItem : TocItem),
      tableOfContents m !! i = Some tocItem ->
      exists st,
        downloadStatuses report !! i = Some st /\
        ds_docbookId st = docbookId tocItem /\
        ds_pageNum st = pageNum tocItem /\
        ds_filePath st = path_join bookDir (fileName_check tocItem) /\
        (ds_status st = success <->
         exists file,
           files w !! path_join bookDir (fileName_check tocItem) = Some file /\
           (f_size file = None \/ exists n, f_size file = Some n /\ 1000 < n)) /\
        (forall file,
           files w !! path_join bookDir (fileName_check tocItem) = Some file ->
           f_size file = Some 500 ->
           ds_status st = failed /\ ds_fileExists st = true).
Proof.
  intros Hf Hm. eexists _, _.
  split; [by apply (checkDownloadStatus_run env bookDir w f m)|].
  simpl. split; [by rewrite length_map|].
  intros i tocItem Hi.
  exists (status_of (files w) bookDir tocItem).
  split; [by rewrite list_lookup_fmap, Hi|].
  split; [done|]. split; [done|]. split; [done|].
  split; [apply status_of_success|].
  intros file Hfile Hsize. unfold status_of; simpl.
  rewrite Hfile, Hsize. done.
Qed.

Lemma checkDownloadStatus_classifies_witness :
  files demo_world3 !! path_join demo_dir (JS.lit "metadata.json")
    = Some {| f_size := Some 300; f_data := CMetadata demo_meta3 |} /\
  exists report w',
    checkDownloadStatus demo_env demo_dir demo_world3 = (Returned report, w') /\
    length (downloadStatuses report) = 3%nat /\
    exists st,
      downloadStatuses report !! 1%nat = Some st /\
      ds_status st = failed /\ ds_fileExists st = true.
Proof.
  assert (H0 : files demo_world3 !! path_join demo_dir (JS.lit "metadata.json")
               = Some {| f_size := Some 300; f_data := CMetadata demo_meta3 |})
    by (vm_compute; reflexivity).
  split; [exact H0|].
  destruct (checkDownloadStatus_classifies demo_env demo_dir demo_world3 _ demo_meta3 H0 eq_refl)
    as (report & w' & Hrun & Hlen & Hent).
  exists report, w'. split; [exact Hrun|]. split; [exact Hlen|].
  destruct (Hent 1%nat (mk_item 2 "_11_2" "1.1 Sezione") eq_refl)
    as (st & Hst & _ & _ & _ & _ & H500).
  exists st. split; [exact Hst|].
  apply (H500 {| f_size := Some 500; f_data := CPdf [2%N] |}); vm_compute; reflexivity.
Defined.

Lemma filter_success_failed_length (l : list DownloadStatus) :
  (length (List.filter is_success l) + length (List.filter is_failed l))%nat = length l.
Proof.
  induction l as [|s l IH]; [done|].
  simpl. unfold is_success at 1, is_failed at 1.
  destruct (ds_status s); simpl; lia.
Qed.

(** C2: for a manifest with [totalPages] equal to the length of
    [tableOfContents], the report satisfies
    [successCount + failedCount = totalPages]; the two counts are the
    numbers of [success] and of [failed] statuses, and every status is
    counted by exactly one of them. *)
Theorem checkDownloadStatus_counts env bookDir w f m :
  files w !! path_join bookDir (JS.lit "metadata.json") = Some f ->
  f_data f = CMetadata m ->
  totalPages m = Z.of_nat (length (tableOfContents m)) ->
  exists report w',
    checkDownloadStatus env bookDir w = (Returned report, w') /\
    successCount report + failedCount report = r_totalPages report /\
    r_totalPages report = totalPages m /\
    successCount report
      = Z.of_nat (length (List.filter is_success (downloadStatuses report))) /\
    failedCount report
      = Z.of_nat (length (List.filter is_failed (downloadStatuses report))) /\
    length (downloadStatuses report) = length (tableOfContents m) /\
    Forall (fun st => xorb (is_success st) (is_failed st) = true)
           (downloadStatuses report).
Proof.
  intros Hf Hm Htotal. eexists _, _.
  split; [by apply (checkDownloadStatus_run env bookDir w f m)|].
  simpl. repeat split.
  - rewrite Htotal, <- Nat2Z.inj_add, filter_success_failed_length.
    by rewrite length_map.
  - by rewrite length_map.
  - apply Forall_forall. intros st _. unfold is_success, is_failed.
    by destruct (ds_status st).
Qed.

Lemma checkDownloadStatus_counts_witness :
  totalPages demo_meta3 = Z.of_nat (length (tableOfContents demo_meta3)) /\
  exists report w',
    checkDownloadStatus demo_env demo_dir demo_world3 = (Returned report, w') /\
    successCount report + failedCount report = 3.
Proof.
  split; [reflexivity|].
  destruct (checkDownloadStatus_counts demo_env demo_dir demo_world3
              {| f_size := Some 300; f_data := CMetadata demo_meta3 |} demo_meta3)
    as (report & w' & Hrun & Hsum & Htot & _); [vm_compute; reflexivity|reflexivity..|].
  exists report, w'. split; [exact Hrun|]. rewrite Hsum, Htot. reflexivity.
Defined.

(** ** The artifact naming convention *)

Lemma padStart_zero (s : list N) :
  JS.padStart 3 (JS.lit "0") s = zero_pad 3 s.
Proof.
  unfold JS.padStart, zero_pad.
  destruct s as [|a [|b [|c s]]]; reflexivity.
Qed.

Lemma replace_class_map (cls : N -> bool) (r : N) (s : list N) :
  JS.replace_class cls [r] s = List.map (subst_class cls r) s.
Proof.
  unfold JS.replace_class, subst_class.
  induction s as [|c s IH]; [done|].
  simpl. rewrite IH. by destruct (cls c).
Qed.

Lemma sanitized_id_spec (id : list N) :
  JS.replace_class (fun c => negb (JS.is_alnum c)) (JS.lit "_") id
  = List.map (fun c => if JS.is_alnum c then c else 95%N) id.
Proof.
  change (JS.lit "_") with [95%N]. rewrite replace_class_map.
  apply List.map_ext. intros c. unfold subst_class. by destruct (JS.is_alnum c).
Qed.

(** C3: the file name computed by the reconciler, by the merger and by the
    cleanup tool (and by the capture step) is, for every entry, the string
    [page_] + [pageNum] zero-padded to 3 digits + [_] + the id with every
    non-alphanumeric code unit replaced by [_] + [.pdf]; it depends on
    [pageNum] and [docbookId] only, so the embeddings agree everywhere. *)
Theorem artifact_name_agrees (item : TocItem) :
  fileName_check item = artifact_name_spec (pageNum item) (docbookId item) /\
  fileName_merge item = artifact_name_spec (pageNum item) (docbookId item) /\
  fileName_cleanup item = artifact_name_spec (pageNum item) (docbookId item) /\
  fileName_capture item = artifact_name_spec (pageNum item) (docbookId item).
Proof.
  unfold fileName_check, fileName_merge, fileName_cleanup, fileName_capture,
    artifact_name_spec.
  rewrite padStart_zero, sanitized_id_spec. done.
Qed.

Example artifact_name_example :
  JS.toString 0 = JS.lit "0" /\ JS.toString (-5) = JS.lit "-5"
  /\ fileName_check (mk_item 7 "_11_9/a.b" "Sezione") = JS.lit "page_007__11_9_a_b.pdf"
  /\ fileName_merge (mk_item 123 "x-1" "") = JS.lit "page_123_x_1.pdf"
  /\ fileName_cleanup (mk_item 1234 "A" "") = JS.lit "page_1234_A.pdf".
Proof. vm_compute. done. Qed.

(** ** Properties of identifyChapters *)

Lemma segment_step_premessa len st item :
  is_premessa (title item) = true ->
  segment_step len st item =
  {| st_chapters :=
       save_previous st item ++
       [ {| chapterNumber := 0; c_title := title item;
            startPage := pageNum item; endPage := pageNum item;
            pages := [item] |} ];
     st_currentChapter := None;
     st_chapterNumber := st_chapterNumber st |}.
Proof. intros H. unfold segment_step. by rewrite H. Qed.

Lemma segment_step_chapter len st item :
  is_premessa (title item) = false ->
  isChapterStart (title item) = true ->
  segment_step len st item =
  {| st_chapters := save_previous st item;
     st_currentChapter :=
       Some {| chapterNumber := st_chapterNumber st + 1; c_title := title item;
               startPage := pageNum item; endPage := len; pages := [item] |};
     st_chapterNumber := st_chapterNumber st + 1 |}.
Proof. intros H1 H2. unfold segment_step. by rewrite H1, H2. Qed.

Lemma segment_step_other len st item :
  is_premessa (title item) = false ->
  isChapterStart (title item) = false ->
  segment_step len st item =
  match st_currentChapter st with
  | Some c =>
      {| st_chapters := st_chapters st;
         st_currentChapter := Some (push_page item c);
         st_chapterNumber := st_chapterNumber st |}
  | None => st
  end.
Proof. intros H1 H2. unfold segment_step. by rewrite H1, H2. Qed.

(** C5: for the table of contents made of a page titled "Premessa", a page
    titled "Capitolo 1" and three pages whose titles match neither pattern,
    in this order, [identifyChapters] returns exactly two chapters: number 0
    with the Premessa page alone, and number 1 with the Capitolo page followed
    by the three section pages. *)
Theorem identifyChapters_premessa_then_capitolo (p c s1 s2 s3 : TocItem) :
  title p = JS.lit "Premessa" ->
  title c = JS.lit "Capitolo 1" ->
  Forall (fun s => is_premessa (title s) = false /\ isChapterStart (title s) = false)
         [s1; s2; s3] ->
  identifyChapters [p; c; s1; s2; s3] =
  [ {| chapterNumber := 0; c_title := title p;
       startPage := pageNum p; endPage := pageNum p; pages := [p] |};
    {| chapterNumber := 1; c_title := title c;
       startPage := pageNum c; endPage := pageNum s3; pages := [c; s1; s2; s3] |} ].
Proof.
  intros Hp Hc Hs.
  apply Forall_cons in Hs as [[P1 C1] Hs].
  apply Forall_cons in Hs as [[P2 C2] Hs].
  apply Forall_cons in Hs as [[P3 C3] _].
  assert (Pp : is_premessa (title p) = true) by (rewrite Hp; vm_compute; reflexivity).
  assert (Pc : is_premessa (title c) = false) by (rewrite Hc; vm_compute; reflexivity).
  assert (Cc : isChapterStart (title c) = true) by (rewrite Hc; vm_compute; reflexivity).
  unfold identifyChapters, segment_loop. simpl List.fold_left.
  rewrite (segment_step_premessa _ _ p Pp).
  rewrite (segment_step_chapter _ _ c Pc Cc).
  rewrite (segment_step_other _ _ s1 P1 C1). simpl.
  rewrite (segment_step_other _ _ s2 P2 C2). simpl.
  rewrite (segment_step_other _ _ s3 P3 C3). simpl.
  reflexivity.
Qed.

Lemma identifyChapters_premessa_then_capitolo_witness :
  Forall (fun s => is_premessa (title s) = false /\ isChapterStart (title s) = false)
         (drop 2 demo_toc5) /\
  identifyChapters demo_toc5 =
  [ {| chapterNumber := 0; c_title := JS.lit "Premessa";
       startPage := 1; endPage := 1; pages := take 1 demo_toc5 |};
    {| chapterNumber := 1; c_title := JS.lit "Capitolo 1";
       startPage := 2; endPage := 5; pages := drop 1 demo_toc5 |} ].
Proof.
  assert (H : Forall (fun s => is_premessa (title s) = false /\ isChapterStart (title s) = false)
                     (drop 2 demo_toc5))
    by (repeat constructor).
  split; [exact H|].
  exact (identifyChapters_premessa_then_capitolo
           (mk_item 1 "_11_1" "Premessa") (mk_item 2 "_11_2" "Capitolo 1")
           (mk_item 3 "_11_3" "1.1 Le fonti") (mk_item 4 "_11_4" "1.2 I soggetti")
           (mk_item 5 "_11_5" "1.3 Gli atti") eq_refl eq_refl H).
Defined.

(** The order matters: a section placed before the Premessa page belongs to
    no chapter. *)
Example identifyChapters_section_first :
  List.map pages
    (identifyChapters
       [mk_item 1 "a" "1.1 Le fonti"; mk_item 2 "b" "Premessa";
        mk_item 3 "c" "Capitolo 1"; mk_item 4 "d" "1.2 I soggetti";
        mk_item 5 "e" "1.3 Gli atti"])
  = [ [mk_item 2 "b" "Premessa"];
      [mk_item 3 "c" "Capitolo 1"; mk_item 4 "d" "1.2 I soggetti";
       mk_item 5 "e" "1.3 Gli atti"] ].
Proof. vm_compute. reflexivity. Qed.

Lemma chained_snoc (l : list Chapter) (x : Chapter) :
  chained l -> Forall (fun a => endPage a < startPage x) l -> chained (l ++ [x]).
Proof.
  intros Hl Hx i j a b Hij Ha Hb.
  destruct (decide (j < length l)%nat) as [Hj|Hj].
  - rewrite lookup_app_l in Ha by lia. rewrite lookup_app_l in Hb by lia.
    by apply (Hl i j).
  - assert (j = length l) as ->.
    { apply lookup_lt_Some in Hb. rewrite length_app in Hb. simpl in Hb. lia. }
    rewrite lookup_app_l in Ha by lia.
    rewrite list_lookup_middle in Hb by done. injection Hb as <-.
    rewrite Forall_forall in Hx. apply Hx.
    apply list_elem_of_lookup. eauto.
Qed.

Lemma chained_nil : chained [].
Proof. intros i j a b _ Ha. by rewrite lookup_nil in Ha. Qed.

Lemma save_previous_inv st lastp item :
  seg_inv st lastp -> lastp < pageNum item ->
  chained (save_previous st item) /\
  Forall (fun a => endPage a < pageNum item) (save_previous st item).
Proof.
  intros (Hch & Hle & Hcur) Hlt. unfold save_previous.
  assert (Hbelow : Forall (fun a => endPage a < pageNum item) (st_chapters st)).
  { eapply Forall_impl; [exact Hle|]. simpl. intros; lia. }
  destruct (st_currentChapter st) as [c|]; [|done].
  destruct Hcur as [_ Hc]. split.
  - by apply chained_snoc.
  - apply Forall_app. split; [done|]. constructor; [simpl; lia|constructor].
Qed.

Lemma segment_step_inv len st lastp item :
  seg_inv st lastp -> lastp < pageNum item ->
  seg_inv (segment_step len st item) (pageNum item).
Proof.
  intros Hinv Hlt.
  destruct (save_previous_inv st lastp item Hinv Hlt) as [Hch Hbelow].
  assert (Hle : Forall (fun a => endPage a <= pageNum item) (save_previous st item)).
  { eapply Forall_impl; [exact Hbelow|]. simpl. intros; lia. }
  destruct (is_premessa (title item)) eqn:Hp.
  - rewrite segment_step_premessa by done. repeat split; simpl.
    + by apply chained_snoc.
    + apply Forall_app. split; [done|]. constructor; [simpl; lia|constructor].
  - destruct (isChapterStart (title item)) eqn:Hc.
    + rewrite segment_step_chapter by done. repeat split; simpl; try done; try lia.
    + rewrite segment_step_other by done.
      destruct Hinv as (Hch' & Hle' & Hcur).
      assert (Hle'' : Forall (fun a => endPage a <= pageNum item) (st_chapters st)).
      { eapply Forall_impl; [exact Hle'|]. simpl. intros; lia. }
      destruct (st_currentChapter st) as [c|] eqn:Hcc.
      * destruct Hcur as [Hs Hb]. repeat split; simpl; try done; try lia.
      * repeat split; try done. by rewrite Hcc.
Qed.

Lemma segment_loop_inv len items :
  forall st lastp,
    seg_inv st lastp -> increasing_from lastp items ->
    seg_inv (segment_loop len st items) (last_page lastp items).
Proof.
  induction items as [|x items IH]; intros st lastp Hinv Hinc; [done|].
  destruct Hinc as [Hlt Hinc]. simpl.
  apply IH; [|done]. by apply (segment_step_inv len st lastp).
Qed.

Lemma segment_finish_chained toc st lastp :
  seg_inv st lastp -> chained (segment_finish toc st).
Proof.
  intros (Hch & _ & Hcur). unfold segment_finish.
  destruct (st_currentChapter st) as [c|]; [|done].
  destruct (last toc); [|done].
  destruct Hcur as [_ Hb]. by apply chained_snoc.
Qed.

Lemma identifyChapters_chained b toc :
  increasing_from b toc -> chained (identifyChapters toc).
Proof.
  intros Hinc. unfold identifyChapters.
  apply (segment_finish_chained toc _ (last_page b toc)).
  apply segment_loop_inv; [|done].
  repeat split; [apply chained_nil|constructor].
Qed.

Lemma contiguous_increasing toc :
  forall k : Z,
    (forall (i : nat) item, toc !! i = Some item -> pageNum item = Z.of_nat i + k + 1) ->
    increasing_from k toc.
Proof.
  induction toc as [|x toc IH]; intros k H; [done|]. simpl. split.
  - rewrite (H 0%nat x eq_refl). lia.
  - apply IH. intros i item Hi.
    rewrite (H (S i) item Hi), (H 0%nat x eq_refl). lia.
Qed.

(** C6: when the page numbers of the table of contents are 1, 2, 3, ... in
    order, no two chapters returned by [identifyChapters] share a page of
    their ranges [startPage .. endPage]. *)
Theorem identifyChapters_no_overlap (toc : list TocItem) :
  contiguous_from_1 toc ->
  forall (i j : nat) (a b : Chapter),
    i <> j ->
    identifyChapters toc !! i = Some a ->
    identifyChapters toc !! j = Some b ->
    ~ overlap a b.
Proof.
  intros Hcont i j a b Hij Ha Hb (p & Hpa & Hpb).
  assert (Hch : chained (identifyChapters toc)).
  { apply (identifyChapters_chained 0), contiguous_increasing.
    intros k item Hk. rewrite (Hcont k item Hk). lia. }
  destruct (decide (i < j)%nat) as [Hlt|Hge].
  - pose proof (Hch i j a b Hlt Ha Hb). lia.
  - assert (Hlt : (j < i)%nat) by lia.
    pose proof (Hch j i b a Hlt Hb Ha). lia.
Qed.

Lemma identifyChapters_no_overlap_witness :
  contiguous_from_1 demo_toc5 /\
  exists a b,
    identifyChapters demo_toc5 !! 0%nat = Some a /\
    identifyChapters demo_toc5 !! 1%nat = Some b /\
    ~ overlap a b.
Proof.
  assert (H : contiguous_from_1 demo_toc5).
  { intros i item Hi.
    do 5 (destruct i as [|i]; [injection Hi as <-; reflexivity|]).
    discriminate Hi. }
  split; [exact H|].
  eexists _, _. split; [reflexivity|]. split; [reflexivity|].
  apply (identifyChapters_no_overlap demo_toc5 H 0%nat 1%nat); [lia|reflexivity..].
Defined.

(** *** Discarded items *)

Lemma set_endPage_irrelevant (c d : Chapter) :
  set_endPage 0 c = set_endPage 0 d -> forall e, set_endPage e c = set_endPage e d.
Proof.
  unfold set_endPage. intros H e. injection H as -> -> -> ->. reflexivity.
Qed.

Lemma push_page_same (item : TocItem) (c d : Chapter) :
  set_endPage 0 c = set_endPage 0 d ->
  set_endPage 0 (push_page item c) = set_endPage 0 (push_page item d).
Proof.
  unfold set_endPage, push_page. simpl. intros H.
  injection H as -> -> -> ->. reflexivity.
Qed.

Lemma save_previous_same s t item :
  same_but_endPage s t -> save_previous s item = save_previous t item.
Proof.
  intros (Hch & _ & Hcur). unfold save_previous.
  destruct (st_currentChapter s) as [c|], (st_currentChapter t) as [d|]; try done.
  - by rewrite Hch, (set_endPage_irrelevant c d Hcur).
Qed.

Lemma segment_step_same len len' s t item :
  same_but_endPage s t ->
  same_but_endPage (segment_step len s item) (segment_step len' t item).
Proof.
  intros Hst. pose proof (save_previous_same s t item Hst) as Hsave.
  destruct Hst as (Hch & Hnum & Hcur).
  unfold segment_step.
  destruct (is_premessa (title item)).
  { repeat split; simpl; [by rewrite Hsave|done]. }
  destruct (isChapterStart (title item)).
  { repeat split; simpl; [done|by rewrite Hnum|]. unfold set_endPage. simpl.
    by rewrite Hnum. }
  destruct (st_currentChapter s) as [c|] eqn:Hs,
           (st_currentChapter t) as [d|] eqn:Ht; try done.
  - repeat split; simpl; [done..|]. by apply push_page_same.
  - repeat split; try done. by rewrite Hs, Ht.
Qed.

Lemma segment_loop_same len len' items :
  forall s t, same_but_endPage s t ->
              same_but_endPage (segment_loop len s items) (segment_loop len' t items).
Proof.
  induction items as [|x items IH]; intros s t Hst; [done|].
  simpl. apply IH. by apply segment_step_same.
Qed.

Lemma segment_finish_same toc toc' s t :
  same_but_endPage s t ->
  last toc = last toc' \/ st_currentChapter s = None ->
  segment_finish toc s = segment_finish toc' t.
Proof.
  intros (Hch & _ & Hcur) Hlast. unfold segment_finish.
  destruct (st_currentChapter s) as [c|], (st_currentChapter t) as [d|]; try done.
  destruct Hlast as [Hlast|?]; [|done]. rewrite <- Hlast.
  destruct (last toc); [|done].
  by rewrite Hch, (set_endPage_irrelevant c d Hcur).
Qed.

Lemma segment_loop_app len st l1 l2 :
  segment_loop len st (l1 ++ l2) = segment_loop len (segment_loop len st l1) l2.
Proof. apply List.fold_left_app. Qed.

Lemma same_but_endPage_refl s : same_but_endPage s s.
Proof. repeat split. by destruct (st_currentChapter s). Qed.

(** The items kept by the chapters are taken from the input, in order. *)
Lemma segment_step_pages len st item :
  all_pages (segment_step len st item) = all_pages st ++ [item] \/
  all_pages (segment_step len st item) = all_pages st.
Proof.
  unfold segment_step, all_pages, save_previous.
  destruct (is_premessa (title item)).
  { left. simpl. destruct (st_currentChapter st) as [c|]; simpl;
      rewrite ?List.map_app, ?concat_app; simpl; by rewrite ?app_nil_r, <- ?app_assoc. }
  destruct (isChapterStart (title item)).
  { left. simpl. destruct (st_currentChapter st) as [c|]; simpl;
      rewrite ?List.map_app, ?concat_app; simpl; by rewrite ?app_nil_r, <- ?app_assoc. }
  destruct (st_currentChapter st) as [c|] eqn:Hc.
  - left. simpl. by rewrite app_assoc.
  - right. by rewrite Hc.
Qed.

Lemma segment_loop_pages len items :
  forall st, exists kept,
    all_pages (segment_loop len st items) = all_pages st ++ kept /\
    sublist kept items.
Proof.
  induction items as [|x items IH]; intros st.
  - exists []. split; [by rewrite app_nil_r|constructor].
  - simpl. destruct (IH (segment_step len st x)) as (kept & Heq & Hsub).
    destruct (segment_step_pages len st x) as [Hx|Hx]; rewrite Hx in Heq.
    + exists (x :: kept). split; [by rewrite Heq, <- app_assoc|by constructor].
    + exists kept. split; [done|by constructor].
Qed.

Lemma segment_finish_pages toc st :
  sublist (concat (List.map pages (segment_finish toc st))) (all_pages st).
Proof.
  unfold segment_finish, all_pages.
  destruct (st_currentChapter st) as [c|]; [|by rewrite app_nil_r].
  destruct (last toc).
  - rewrite List.map_app, concat_app. simpl. by rewrite app_nil_r.
  - by apply sublist_inserts_r.
Qed.

Lemma identifyChapters_pages toc :
  sublist (concat (List.map pages (identifyChapters toc))) toc.
Proof.
  unfold identifyChapters.
  destruct (segment_loop_pages (Z.of_nat (length toc)) toc segment_init)
    as (kept & Heq & Hsub).
  etrans; [apply segment_finish_pages|]. by rewrite Heq.
Qed.

(** After a Premessa page, and until the next chapter marker, no chapter is
    open. *)
Lemma no_chapter_open_after_premessa len st p others :
  is_premessa (title p) = true ->
  Forall (fun s => is_premessa (title s) = false /\ isChapterStart (title s) = false)
         others ->
  st_currentChapter (segment_loop len st (p :: others)) = None.
Proof.
  intros Hp Hothers. simpl. rewrite segment_step_premessa by done.
  match goal with |- context [segment_loop len ?s _] =>
    assert (Hnone : st_currentChapter s = None) by done; revert Hnone; generalize s
  end.
  induction Hothers as [|x others [H1 H2] _ IH]; intros s Hs; [done|].
  simpl. apply IH. rewrite segment_step_other by done. by rewrite Hs.
Qed.

(** C10: an item whose title matches neither pattern, met while no chapter
    is open (whatever precedes it: nothing recognized, or a Premessa page and
    further unmatched items), is dropped: the result is the one obtained
    without the item, the pages of the returned chapters are drawn, in
    order, from the other items, and an item that occurs nowhere else in the
    input is in no chapter's [pages]. *)
Theorem identifyChapters_discards_orphan (pre post : list TocItem) (item : TocItem) (len : Z) :
  is_premessa (title item) = false ->
  isChapterStart (title item) = false ->
  st_currentChapter (segment_loop len segment_init pre) = None ->
  identifyChapters (pre ++ item :: post) = identifyChapters (pre ++ post) /\
  sublist (concat (List.map pages (identifyChapters (pre ++ item :: post)))) (pre ++ post) /\
  (item ∉ pre ++ post ->
   forall ch, ch ∈ identifyChapters (pre ++ item :: post) -> item ∉ pages ch).
Proof.
  intros Hp Hc Hnone.
  set (n1 := Z.of_nat (length (pre ++ item :: post))).
  set (n2 := Z.of_nat (length (pre ++ post))).
  assert (Hpre : same_but_endPage (segment_loop len segment_init pre)
                                  (segment_loop n1 segment_init pre))
    by apply segment_loop_same, same_but_endPage_refl.
  assert (Hnone1 : st_currentChapter (segment_loop n1 segment_init pre) = None).
  { destruct Hpre as (_ & _ & H). rewrite Hnone in H.
    by destruct (st_currentChapter (segment_loop n1 segment_init pre)). }
  assert (Hskip : segment_loop n1 segment_init (pre ++ item :: post)
                  = segment_loop n1 segment_init (pre ++ post)).
  { rewrite !segment_loop_app. simpl.
    rewrite (segment_step_other n1 _ item Hp Hc). by rewrite Hnone1. }
  assert (Heq : identifyChapters (pre ++ item :: post) = identifyChapters (pre ++ post)).
  { unfold identifyChapters. fold n1 n2. rewrite Hskip.
    apply segment_finish_same.
    - apply segment_loop_same, same_but_endPage_refl.
    - destruct post as [|y post].
      + right. by rewrite app_nil_r.
      + left. by rewrite !last_app, last_cons_cons. }
  split; [exact Heq|].
  assert (Hsub : sublist (concat (List.map pages (identifyChapters (pre ++ item :: post))))
                         (pre ++ post)).
  { rewrite Heq. apply identifyChapters_pages. }
  split; [exact Hsub|].
  intros Hnotin ch Hch Hin. apply Hnotin.
  eapply elem_of_sublist; [|exact Hsub].
  apply list_elem_of_In, List.in_concat. exists (pages ch).
  split; [apply List.in_map|]; by apply list_elem_of_In.
Qed.

Lemma identifyChapters_discards_orphan_witness :
  st_currentChapter (segment_loop 4 segment_init (take 1 demo_toc_orphan)) = None /\
  identifyChapters demo_toc_orphan
  = identifyChapters (take 1 demo_toc_orphan ++ drop 2 demo_toc_orphan) /\
  forall ch, ch ∈ identifyChapters demo_toc_orphan ->
             mk_item 2 "_11_2" "Nota dell'editore" ∉ pages ch.
Proof.
  assert (H : st_currentChapter (segment_loop 4 segment_init (take 1 demo_toc_orphan)) = None).
  { apply (no_chapter_open_after_premessa 4 segment_init (mk_item 1 "_11_1" "Premessa") []);
      [reflexivity|constructor]. }
  split; [exact H|].
  destruct (identifyChapters_discards_orphan
              (take 1 demo_toc_orphan) (drop 2 demo_toc_orphan)
              (mk_item 2 "_11_2" "Nota dell'editore") 4 eq_refl eq_refl H)
    as (Heq & _ & Hnot).
  split; [exact Heq|].
  apply Hnot. vm_compute. intros Hin.
  repeat (apply elem_of_cons in Hin as [Hin|Hin]; [discriminate Hin|]).
  by apply elem_of_nil in Hin.
Defined.

(** ** Properties of mergeChapterPages *)

Lemma merge_pages_loop_run bookDir pgs :
  forall mergedPdf w,
    merge_pages_loop bookDir pgs mergedPdf w =
    (Returned (mergedPdf
               ++ concat (List.map pdf_pages (present_artifacts (files w) bookDir pgs))), w).
Proof.
  induction pgs as [|page pgs IH]; intros mergedPdf w; simpl.
  - unfold ret. by rewrite app_nil_r.
  - unfold bind at 1, existsSync, present_artifacts. simpl.
    destruct (files w !! path_join bookDir (fileName_merge page)) as [f|] eqn:Hf; simpl.
    + unfold bind at 1, try_catch, bind at 1, readFileSync. rewrite Hf.
      unfold pdf_pages at 1.
      destruct (f_data f); simpl; rewrite IH; unfold present_artifacts;
        by rewrite <- ?app_assoc, ?app_nil_r.
    + by rewrite IH.
Qed.

Lemma mergeChapterPages_run env bookDir processedDir chapter w :
  mergeChapterPages env bookDir processedDir chapter w =
  (Returned tt,
   {| files :=
        <[path_join processedDir (outputFileName chapter) :=
            {| f_size := Some (encoded_size env (CPdf (PDFDocument_save
                                 (concat (List.map pdf_pages
                                    (present_artifacts (files w) bookDir (pages chapter)))))));
               f_data := CPdf (PDFDocument_save
                                 (concat (List.map pdf_pages
                                    (present_artifacts (files w) bookDir (pages chapter))))) |}]>
          (files w);
      events := events w |}).
Proof. unfold mergeChapterPages, try_catch, bind. by rewrite merge_pages_loop_run. Qed.

(** C8, as the code has it: [mergeChapterPages] always returns; the document
    it writes holds the pages of the artifacts that exist, in the order of
    [chapter.pages], and nothing for a page whose artifact is absent, except
    that a document left without any page is saved with one empty page.
    With three pages of which the second has no artifact, the document is
    the first artifact followed by the third, as soon as these hold a page. *)
Theorem mergeChapterPages_skips_missing env bookDir processedDir chapter w :
  (exists w',
     mergeChapterPages env bookDir processedDir chapter w = (Returned tt, w') /\
     events w' = events w /\
     exists out,
       files w' = <[path_join processedDir (outputFileName chapter) := out]> (files w) /\
       f_data out =
       CPdf (PDFDocument_save
               (concat (List.map pdf_pages
                          (present_artifacts (files w) bookDir (pages chapter))))) /\
       (concat (List.map pdf_pages
                  (present_artifacts (files w) bookDir (pages chapter))) <> [] ->
        f_data out = merged_claimed (files w) bookDir chapter) /\
       (concat (List.map pdf_pages
                  (present_artifacts (files w) bookDir (pages chapter))) = [] ->
        f_data out = CPdf [blank_page])) /\
  (forall p1 p2 p3 f1 f3,
     pages chapter = [p1; p2; p3] ->
     files w !! path_join bookDir (fileName_merge p1) = Some f1 ->
     files w !! path_join bookDir (fileName_merge p2) = None ->
     files w !! path_join bookDir (fileName_merge p3) = Some f3 ->
     exists w' out,
       mergeChapterPages env bookDir processedDir chapter w = (Returned tt, w') /\
       files w' !! path_join processedDir (outputFileName chapter) = Some out /\
       f_data out = CPdf (PDFDocument_save (pdf_pages f1 ++ pdf_pages f3)) /\
       (pdf_pages f1 ++ pdf_pages f3 <> [] ->
        f_data out = CPdf (pdf_pages f1 ++ pdf_pages f3))).
Proof.
  pose proof (mergeChapterPages_run env bookDir processedDir chapter w) as Hrun.
  split.
  - eexists. split; [exact Hrun|]. split; [done|]. eexists. split; [done|].
    cbn [f_data]. split; [done|]. unfold merged_claimed.
    destruct (concat (List.map pdf_pages
                        (present_artifacts (files w) bookDir (pages chapter))));
      split; intros H; done.
  - intros p1 p2 p3 f1 f3 Hpages H1 H2 H3. eexists _, _.
    split; [exact Hrun|]. cbn [files]. split; [apply lookup_insert_eq|]. cbn [f_data].
    assert (Hdoc : concat (List.map pdf_pages
                             (present_artifacts (files w) bookDir (pages chapter)))
                   = pdf_pages f1 ++ pdf_pages f3).
    { unfold present_artifacts. rewrite Hpages. simpl. rewrite H1, H2, H3. simpl.
      by rewrite app_nil_r. }
    rewrite Hdoc. split; [done|].
    destruct (pdf_pages f1 ++ pdf_pages f3); [done|]. done.
Qed.

Lemma mergeChapterPages_skips_missing_witness :
  files demo_world_gap !! path_join demo_dir (fileName_merge (mk_item 2 "_11_2" "1.1 Sezione"))
    = None /\
  exists w' out,
    mergeChapterPages demo_env demo_dir (path_join demo_dir (JS.lit "processed"))
                      demo_chapter3 demo_world_gap = (Returned tt, w') /\
    files w' !! path_join (path_join demo_dir (JS.lit "processed"))
                          (JS.lit "chapter_01_capitolo_1_inizio.pdf") = Some out /\
    f_data out = CPdf [11%N; 12%N; 31%N].
Proof.
  split; [vm_compute; reflexivity|].
  destruct (mergeChapterPages_skips_missing demo_env demo_dir
              (path_join demo_dir (JS.lit "processed")) demo_chapter3 demo_world_gap)
    as [_ H].
  destruct (H (mk_item 1 "_11_1" "Capitolo 1 Inizio") (mk_item 2 "_11_2" "1.1 Sezione")
              (mk_item 3 "_11_3" "1.2 Sezione")
              {| f_size := Some 52000; f_data := CPdf [11%N; 12%N] |}
              {| f_size := Some 48000; f_data := CPdf [31%N] |})
    as (w' & out & Hrun & Hout & _ & Hdata); [reflexivity|vm_compute; reflexivity..|].
  exists w', out. split; [exact Hrun|]. split; [|apply Hdata; discriminate].
  replace (JS.lit "chapter_01_capitolo_1_inizio.pdf") with (outputFileName demo_chapter3)
    by (vm_compute; reflexivity).
  exact Hout.
Defined.

(** C8, as the specification has it, fails: for a chapter none of whose
    artifacts exists, the document written is not the empty concatenation
    of the artifacts that exist; it holds one page, which comes from no
    artifact. *)
Lemma mergeChapterPages_claimed_counterexample :
  present_artifacts (files empty_world) demo_dir (pages demo_chapter3) = [] /\
  merged_claimed (files empty_world) demo_dir demo_chapter3 = CPdf [] /\
  exists w' out,
    mergeChapterPages demo_env demo_dir (path_join demo_dir (JS.lit "processed"))
                      demo_chapter3 empty_world = (Returned tt, w') /\
    files w' !! path_join (path_join demo_dir (JS.lit "processed"))
                          (outputFileName demo_chapter3) = Some out /\
    f_data out = CPdf [blank_page] /\
    f_data out <> merged_claimed (files empty_world) demo_dir demo_chapter3.
Proof.
  split; [vm_compute; reflexivity|]. split; [vm_compute; reflexivity|].
  rewrite mergeChapterPages_run. eexists _, _. split; [reflexivity|].
  cbn [files]. split; [apply lookup_insert_eq|]. cbn [f_data].
  split; [vm_compute; reflexivity|]. vm_compute. discriminate.
Qed.

(** ** Properties of retryFailedDownloads *)

(** C7: when [output.json] exists and its [failedItems] is empty,
    [retryFailedDownloads] returns and leaves the world as it was: no file
    is written or changed, no browser is launched and no page is captured. *)
Theorem retryFailedDownloads_nothing_to_retry env bookDir bookId w f report :
  files w !! path_join bookDir (JS.lit "output.json") = Some f ->
  f_data f = CReport report ->
  failedItems report = [] ->
  retryFailedDownloads env bookDir bookId w = (Returned tt, w).
Proof.
  intros Hf Hr Hempty.
  unfold retryFailedDownloads, bind at 1, getFailedItems, bind at 1, existsSync.
  rewrite Hf. simpl. unfold bind at 1, readFileSync. rewrite Hf, Hr. simpl.
  by rewrite Hempty.
Qed.

Lemma retryFailedDownloads_nothing_to_retry_witness :
  files demo_world_clean !! path_join demo_dir (JS.lit "output.json")
    = Some {| f_size := Some 120; f_data := CReport demo_report_clean |} /\
  retryFailedDownloads demo_env demo_dir None demo_world_clean
    = (Returned tt, demo_world_clean).
Proof.
  assert (H : files demo_world_clean !! path_join demo_dir (JS.lit "output.json")
              = Some {| f_size := Some 120; f_data := CReport demo_report_clean |})
    by (vm_compute; reflexivity).
  split; [exact H|].
  exact (retryFailedDownloads_nothing_to_retry demo_env demo_dir None demo_world_clean
           _ demo_report_clean H eq_refl eq_refl).
Defined.

(** With a failed item in the report the browser is launched. *)
Example retryFailedDownloads_with_failure :
  let report :=
    {| r_bookNumber := None; r_checkedAt := []; r_totalPages := 1;
       successCount := 0; failedCount := 1;
       downloadStatuses := [status_of ∅ demo_dir (mk_item 1 "_11_1" "Premessa")];
       failedItems := [mk_item 1 "_11_1" "Premessa"] |} in
  let w :=
    {| files := <[path_join demo_dir (JS.lit "output.json") :=
                    {| f_size := Some 300; f_data := CReport report |}]> ∅;
       events := [] |} in
  events (retryFailedDownloads demo_env demo_dir None w).2
  = [EvLaunch; EvSequential (mk_item 1 "_11_1" "Premessa"); EvClose].
Proof. vm_compute. reflexivity. Qed.

(** ** Properties of the download coordinator *)

Lemma keeps_events_ret {A} (a : A) : keeps_events (ret a).
Proof. intros w. split; [done|]. intros n H. discriminate H. Qed.

Lemma keeps_events_throw {A} (e : Err) : keeps_events (@throw A e).
Proof. intros w. split; [done|]. intros n H. discriminate H. Qed.

Lemma keeps_events_bind {A B} (c : M A) (k : A -> M B) :
  keeps_events c -> (forall a, keeps_events (k a)) -> keeps_events (bind c k).
Proof.
  intros Hc Hk w. unfold bind. destruct (Hc w) as [He Hn].
  destruct (c w) as [[a|e|n] w1]; simpl in *.
  - destruct (Hk a w1) as [He' Hn']. split; [congruence|done].
  - split; [done|]. intros n H. discriminate H.
  - by destruct (Hn n).
Qed.

Lemma keeps_events_try_catch {A} (c : M A) (h : Err -> M A) :
  keeps_events c -> (forall e, keeps_events (h e)) -> keeps_events (try_catch c h).
Proof.
  intros Hc Hh w. unfold try_catch. destruct (Hc w) as [He Hn].
  destruct (c w) as [[a|e|n] w1]; simpl in *.
  - split; [done|]. intros n H. discriminate H.
  - destruct (Hh e w1) as [He' Hn']. split; [congruence|done].
  - by destruct (Hn n).
Qed.

Lemma keeps_events_existsSync p : keeps_events (existsSync p).
Proof. intros w. split; [done|]. intros n H. discriminate H. Qed.

Lemma keeps_events_readFileSync p : keeps_events (readFileSync p).
Proof.
  intros w. unfold readFileSync.
  destruct (files w !! p); (split; [done|]; intros n H; discriminate H).
Qed.

Lemma keeps_events_writeFileSync env p c : keeps_events (writeFileSync env p c).
Proof. intros w. split; [done|]. intros n H. discriminate H. Qed.

Lemma keeps_events_as_metadata c : keeps_events (as_metadata c).
Proof. destruct c; simpl; auto using @keeps_events_ret, @keeps_events_throw. Qed.

Lemma keeps_events_for_each {A} (f : A -> M unit) (l : list A) :
  (forall x, keeps_events (f x)) -> keeps_events (for_each f l).
Proof.
  intros Hf. induction l as [|x l IH]; simpl.
  - apply keeps_events_ret.
  - apply keeps_events_bind; auto.
Qed.

Lemma keeps_events_mergeChapterPages env bookDir processedDir chapter :
  keeps_events (mergeChapterPages env bookDir processedDir chapter).
Proof.
  intros w.
  rewrite mergeChapterPages_run. split; [done|]. intros n H. discriminate H.
Qed.

Lemma keeps_events_mergeChapterPDFs env bookDir : keeps_events (mergeChapterPDFs env bookDir).
Proof.
  unfold mergeChapterPDFs.
  apply keeps_events_bind; [apply keeps_events_existsSync|]. intros present.
  destruct present; simpl; [|apply keeps_events_throw].
  apply keeps_events_bind; [apply keeps_events_readFileSync|]. intros raw.
  apply keeps_events_bind; [apply keeps_events_as_metadata|]. intros metadata.
  apply keeps_events_for_each. intros chapter.
  apply keeps_events_mergeChapterPages.
Qed.

Lemma try_catch_swallow_quiet (c : M unit) :
  keeps_events c -> returns_quietly (try_catch c (fun _ => ret tt)).
Proof.
  intros Hc w. unfold try_catch. destruct (Hc w) as [He Hn].
  destruct (c w) as [[[]|e|n] w1]; simpl in *.
  - by exists w1.
  - by exists w1.
  - by destruct (Hn n).
Qed.

Lemma keeps_events_capture_page env tocItem bookDir bookNumber :
  keeps_events (capture_page env tocItem bookDir bookNumber).
Proof.
  unfold capture_page. destruct (capture env bookNumber tocItem).
  - intros w. split; [done|]. intros n H. discriminate H.
  - apply keeps_events_throw.
Qed.

Lemma downloadSinglePageWithNewPage_quiet env tocItem bookDir bookNumber :
  returns_quietly (downloadSinglePageWithNewPage env tocItem bookDir bookNumber).
Proof. apply try_catch_swallow_quiet, keeps_events_capture_page. Qed.

Lemma for_each_quiet {A} (f : A -> M unit) (l : list A) :
  (forall x, returns_quietly (f x)) -> returns_quietly (for_each f l).
Proof.
  intros Hf. induction l as [|x l IH]; intros w; simpl.
  - by exists w.
  - unfold bind. destruct (Hf x w) as (w1 & -> & He1).
    destruct (IH w1) as (w2 & -> & He2). exists w2. split; [done|congruence].
Qed.

(** The loop returns, having announced exactly the batches of
    [batches_from], in order. *)
Lemma batch_loop_run env tocItems bookDir bookNumber :
  forall fuel i w,
  exists w',
    batch_loop env fuel i tocItems bookDir bookNumber w = (Returned tt, w') /\
    events w' = events w ++ List.map EvBatch (batches_from fuel i tocItems).
Proof.
  induction fuel as [|fuel IH]; intros i w; simpl.
  - exists w. by rewrite app_nil_r.
  - destruct (i <? length tocItems)%nat.
    + unfold bind at 1, emit.
      set (w0 := {| files := files w;
                    events := events w ++ [EvBatch (slice i (i + batchSize) tocItems)] |}).
      unfold bind at 1.
      destruct (for_each_quiet
                  (fun tocItem => downloadSinglePageWithNewPage env tocItem bookDir bookNumber)
                  (slice i (i + batchSize) tocItems)
                  (fun x => downloadSinglePageWithNewPage_quiet env x bookDir bookNumber) w0)
        as (w1 & -> & He1).
      destruct (IH (i + batchSize)%nat w1) as (w2 & -> & He2).
      exists w2. split; [done|]. rewrite He2, He1. simpl. by rewrite <- app_assoc.
    + exists w. by rewrite app_nil_r.
Qed.

(** Every item handed to [downloadPagesInBatches] is in exactly one batch:
    the fuel of the loop is enough. *)
Lemma batches_from_concat tocItems :
  forall fuel i,
    (length tocItems <= i + fuel)%nat ->
    concat (batches_from fuel i tocItems) = drop i tocItems.
Proof.
  induction fuel as [|fuel IH]; intros i Hfuel; simpl.
  - rewrite drop_ge by lia. done.
  - destruct (Nat.ltb_spec i (length tocItems)) as [Hlt|Hge].
    + simpl. rewrite IH by (unfold batchSize; lia).
      unfold slice. replace (i + batchSize - i)%nat with batchSize by lia.
      rewrite <- drop_drop. apply take_drop.
    + rewrite drop_ge by lia. done.
Qed.

Lemma downloadPagesInBatches_covers tocItems :
  concat (batches_from (length tocItems) 0 tocItems) = tocItems.
Proof. by rewrite batches_from_concat by lia. Qed.

(** The captures of [download_all] when the first one succeeds. *)
Lemma download_all_run env first rest bookDir bookNumber f w :
  capture env bookNumber first = Some f ->
  exists w',
    download_all env (first :: rest) bookDir bookNumber w = (Returned tt, w') /\
    events w' = events w ++ EvSequential first
                  :: List.map EvBatch (batches_from (length rest) 0 rest).
Proof.
  intros Hcap. unfold download_all, downloadSinglePage.
  unfold bind at 1, bind at 1, emit, try_catch, capture_page. rewrite Hcap.
  unfold putFile.
  destruct rest as [|second rest].
  - simpl. eexists. split; [done|]. done.
  - unfold downloadPagesInBatches. cbn -[batch_loop batches_from].
    match goal with |- context [batch_loop _ ?fuel _ _ _ _ ?w0] =>
      destruct (batch_loop_run env (second :: rest) bookDir bookNumber fuel 0%nat w0)
        as (w1 & Hrun & He)
    end.
    rewrite Hrun. exists w1. split; [done|].
    rewrite He. cbn -[batches_from]. by rewrite <- app_assoc.
Qed.

Lemma downloadPagesAsPDF_run env first rest bookNumber bn f w :
  final_book_number env bookNumber = Some bn ->
  capture env bn first = Some f ->
  exists w',
    downloadPagesAsPDF env (first :: rest) bookNumber w = (Returned tt, w') /\
    events w' = events w ++ EvSequential first
                  :: List.map EvBatch (batches_from (length rest) 0 rest).
Proof.
  intros Hbn Hcap. unfold downloadPagesAsPDF, final_book_number in *.
  unfold try_catch at 1, bind at 1.
  assert (Hfirst :
    (match truthy bookNumber with
     | Some b => ret b
     | None => match page_url_book env with
               | Some b => ret b
               | None => throw NoBookNumberInUrl
               end
     end) w = (Returned bn, w)).
  { destruct (truthy bookNumber); [by injection Hbn as ->|]. by rewrite Hbn. }
  rewrite Hfirst. unfold bind at 1, writeFileSync. cbv beta iota.
  match goal with |- context [bind (download_all _ _ ?d _) _ ?w0] =>
    destruct (download_all_run env first rest d bn f w0 Hcap) as (w1 & Hrun & He1);
    destruct (try_catch_swallow_quiet (mergeChapterPDFs env d)
                (keeps_events_mergeChapterPDFs env d) w1) as (w2 & Hmerge & He2)
  end.
  unfold bind at 1. rewrite Hrun, Hmerge.
  exists w2. split; [done|]. by rewrite He2, He1.
Qed.

(** C4, as the code has it: for a table of contents of 12 pages, when the
    book number is known and the capture of the first page succeeds,
    [downloadPagesAsPDF] returns after exactly one sequential capture of the
    first page, then one batch with the next 10 pages, then one batch with
    the last page. *)
Theorem downloadPagesAsPDF_twelve_pages env toc bookNumber bn first f w :
  length toc = 12%nat ->
  head toc = Some first ->
  final_book_number env bookNumber = Some bn ->
  capture env bn first = Some f ->
  exists w',
    downloadPagesAsPDF env toc bookNumber w = (Returned tt, w') /\
    events w' = events w ++ [EvSequential first;
                             EvBatch (take 10 (drop 1 toc));
                             EvBatch (drop 11 toc)] /\
    length (take 10 (drop 1 toc)) = 10%nat /\
    length (drop 11 toc) = 1%nat.
Proof.
  intros Hlen Hhead Hbn Hcap.
  do 12 (destruct toc as [|? toc]; [discriminate Hlen|]).
  destruct toc; [|discriminate Hlen].
  injection Hhead as ->.
  edestruct (downloadPagesAsPDF_run env first) as (w' & Hrun & He); [exact Hbn|exact Hcap|].
  exists w'. split; [exact Hrun|]. split; [|done]. rewrite He. reflexivity.
Qed.

Lemma downloadPagesAsPDF_twelve_pages_witness :
  length demo_toc12 = 12%nat /\
  exists w',
    downloadPagesAsPDF demo_env demo_toc12 None empty_world = (Returned tt, w') /\
    batch_lengths (events w') = [10; 1]%nat.
Proof.
  split; [reflexivity|].
  destruct (downloadPagesAsPDF_twelve_pages demo_env demo_toc12 None
              (JS.lit "10.978.8815/415073") (mk_item 1 "_11_1" "Premessa")
              {| f_size := Some 4096; f_data := CPdf [] |} empty_world
              eq_refl eq_refl eq_refl eq_refl)
    as (w' & Hrun & He & _).
  exists w'. split; [exact Hrun|]. rewrite He. reflexivity.
Defined.

(** C4, as the specification has it, fails: on a 12-page table of contents
    the batches hold 10 pages and 1 page, not 9 and 2. *)
Lemma downloadPagesAsPDF_twelve_pages_counterexample :
  length demo_toc12 = 12%nat /\
  (downloadPagesAsPDF demo_env demo_toc12 None empty_world).1 = Returned tt /\
  batch_lengths (events (downloadPagesAsPDF demo_env demo_toc12 None empty_world).2)
    = [10; 1]%nat /\
  batch_lengths (events (downloadPagesAsPDF demo_env demo_toc12 None empty_world).2)
    <> [9; 2]%nat.
Proof.
  assert (H : batch_lengths
                (events (downloadPagesAsPDF demo_env demo_toc12 None empty_world).2)
              = [10; 1]%nat) by (vm_compute; reflexivity).
  split; [reflexivity|]. split; [vm_compute; reflexivity|]. split; [exact H|].
  rewrite H. discriminate.
Qed.

(** ** Properties of sanitizeFileName *)

(** Case analysis on the comparisons of the code unit [c] with constants. *)
Ltac cases_on c :=
  unfold JS.is_alnum, JS.is_lower, JS.is_upper, JS.is_digit, JS.is_space, JS.in_range in *;
  cbv beta;
  repeat (match goal with
          | |- context [(?a <=? c)%N] => destruct (N.leb_spec a c); try lia
          | |- context [(c <=? ?a)%N] => destruct (N.leb_spec c a); try lia
          | |- context [(c =? ?a)%N] => destruct (N.eqb_spec c a); try lia
          end; cbn [andb orb negb]);
  try reflexivity; try lia.

(** A property of code units checked on the 256 code units of Latin-1. *)
Lemma table_256 (P : N -> bool) :
  forallb (fun n => P (N.of_nat n)) (List.seq 0 256) = true ->
  forall c, (c < 256)%N -> P c = true.
Proof.
  intros H c Hc. rewrite forallb_forall in H.
  specialize (H (N.to_nat c)). rewrite N2Nat.id in H.
  apply H, in_seq. lia.
Qed.

Example sanitizeFileName_examples :
  sanitizeFileName (JS.lit "Capitolo 1  L'" ++ [232%N] ++ JS.lit "ra (nuova)")
    = JS.lit "capitolo_1_lera_nuova"
  /\ sanitizeFileName ([200%N] ++ JS.lit " tempo") = JS.lit "tempo"
  /\ sanitizeFileName (JS.lit "a" ++ [9%N] ++ JS.lit "b") = JS.lit "a_b"
  /\ sanitize_claimed ([200%N] ++ JS.lit " tempo") = JS.lit "e_tempo"
  /\ sanitize_claimed (JS.lit "a" ++ [9%N] ++ JS.lit "b") = JS.lit "ab".
Proof. vm_compute. done. Qed.

Lemma replace_class_nil (cls : N -> bool) (s : list N) :
  JS.replace_class cls [] s = List.filter (fun c => negb (cls c)) s.
Proof.
  unfold JS.replace_class.
  induction s as [|c s IH]; [done|].
  simpl. rewrite IH. by destruct (cls c).
Qed.

Lemma filter_filter_and (P Q R : N -> bool) (s : list N) :
  (forall c, R c = Q c && P c) ->
  List.filter P (List.filter Q s) = List.filter R s.
Proof.
  intros H. induction s as [|c s IH]; [done|].
  simpl. rewrite H. destruct (Q c); simpl; [|done].
  destruct (P c); by rewrite IH.
Qed.

Lemma subst_class_id (cls : N -> bool) (r c : N) :
  cls c = false -> subst_class cls r c = c.
Proof. intros H. unfold subst_class. by rewrite H. Qed.

(** The seven replacements of lines 199-205 are one table look-up. *)
Lemma translit_passes (c : N) :
  subst_class (fun c => (c =? 241)%N) 110
    (subst_class (fun c => (c =? 231)%N) 99
       (subst_class (JS.in_range 249 252) 117
          (subst_class (JS.in_range 242 246) 111
             (subst_class (JS.in_range 236 239) 105
                (subst_class (JS.in_range 232 235) 101
                   (subst_class (JS.in_range 224 229) 97 c))))))
  = translit c.
Proof.
  destruct (N.lt_ge_cases c 256) as [Hlow|Hhigh].
  - apply N.eqb_eq. revert c Hlow.
    apply (table_256
             (fun c =>
                (subst_class (fun c => (c =? 241)%N) 110
                   (subst_class (fun c => (c =? 231)%N) 99
                      (subst_class (JS.in_range 249 252) 117
                         (subst_class (JS.in_range 242 246) 111
                            (subst_class (JS.in_range 236 239) 105
                               (subst_class (JS.in_range 232 235) 101
                                  (subst_class (JS.in_range 224 229) 97 c))))))
                 =? translit c)%N)).
    vm_compute. reflexivity.
  - rewrite (subst_class_id (JS.in_range 224 229) 97 c) by (cases_on c).
    rewrite (subst_class_id (JS.in_range 232 235) 101 c) by (cases_on c).
    rewrite (subst_class_id (JS.in_range 236 239) 105 c) by (cases_on c).
    rewrite (subst_class_id (JS.in_range 242 246) 111 c) by (cases_on c).
    rewrite (subst_class_id (JS.in_range 249 252) 117 c) by (cases_on c).
    rewrite (subst_class_id _ 99 c) by (cases_on c).
    rewrite (subst_class_id _ 110 c) by (cases_on c).
    unfold translit. cases_on c.
Qed.

Lemma kept_not_quote (c : N) :
  kept c =
  negb ((c =? 39)%N || (c =? 39)%N || (c =? 96)%N)
  && negb (negb (JS.is_alnum c || JS.is_space c || (c =? 45)%N || (c =? 95)%N
                 || (c =? 46)%N)).
Proof.
  rewrite negb_involutive. fold (kept c).
  destruct (N.eqb_spec c 39) as [->|_]; [reflexivity|].
  destruct (N.eqb_spec c 96) as [->|_]; [reflexivity|].
  reflexivity.
Qed.

Lemma kept_no_space (c : N) :
  kept c = true -> JS.is_space c = false -> no_space_kept c = true.
Proof.
  unfold kept, no_space_kept. intros H Hs. rewrite Hs in H.
  by rewrite orb_false_r in H.
Qed.

Lemma replace_runs_no_space (s : list N) :
  Forall (fun c => kept c = true) s ->
  forall in_run,
    Forall (fun c => no_space_kept c = true)
           (JS.replace_runs_from JS.is_space [95%N] in_run s).
Proof.
  induction 1 as [|c s Hc _ IH]; intros in_run; simpl; [constructor|].
  destruct (JS.is_space c) eqn:Hs.
  - apply Forall_app. split; [|apply IH].
    destruct in_run; repeat constructor.
  - constructor; [by apply kept_no_space|apply IH].
Qed.

Lemma drop_leading_Forall (P : N -> Prop) (cls : N -> bool) (s : list N) :
  Forall P s -> Forall P (JS.drop_leading cls s).
Proof.
  induction 1 as [|c s Hc Hs IH]; simpl; [constructor|].
  destruct (cls c); [done|by constructor].
Qed.

Lemma strip_both_Forall (P : N -> Prop) (cls : N -> bool) (s : list N) :
  Forall P s -> Forall P (JS.strip_both cls s).
Proof.
  intros H. unfold JS.strip_both, JS.drop_trailing.
  apply Forall_rev, drop_leading_Forall, Forall_rev.
  by apply drop_leading_Forall.
Qed.

Lemma no_space_kept_low (c : N) : no_space_kept c = true -> (c < 256)%N.
Proof.
  intros H. destruct (N.lt_ge_cases c 256) as [|Hhigh]; [done|].
  exfalso. revert H. unfold no_space_kept. cases_on c.
Qed.

Lemma lower_unit_no_space_kept (c : N) :
  no_space_kept c = true ->
  JS.lower_unit c = ascii_lower c /\ in_file_alphabet (ascii_lower c) = true.
Proof.
  intros H. pose proof (no_space_kept_low c H) as Hlow.
  assert (Ht : implb (no_space_kept c)
                 ((JS.lower_unit c =? ascii_lower c)%N
                  && in_file_alphabet (ascii_lower c)) = true).
  { clear H. revert c Hlow.
    apply (table_256 (fun c => implb (no_space_kept c)
                                 ((JS.lower_unit c =? ascii_lower c)%N
                                  && in_file_alphabet (ascii_lower c)))).
    vm_compute. reflexivity. }
  rewrite H in Ht. simpl in Ht. apply andb_true_iff in Ht as [H1 H2].
  by apply N.eqb_eq in H1.
Qed.

Lemma toLowerCase_no_space_kept (s : list N) :
  Forall (fun c => no_space_kept c = true) s ->
  JS.toLowerCase s = List.map ascii_lower s /\
  Forall (fun c => in_file_alphabet c = true) (List.map ascii_lower s).
Proof.
  unfold JS.toLowerCase.
  induction 1 as [|c s Hc _ [IH1 IH2]]; simpl; [split; [done|constructor]|].
  destruct (lower_unit_no_space_kept c Hc) as [H1 H2].
  split; [by rewrite H1, IH1|by constructor].
Qed.

Lemma filter_kept_Forall (s : list N) :
  Forall (fun c => kept c = true) (List.filter kept s).
Proof.
  apply Forall_forall. intros c Hc.
  apply list_elem_of_In, List.filter_In in Hc. tauto.
Qed.

Lemma sanitizeFileName_unfold (title : list N) :
  sanitizeFileName title =
  take 80
    (JS.toLowerCase
       (JS.strip_both is_underscore
          (JS.replace_runs JS.is_space [95%N]
             (List.filter kept (List.map translit title))))).
Proof.
  unfold sanitizeFileName. cbv zeta.
  change (JS.lit "a") with [97%N]. change (JS.lit "e") with [101%N].
  change (JS.lit "i") with [105%N]. change (JS.lit "o") with [111%N].
  change (JS.lit "u") with [117%N]. change (JS.lit "c") with [99%N].
  change (JS.lit "n") with [110%N]. change (JS.lit "_") with [95%N].
  rewrite !replace_class_map, !List.map_map.
  rewrite (List.map_ext _ translit translit_passes).
  rewrite !replace_class_nil.
  rewrite (filter_filter_and _ _ kept) by (intros c; apply kept_not_quote).
  reflexivity.
Qed.

(** C9, as the code has it: [sanitizeFileName] replaces the lower-case
    accented letters of its seven classes by [a e i o u c n], removes every
    other code unit outside [[a-zA-Z0-9_.-]] and white space, turns each run
    of white space into one underscore, removes the leading and the trailing
    underscores, lowercases, and keeps the first 80 code units; the result
    has at most 80 code units, all in [[a-z0-9_.-]]. *)
Theorem sanitizeFileName_pipeline (title : list N) :
  sanitizeFileName title = sanitize_amended title /\
  (length (sanitizeFileName title) <= 80)%nat /\
  Forall (fun c => in_file_alphabet c = true) (sanitizeFileName title).
Proof.
  rewrite sanitizeFileName_unfold. unfold sanitize_amended.
  destruct (toLowerCase_no_space_kept
              (JS.strip_both is_underscore
                 (JS.replace_runs JS.is_space [95%N]
                    (List.filter kept (List.map translit title)))))
    as [Hlower Halpha].
  { apply strip_both_Forall, replace_runs_no_space, filter_kept_Forall. }
  rewrite Hlower. split; [done|]. split.
  - rewrite length_take. lia.
  - by apply Forall_take.
Qed.

(** C9, as the specification has it, fails: an upper-case accented letter
    is removed, not transliterated, and a tab becomes an underscore. *)
Lemma sanitizeFileName_claimed_counterexample :
  sanitizeFileName ([200%N] ++ JS.lit " tempo") = JS.lit "tempo" /\
  sanitize_claimed ([200%N] ++ JS.lit " tempo") = JS.lit "e_tempo" /\
  sanitizeFileName ([200%N] ++ JS.lit " tempo")
    <> sanitize_claimed ([200%N] ++ JS.lit " tempo") /\
  sanitizeFileName (JS.lit "a" ++ [9%N] ++ JS.lit "b")
    <> sanitize_claimed (JS.lit "a" ++ [9%N] ++ JS.lit "b").
Proof. vm_compute. repeat split; discriminate. Qed.

(** * Further properties *)

(** ** check-downloads.ts *)

Lemma read_manifest_Some fs bookDir m :
  read_manifest fs bookDir = Some m ->
  exists f, fs !! path_join bookDir (JS.lit "metadata.json") = Some f /\
            f_data f = CMetadata m.
Proof.
  unfold read_manifest. intros H.
  destruct (fs !! path_join bookDir (JS.lit "metadata.json")) as [f|]; [|done].
  exists f. split; [done|]. by destruct (f_data f); simplify_eq.
Qed.

(** X1: without a readable manifest ([metadata.json] missing, or not a
    manifest) [checkDownloadStatus] throws and leaves the directory and the
    browser untouched: no partial report is written. *)
Theorem checkDownloadStatus_without_manifest env bookDir w :
  read_manifest (files w) bookDir = None ->
  exists e, checkDownloadStatus env bookDir w = (Thrown e, w) /\
            (files w !! path_join bookDir (JS.lit "metadata.json") = None ->
             e = MetadataNotFound).
Proof.
  unfold read_manifest, checkDownloadStatus, bind, existsSync, readFileSync.
  destruct (files w !! path_join bookDir (JS.lit "metadata.json")) as [f|] eqn:Hf.
  - simpl. rewrite Hf.
    destruct (f_data f); intros H; try done; simpl; eexists; (split; [done|done]).
  - intros _. simpl. by exists MetadataNotFound.
Qed.

Lemma checkDownloadStatus_without_manifest_witness :
  read_manifest (files demo_world_raw) demo_dir = None /\
  exists e, checkDownloadStatus demo_env demo_dir demo_world_raw = (Thrown e, demo_world_raw).
Proof.
  split; [reflexivity|].
  destruct (checkDownloadStatus_without_manifest demo_env demo_dir demo_world_raw eq_refl)
    as (e & H & _).
  by exists e.
Defined.

Lemma filter_map_length {A B} (f : A -> B) (P : B -> bool) (l : list A) :
  length (List.filter P (List.map f l)) = length (List.filter (fun x => P (f x)) l).
Proof.
  induction l as [|x l IH]; [done|]. simpl.
  destruct (P (f x)); simpl; by rewrite IH.
Qed.

Lemma sublist_List_filter {A} (P : A -> bool) (l : list A) :
  sublist (List.filter P l) l.
Proof.
  induction l as [|x l IH]; [constructor|]. simpl.
  destruct (P x); by constructor.
Qed.

(** X2: the failed list of the report holds exactly the entries of the
    manifest classified [failed], in manifest order, and [failedCount] is its
    length; the statuses repeat the ids of the manifest in order. *)
Theorem checkDownloadStatus_failed_items env bookDir w m :
  read_manifest (files w) bookDir = Some m ->
  exists report w',
    checkDownloadStatus env bookDir w = (Returned report, w') /\
    failedItems report
      = List.filter (fun t => is_failed (status_of (files w) bookDir t))
                    (tableOfContents m) /\
    sublist (failedItems report) (tableOfContents m) /\
    failedCount report = Z.of_nat (length (failedItems report)) /\
    List.map ds_docbookId (downloadStatuses report)
      = List.map docbookId (tableOfContents m).
Proof.
  intros (f & Hf & Hm)%read_manifest_Some. eexists _, _.
  split; [by apply (checkDownloadStatus_run env bookDir w f m)|].
  simpl. split; [done|]. split; [apply sublist_List_filter|].
  split; [by rewrite filter_map_length|].
  by rewrite List.map_map.
Qed.

Lemma checkDownloadStatus_failed_items_witness :
  read_manifest (files demo_world3) demo_dir = Some demo_meta3 /\
  exists report w',
    checkDownloadStatus demo_env demo_dir demo_world3 = (Returned report, w') /\
    failedItems report = drop 1 demo_toc3.
Proof.
  split; [vm_compute; reflexivity|].
  destruct (checkDownloadStatus_failed_items demo_env demo_dir demo_world3 demo_meta3)
    as (report & w' & Hrun & Hfailed & _); [vm_compute; reflexivity|].
  exists report, w'. split; [exact Hrun|]. rewrite Hfailed. vm_compute. reflexivity.
Defined.

Lemma path_join_inj dir a b : path_join dir a = path_join dir b -> a = b.
Proof. unfold path_join. intros H%app_inv_head. by injection H. Qed.

Lemma fileName_check_not_json t :
  fileName_check t <> JS.lit "output.json" /\ fileName_check t <> JS.lit "metadata.json".
Proof.
  split; intros H; apply (f_equal head) in H; vm_compute in H; discriminate H.
Qed.

Lemma status_of_insert_output fs bookDir f t :
  status_of (<[path_join bookDir (JS.lit "output.json") := f]> fs) bookDir t
  = status_of fs bookDir t.
Proof.
  unfold status_of. rewrite lookup_insert_ne; [done|].
  intros H%path_join_inj. by destruct (fileName_check_not_json t) as [Ho _].
Qed.

Lemma report_of_insert_output env fs bookDir f m :
  report_of env (<[path_join bookDir (JS.lit "output.json") := f]> fs) bookDir m
  = report_of env fs bookDir m.
Proof.
  unfold report_of.
  rewrite (List.map_ext _ _ (status_of_insert_output fs bookDir f)).
  rewrite (List.filter_ext _ (fun t => is_failed (status_of fs bookDir t)));
    [done|].
  intros t. by rewrite status_of_insert_output.
Qed.

Lemma metadata_not_output bookDir :
  path_join bookDir (JS.lit "output.json") <> path_join bookDir (JS.lit "metadata.json").
Proof. intros H%path_join_inj. vm_compute in H. discriminate H. Qed.

(** X3: [checkDownloadStatus] writes [output.json] and nothing else, and
    running it again on the directory it leaves gives the same report up to
    [checkedAt]: the reconciliation can be repeated at will. *)
Theorem checkDownloadStatus_rerun env env' bookDir w m :
  read_manifest (files w) bookDir = Some m ->
  exists r1 w1 r2 w2,
    checkDownloadStatus env bookDir w = (Returned r1, w1) /\
    checkDownloadStatus env' bookDir w1 = (Returned r2, w2) /\
    r2 = set_checkedAt (now env') r1 /\
    events w1 = events w /\ events w2 = events w /\
    f_data <$> files w1 !! path_join bookDir (JS.lit "output.json") = Some (CReport r1) /\
    f_data <$> files w2 !! path_join bookDir (JS.lit "output.json") = Some (CReport r2) /\
    forall p, p <> path_join bookDir (JS.lit "output.json") ->
              files w1 !! p = files w !! p /\ files w2 !! p = files w !! p.
Proof.
  intros (f & Hf & Hm)%read_manifest_Some.
  pose proof (checkDownloadStatus_run env bookDir w f m Hf Hm) as H1.
  eexists _, _. 
  match type of H1 with _ = (_, ?w1) =>
    assert (Hf1 : files w1 !! path_join bookDir (JS.lit "metadata.json") = Some f)
      by (simpl; rewrite lookup_insert_ne; [done|apply metadata_not_output]);
    pose proof (checkDownloadStatus_run env' bookDir w1 f m Hf1 Hm) as H2
  end.
  eexists _, _. split; [exact H1|]. split; [exact H2|]. simpl.
  rewrite report_of_insert_output.
  split; [done|]. split; [done|]. split; [done|].
  split; [by rewrite lookup_insert_eq|]. split; [by rewrite lookup_insert_eq|].
  intros p Hp. by rewrite !lookup_insert_ne.
Qed.

Lemma checkDownloadStatus_rerun_witness :
  read_manifest (files demo_world3) demo_dir = Some demo_meta3 /\
  exists r1 w1 r2 w2,
    checkDownloadStatus demo_env demo_dir demo_world3 = (Returned r1, w1) /\
    checkDownloadStatus demo_env_later demo_dir w1 = (Returned r2, w2) /\
    r2 = set_checkedAt (JS.lit "2025-02-02T00:00:00.000Z") r1.
Proof.
  split; [vm_compute; reflexivity|].
  destruct (checkDownloadStatus_rerun demo_env demo_env_later demo_dir demo_world3 demo_meta3)
    as (r1 & w1 & r2 & w2 & H1 & H2 & Heq & _); [vm_compute; reflexivity|].
  exists r1, w1, r2, w2. split; [exact H1|]. split; [exact H2|exact Heq].
Defined.



(** ** identifyChapters *)

Lemma Forall2_snoc_replace {A B} (R : A -> B -> Prop) (l : list A) (c c' : A) (ms : list B) :
  (forall m, R c m -> R c' m) ->
  Forall2 R (l ++ [c]) ms -> Forall2 R (l ++ [c']) ms.
Proof.
  intros HR (k1 & k2 & H1 & H2 & ->)%Forall2_app_inv_l.
  apply Forall2_app; [done|].
  apply Forall2_cons_inv_l in H2 as (m & k & Hc & Hk & ->).
  constructor; [by apply HR|done].
Qed.

Section markers.

Variable R : Chapter -> TocItem -> Prop.
Hypothesis R_set_endPage : forall e c m, R c m -> R (set_endPage e c) m.
Hypothesis R_push_page : forall x c m, R c m -> R (push_page x c) m.
Hypothesis R_premessa :
  forall item, is_premessa (title item) = true ->
    R {| chapterNumber := 0; c_title := title item; startPage := pageNum item;
         endPage := pageNum item; pages := [item] |} item.
Hypothesis R_chapter :
  forall item n len,
    is_premessa (title item) = false -> isChapterStart (title item) = true -> 0 <= n ->
    R {| chapterNumber := n + 1; c_title := title item; startPage := pageNum item;
         endPage := len; pages := [item] |} item.

Lemma save_previous_rel st item ms :
  Forall2 R (st_all st) ms -> Forall2 R (save_previous st item) ms.
Proof.
  unfold st_all, save_previous.
  destruct (st_currentChapter st) as [c|]; [|by rewrite app_nil_r].
  apply Forall2_snoc_replace. intros m. apply R_set_endPage.
Qed.

Lemma segment_step_rel len st item ms :
  0 <= st_chapterNumber st -> Forall2 R (st_all st) ms ->
  0 <= st_chapterNumber (segment_step len st item) /\
  Forall2 R (st_all (segment_step len st item)) (ms ++ List.filter is_marker [item]).
Proof.
  intros Hn Hrel. pose proof (save_previous_rel st item ms Hrel) as Hsave.
  simpl. unfold is_marker.
  destruct (is_premessa (title item)) eqn:Hp.
  - rewrite segment_step_premessa by done. unfold st_all. simpl.
    split; [done|]. rewrite app_nil_r. apply Forall2_app; [done|].
    repeat constructor. by apply R_premessa.
  - destruct (isChapterStart (title item)) eqn:Hc; simpl.
    + rewrite segment_step_chapter by done. unfold st_all. simpl.
      split; [lia|]. apply Forall2_app; [done|].
      repeat constructor. by apply R_chapter.
    + rewrite segment_step_other by done. rewrite app_nil_r.
      unfold st_all in *.
      destruct (st_currentChapter st) as [c|] eqn:Hcur; simpl.
      * split; [done|]. revert Hrel. apply Forall2_snoc_replace.
        intros m. apply R_push_page.
      * split; [done|]. by rewrite Hcur.
Qed.

Lemma segment_loop_rel len items :
  forall st ms,
    0 <= st_chapterNumber st -> Forall2 R (st_all st) ms ->
    Forall2 R (st_all (segment_loop len st items)) (ms ++ List.filter is_marker items).
Proof.
  induction items as [|x items IH]; intros st ms Hn Hrel; simpl.
  - by rewrite app_nil_r.
  - destruct (segment_step_rel len st x ms Hn Hrel) as [Hn' Hrel'].
    specialize (IH _ _ Hn' Hrel'). simpl in IH.
    destruct (is_marker x); simpl in *; [|by rewrite app_nil_r in IH].
    by rewrite <- app_assoc in IH.
Qed.

Lemma identifyChapters_rel toc :
  Forall2 R (identifyChapters toc) (List.filter is_marker toc).
Proof.
  destruct toc as [|x toc]; [constructor|].
  unfold identifyChapters.
  assert (H0 : Forall2 R (st_all segment_init) []) by constructor.
  pose proof (segment_loop_rel (Z.of_nat (length (x :: toc))) (x :: toc)
                segment_init [] (Z.le_refl 0) H0) as H.
  rewrite app_nil_l in H. revert H.
  unfold segment_finish, st_all.
  destruct (st_currentChapter _) as [c|]; [|by rewrite app_nil_r].
  destruct (last (x :: toc)) as [l|] eqn:Hlast.
  - apply Forall2_snoc_replace. intros m. apply R_set_endPage.
  - by apply last_None in Hlast.
Qed.

End markers.

(** X5: [identifyChapters] returns one chapter per marker of the table of
    contents (Premessa page or chapter start), in order; the marker is the
    first page of its chapter and gives it its title and [startPage].  A
    table of contents without marker gives no chapter. *)
Theorem identifyChapters_one_per_marker (toc : list TocItem) :
  Forall2 opened_by (identifyChapters toc) (List.filter is_marker toc) /\
  length (identifyChapters toc) = length (List.filter is_marker toc).
Proof.
  assert (H : Forall2 opened_by (identifyChapters toc) (List.filter is_marker toc)).
  { apply identifyChapters_rel.
    - intros e c m H. exact H.
    - intros x c m (Hhead & Ht & Hs). split; [|done]. simpl.
      destruct (pages c); [discriminate Hhead|exact Hhead].
    - intros item _. by repeat split.
    - intros item n len _ _ _. by repeat split. }
  split; [exact H|]. by apply Forall2_length in H.
Qed.

Lemma save_previous_numbers st item :
  List.map chapterNumber (save_previous st item) = List.map chapterNumber (st_all st).
Proof.
  unfold save_previous, st_all.
  destruct (st_currentChapter st); [|by rewrite app_nil_r].
  by rewrite !List.map_app.
Qed.

Lemma segment_step_numbers len st item (k : nat) :
  st_chapterNumber st = Z.of_nat k ->
  List.filter (fun n => negb (n =? 0)) (List.map chapterNumber (st_all st))
    = seqZ 1 (Z.of_nat k) ->
  let k' := (k + length (List.filter is_numbered_marker [item]))%nat in
  st_chapterNumber (segment_step len st item) = Z.of_nat k' /\
  List.filter (fun n => negb (n =? 0))
              (List.map chapterNumber (st_all (segment_step len st item)))
    = seqZ 1 (Z.of_nat k').
Proof.
  intros Hk Hnum. simpl. unfold is_numbered_marker.
  destruct (is_premessa (title item)) eqn:Hp; simpl.
  - rewrite segment_step_premessa by done. unfold st_all at 1. simpl.
    rewrite Nat.add_0_r, app_nil_r. split; [done|].
    by rewrite List.map_app, List.filter_app, save_previous_numbers, Hnum, app_nil_r.
  - destruct (isChapterStart (title item)) eqn:Hc; simpl.
    + rewrite segment_step_chapter by done. unfold st_all at 1. simpl.
      split; [lia|].
      rewrite List.map_app, List.filter_app, save_previous_numbers, Hnum. simpl.
      rewrite Hk. replace (k + 1)%nat with (S k) by lia. rewrite seqZ_S.
      destruct (Z.eqb_spec (Z.of_nat k + 1) 0) as [?|_]; [lia|].
      simpl. by rewrite Z.add_comm.
    + rewrite segment_step_other by done. rewrite Nat.add_0_r.
      unfold st_all in *.
      destruct (st_currentChapter st) as [c|] eqn:Hcur; simpl.
      * split; [done|]. rewrite <- Hnum. by rewrite !List.map_app.
      * split; [done|]. by rewrite Hcur.
Qed.

Lemma segment_loop_numbers len items :
  forall st (k : nat),
    st_chapterNumber st = Z.of_nat k ->
    List.filter (fun n => negb (n =? 0)) (List.map chapterNumber (st_all st))
      = seqZ 1 (Z.of_nat k) ->
    List.filter (fun n => negb (n =? 0))
                (List.map chapterNumber (st_all (segment_loop len st items)))
      = seqZ 1 (Z.of_nat (k + length (List.filter is_numbered_marker items))).
Proof.
  induction items as [|x items IH]; intros st k Hk Hnum; simpl.
  - by rewrite Nat.add_0_r.
  - destruct (segment_step_numbers len st x k Hk Hnum) as [Hk' Hnum'].
    rewrite (IH _ _ Hk' Hnum'). f_equal. f_equal. simpl.
    destruct (is_numbered_marker x); simpl; lia.
Qed.

Lemma segment_finish_numbers toc st :
  toc <> [] ->
  List.map chapterNumber (segment_finish toc st) = List.map chapterNumber (st_all st).
Proof.
  intros Hne. unfold segment_finish, st_all.
  destruct (st_currentChapter st) as [c|]; [|by rewrite app_nil_r].
  destruct (last toc) eqn:Hlast; [by rewrite !List.map_app|].
  by apply last_None in Hlast.
Qed.

(** X6: chapter number 0 is given to the Premessa pages and to them only;
    the other chapters are numbered 1, 2, 3, ... in order, one number per
    chapter start. *)
Theorem identifyChapters_numbering (toc : list TocItem) :
  Forall2 numbered_by (identifyChapters toc) (List.filter is_marker toc) /\
  List.filter (fun n => negb (n =? 0)) (List.map chapterNumber (identifyChapters toc))
    = seqZ 1 (Z.of_nat (length (List.filter is_numbered_marker toc))).
Proof.
  split.
  - apply identifyChapters_rel.
    + intros e c m H. exact H.
    + intros x c m H. exact H.
    + intros item Hp. split; [done|]. simpl. lia.
    + intros item n len Hp _ Hn. unfold numbered_by. simpl. rewrite Hp.
      split; [split; [lia|done]|lia].
  - destruct toc as [|x toc]; [done|].
    unfold identifyChapters. rewrite segment_finish_numbers by done.
    by rewrite (segment_loop_numbers _ _ segment_init 0%nat).
Qed.

Example identifyChapters_demo8 :
  List.map (fun c => (chapterNumber c, startPage c, endPage c, List.map pageNum (pages c)))
           (identifyChapters demo_toc8)
  = [(1, 2, 3, [2; 3]); (0, 4, 4, [4]); (2, 6, 8, [6; 7; 8])].
Proof. vm_compute. reflexivity. Qed.

Lemma save_previous_range st lastp item :
  range_inv st lastp -> pageNum item = lastp + 1 ->
  Forall exact_range (save_previous st item).
Proof.
  intros [Hch Hcur] Hq. unfold save_previous.
  destruct (st_currentChapter st) as [c|]; [|done].
  destruct Hcur as [Hpages Hle].
  apply Forall_app. split; [done|]. constructor; [|constructor].
  unfold exact_range. simpl. rewrite Hq.
  replace (lastp + 1 - 1) with lastp by lia. done.
Qed.

Lemma segment_step_range len st lastp item :
  range_inv st lastp -> pageNum item = lastp + 1 ->
  range_inv (segment_step len st item) (lastp + 1).
Proof.
  intros Hinv Hq. pose proof (save_previous_range st lastp item Hinv Hq) as Hsave.
  destruct (is_premessa (title item)) eqn:Hp.
  - rewrite segment_step_premessa by done. split; simpl; [|done].
    apply Forall_app. split; [done|]. constructor; [|constructor].
    unfold exact_range. simpl.
    replace (pageNum item - pageNum item + 1) with 1 by lia. done.
  - destruct (isChapterStart (title item)) eqn:Hc.
    + rewrite segment_step_chapter by done. split; simpl; [done|].
      rewrite Hq. replace (lastp + 1 - (lastp + 1) + 1) with 1 by lia. done.
    + rewrite segment_step_other by done. destruct Hinv as [Hch Hcur].
      destruct (st_currentChapter st) as [c|] eqn:Hcc.
      * destruct Hcur as [Hpages Hle]. split; simpl; [done|]. split; [|lia].
        rewrite List.map_app, Hpages. simpl. rewrite Hq.
        replace (lastp + 1 - startPage c + 1) with ((lastp - startPage c + 1) + 1) by lia.
        rewrite (seqZ_app (startPage c) (lastp - startPage c + 1) 1) by lia.
        replace (startPage c + (lastp - startPage c + 1)) with (lastp + 1) by lia.
        reflexivity.
      * split; [done|]. by rewrite Hcc.
Qed.

Lemma segment_loop_range len items :
  forall st lastp,
    range_inv st lastp -> consecutive_from lastp items ->
    range_inv (segment_loop len st items) (lastp + Z.of_nat (length items)).
Proof.
  induction items as [|x items IH]; intros st lastp Hinv Hcons; simpl length.
  - by rewrite Z.add_0_r.
  - destruct Hcons as [Hq Hcons].
    replace (lastp + Z.of_nat (S (length items)))
      with ((lastp + 1) + Z.of_nat (length items)) by lia.
    apply IH; [|done]. by apply segment_step_range.
Qed.

Lemma consecutive_last items :
  forall b l, consecutive_from b items -> last items = Some l ->
              pageNum l = b + Z.of_nat (length items).
Proof.
  induction items as [|x items IH]; intros b l Hcons Hlast; [done|].
  destruct Hcons as [Hq Hcons]. destruct items as [|y items].
  - injection Hlast as <-. simpl. lia.
  - rewrite last_cons_cons in Hlast. rewrite (IH _ _ Hcons Hlast).
    simpl length. lia.
Qed.

Lemma contiguous_consecutive toc :
  forall k : Z,
    (forall (i : nat) item, toc !! i = Some item -> pageNum item = Z.of_nat i + k + 1) ->
    consecutive_from k toc.
Proof.
  induction toc as [|x toc IH]; intros k H; [done|]. simpl. split.
  - rewrite (H 0%nat x eq_refl). lia.
  - apply IH. intros i item Hi. rewrite (H (S i) item Hi). lia.
Qed.

(** X7: when the pages are numbered 1, 2, 3, ... in order, every chapter
    holds exactly the pages numbered [startPage] to [endPage], in order, and
    at least one: the range recorded for a chapter is the range of its
    pages. *)
Theorem identifyChapters_exact_ranges (toc : list TocItem) :
  contiguous_from_1 toc ->
  Forall (fun c =>
            List.map pageNum (pages c)
              = seqZ (startPage c) (endPage c - startPage c + 1) /\
            startPage c <= endPage c)
         (identifyChapters toc).
Proof.
  intros Hcont.
  assert (Hcons : consecutive_from 0 toc).
  { apply contiguous_consecutive. intros i item Hi. rewrite (Hcont i item Hi). lia. }
  assert (Hinit : range_inv segment_init 0) by (split; [constructor|done]).
  pose proof (segment_loop_range (Z.of_nat (length toc)) toc segment_init 0 Hinit Hcons)
    as [Hch Hcur].
  change (Forall exact_range (identifyChapters toc)).
  unfold identifyChapters, segment_finish.
  destruct (st_currentChapter _) as [c|]; [|done].
  destruct (last toc) as [l|] eqn:Hlast; [|done].
  destruct Hcur as [Hpages Hle].
  apply Forall_app. split; [done|]. constructor; [|constructor].
  unfold exact_range. simpl. rewrite (consecutive_last toc 0 l Hcons Hlast).
  done.
Qed.

Lemma identifyChapters_exact_ranges_witness :
  contiguous_from_1 demo_toc8 /\
  Forall (fun c =>
            List.map pageNum (pages c)
              = seqZ (startPage c) (endPage c - startPage c + 1) /\
            startPage c <= endPage c)
         (identifyChapters demo_toc8).
Proof.
  assert (H : contiguous_from_1 demo_toc8).
  { intros i item Hi.
    do 8 (destruct i as [|i]; [injection Hi as <-; reflexivity|]).
    discriminate Hi. }
  split; [exact H|]. exact (identifyChapters_exact_ranges demo_toc8 H).
Defined.

(** X8: the pages kept in the chapters are pages of the table of contents,
    in its order and each at most as often as it occurs there. *)
Theorem identifyChapters_pages_in_order (toc : list TocItem) :
  sublist (concat (List.map pages (identifyChapters toc))) toc /\
  (NoDup toc -> NoDup (concat (List.map pages (identifyChapters toc)))).
Proof.
  pose proof (identifyChapters_pages toc) as H.
  split; [exact H|]. intros Hnd. by eapply sublist_NoDup.
Qed.

Lemma identifyChapters_pages_in_order_witness :
  NoDup demo_toc8 /\
  NoDup (concat (List.map pages (identifyChapters demo_toc8))).
Proof.
  assert (H : NoDup demo_toc8).
  { apply NoDup_ListNoDup, (List.NoDup_map_inv pageNum). vm_compute.
    repeat (constructor; [simpl; intuition discriminate|]). constructor. }
  split; [exact H|].
  by apply (identifyChapters_pages_in_order demo_toc8).
Defined.

(** ** Which files a computation may change *)

Lemma writes_only_weaken {A} (P Q : list (list N) -> Prop) (c : M A) :
  (forall p, P p -> Q p) -> writes_only P c -> writes_only Q c.
Proof. intros HPQ Hc w p Hp. apply Hc. intros HP. by apply Hp, HPQ. Qed.

Lemma writes_only_ret {A} P (a : A) : writes_only P (ret a).
Proof. by intros w p _. Qed.

Lemma writes_only_throw {A} P (e : Err) : writes_only P (@throw A e).
Proof. by intros w p _. Qed.

Lemma writes_only_exit {A} P (n : Z) : writes_only P (@exit A n).
Proof. by intros w p _. Qed.

Lemma writes_only_bind {A B} P (c : M A) (k : A -> M B) :
  writes_only P c -> (forall a, writes_only P (k a)) -> writes_only P (bind c k).
Proof.
  intros Hc Hk w p Hp. unfold bind. specialize (Hc w p Hp).
  destruct (c w) as [[a|e|n] w1]; simpl in *; [|done..].
  by rewrite (Hk a w1 p Hp).
Qed.

Lemma writes_only_try_catch {A} P (c : M A) (h : Err -> M A) :
  writes_only P c -> (forall e, writes_only P (h e)) -> writes_only P (try_catch c h).
Proof.
  intros Hc Hh w p Hp. unfold try_catch. specialize (Hc w p Hp).
  destruct (c w) as [[a|e|n] w1]; simpl in *; [done| |done].
  by rewrite (Hh e w1 p Hp).
Qed.

Lemma writes_only_try_finally {A} P (c : M A) (f : M unit) :
  writes_only P c -> writes_only P f -> writes_only P (try_finally c f).
Proof.
  intros Hc Hf w p Hp. unfold try_finally. specialize (Hc w p Hp).
  destruct (c w) as [[a|e|n] w1]; simpl in *; [| |done].
  - rewrite <- Hc. apply (writes_only_bind P f (fun _ => ret a)); [done| |done].
    intros _. apply writes_only_ret.
  - rewrite <- Hc. apply (writes_only_bind P f (fun _ => throw e)); [done| |done].
    intros _. apply writes_only_throw.
Qed.

Lemma writes_only_existsSync P q : writes_only P (existsSync q).
Proof. by intros w p _. Qed.

Lemma writes_only_readFileSync P q : writes_only P (readFileSync q).
Proof. intros w p _. unfold readFileSync. by destruct (files w !! q). Qed.

Lemma writes_only_statSync P q : writes_only P (statSync q).
Proof.
  intros w p _. unfold statSync.
  destruct (files w !! q) as [f|]; [|done]. by destruct (f_size f).
Qed.

Lemma writes_only_emit P e : writes_only P (emit e).
Proof. by intros w p _. Qed.

Lemma writes_only_writeFileSync (P : list (list N) -> Prop) env q c :
  P q -> writes_only P (writeFileSync env q c).
Proof.
  intros Hq w p Hp. simpl. apply lookup_insert_ne. intros ->. by apply Hp.
Qed.

Lemma writes_only_putFile (P : list (list N) -> Prop) q f :
  P q -> writes_only P (putFile q f).
Proof.
  intros Hq w p Hp. simpl. apply lookup_insert_ne. intros ->. by apply Hp.
Qed.

Lemma writes_only_for_each {A} P (f : A -> M unit) (l : list A) :
  (forall x, x ∈ l -> writes_only P (f x)) -> writes_only P (for_each f l).
Proof.
  induction l as [|x l IH]; intros Hf; simpl.
  - apply writes_only_ret.
  - apply writes_only_bind.
    + apply Hf. by left.
    + intros _. apply IH. intros y Hy. apply Hf. by right.
Qed.

Lemma writes_only_as_metadata P c : writes_only P (as_metadata c).
Proof. destruct c; simpl; auto using @writes_only_ret, @writes_only_throw. Qed.

Lemma writes_only_mergeChapterPages env bookDir processedDir chapter :
  writes_only (fun p => p = path_join processedDir (outputFileName chapter))
              (mergeChapterPages env bookDir processedDir chapter).
Proof.
  intros w p Hp. rewrite mergeChapterPages_run. simpl.
  apply lookup_insert_ne. intros <-. by apply Hp.
Qed.

Lemma writes_only_mergeChapterPDFs env bookDir :
  writes_only (in_processed bookDir) (mergeChapterPDFs env bookDir).
Proof.
  unfold mergeChapterPDFs.
  apply writes_only_bind; [apply writes_only_existsSync|]. intros present.
  destruct present; simpl; [|apply writes_only_throw].
  apply writes_only_bind; [apply writes_only_readFileSync|]. intros raw.
  apply writes_only_bind; [apply writes_only_as_metadata|]. intros metadata.
  apply writes_only_for_each. intros chapter _.
  eapply writes_only_weaken; [|apply writes_only_mergeChapterPages].
  intros p ->. by eexists.
Qed.

Lemma not_in_processed bookDir name :
  ~ in_processed bookDir (path_join bookDir name).
Proof.
  intros [n H]. unfold path_join in H. rewrite <- app_assoc in H.
  apply app_inv_head in H. discriminate H.
Qed.

(** X9: [mergeChapterPDFs] changes no file outside [processed/]: the page
    artifacts, [metadata.json] and [output.json] stay as they are; it does
    not use the browser; and without a readable manifest it throws before
    writing anything. *)
Theorem mergeChapterPDFs_frame env bookDir w :
  (forall p, ~ in_processed bookDir p ->
             files (mergeChapterPDFs env bookDir w).2 !! p = files w !! p) /\
  (forall name, files (mergeChapterPDFs env bookDir w).2 !! path_join bookDir name
                = files w !! path_join bookDir name) /\
  events (mergeChapterPDFs env bookDir w).2 = events w /\
  (read_manifest (files w) bookDir = None ->
   exists e, mergeChapterPDFs env bookDir w = (Thrown e, w)).
Proof.
  split; [intros p Hp; by apply writes_only_mergeChapterPDFs|].
  split; [intros name; apply writes_only_mergeChapterPDFs, not_in_processed|].
  split; [apply keeps_events_mergeChapterPDFs|].
  unfold read_manifest, mergeChapterPDFs, bind, existsSync, readFileSync.
  destruct (files w !! path_join bookDir (JS.lit "metadata.json")) as [f|] eqn:Hf.
  - simpl. rewrite Hf.
    destruct (f_data f); intros H; try done; simpl; by eexists.
  - intros _. simpl. by eexists.
Qed.

Lemma mergeChapterPDFs_frame_witness :
  read_manifest (files demo_world_raw) demo_dir = None /\
  ~ in_processed demo_dir (path_join demo_dir (JS.lit "page_001__11_1.pdf")) /\
  files (mergeChapterPDFs demo_env demo_dir demo_world_book).2
    !! path_join demo_dir (JS.lit "page_001__11_1.pdf")
  = files demo_world_book !! path_join demo_dir (JS.lit "page_001__11_1.pdf") /\
  exists e, mergeChapterPDFs demo_env demo_dir demo_world_raw = (Thrown e, demo_world_raw).
Proof.
  split; [reflexivity|]. split; [apply not_in_processed|]. split.
  - destruct (mergeChapterPDFs_frame demo_env demo_dir demo_world_book) as [H _].
    apply H, not_in_processed.
  - destruct (mergeChapterPDFs_frame demo_env demo_dir demo_world_raw) as (_ & _ & _ & H).
    apply H. reflexivity.
Defined.

Lemma present_artifacts_cons fs bookDir page pgs :
  present_artifacts fs bookDir (page :: pgs)
  = match fs !! path_join bookDir (fileName_merge page) with
    | Some x => [x]
    | None => []
    end ++ present_artifacts fs bookDir pgs.
Proof.
  unfold present_artifacts. simpl.
  by destruct (fs !! path_join bookDir (fileName_merge page)).
Qed.

Lemma present_artifacts_insert fs bookDir q f pgs :
  (forall name, q <> path_join bookDir name) ->
  present_artifacts (<[q := f]> fs) bookDir pgs = present_artifacts fs bookDir pgs.
Proof.
  intros Hq. induction pgs as [|page pgs IH]; [done|].
  rewrite !present_artifacts_cons, IH.
  rewrite lookup_insert_ne by apply Hq. done.
Qed.

Lemma merged_file_insert env fs bookDir q f chapter :
  (forall name, q <> path_join bookDir name) ->
  merged_file env (<[q := f]> fs) bookDir chapter = merged_file env fs bookDir chapter.
Proof. intros Hq. unfold merged_file. by rewrite present_artifacts_insert. Qed.

Lemma merge_all_run env bookDir chapters :
  forall w,
    NoDup (List.map outputFileName chapters) ->
    exists w',
      for_each (mergeChapterPages env bookDir (path_join bookDir (JS.lit "processed")))
               chapters w = (Returned tt, w') /\
      forall c, c ∈ chapters ->
        files w' !! path_join (path_join bookDir (JS.lit "processed")) (outputFileName c)
        = Some (merged_file env (files w) bookDir c).
Proof.
  induction chapters as [|c0 rest IH]; intros w Hnd; simpl.
  - exists w. split; [done|]. intros c Hc. by apply elem_of_nil in Hc.
  - apply NoDup_cons in Hnd as [Hc0 Hnd].
    unfold bind at 1. rewrite mergeChapterPages_run.
    match goal with |- context [for_each _ rest ?w1] =>
      destruct (IH w1 Hnd) as (w' & Hrun & Hrest);
      pose proof (writes_only_for_each
                    (fun p => exists c, c ∈ rest /\
                       p = path_join (path_join bookDir (JS.lit "processed"))
                                     (outputFileName c))
                    (mergeChapterPages env bookDir (path_join bookDir (JS.lit "processed")))
                    rest) as Hframe;
      specialize (Hframe
                    (fun x Hx => writes_only_weaken _ _ _
                       (fun p (Hp : p = _) => ex_intro _ x (conj Hx Hp))
                       (writes_only_mergeChapterPages env bookDir _ x)) w1)
    end.
    rewrite Hrun in Hframe. simpl in Hframe.
    exists w'. split; [done|]. intros c [->|Hc]%elem_of_cons.
    + rewrite Hframe; [apply lookup_insert_eq|].
      intros (c & Hc & Heq%path_join_inj). apply Hc0.
      rewrite Heq. apply list_elem_of_fmap. by exists c.
    + rewrite (Hrest c Hc). f_equal. simpl. apply merged_file_insert.
      intros name. apply not_eq_sym. intros H.
      apply (not_in_processed bookDir name). by eexists.
Qed.

(** X10: with a readable manifest whose chapters get pairwise different
    output names, [mergeChapterPDFs] returns and leaves, for every chapter,
    the document [save] makes of the pages of the artifacts found for the
    chapter's pages in the book directory, in order: these pages, or one
    empty page when there is none. *)
Theorem mergeChapterPDFs_documents env bookDir w m :
  read_manifest (files w) bookDir = Some m ->
  NoDup (List.map outputFileName (identifyChapters (tableOfContents m))) ->
  exists w',
    mergeChapterPDFs env bookDir w = (Returned tt, w') /\
    forall c, c ∈ identifyChapters (tableOfContents m) ->
      f_data <$> files w' !! path_join (path_join bookDir (JS.lit "processed"))
                                       (outputFileName c)
      = Some (CPdf (PDFDocument_save
                      (concat (List.map pdf_pages
                                 (present_artifacts (files w) bookDir (pages c)))))).
Proof.
  intros (f & Hf & Hm)%read_manifest_Some Hnd.
  destruct (merge_all_run env bookDir _ w Hnd) as (w' & Hrun & Hdocs).
  exists w'. split.
  - unfold mergeChapterPDFs, bind at 1, existsSync. rewrite Hf. simpl.
    unfold bind at 1, readFileSync. rewrite Hf, Hm. simpl. exact Hrun.
  - intros c Hc. by rewrite (Hdocs c Hc).
Qed.

Lemma mergeChapterPDFs_documents_witness :
  read_manifest (files demo_world_book) demo_dir = Some demo_meta3 /\
  NoDup (List.map outputFileName (identifyChapters (tableOfContents demo_meta3))) /\
  exists w',
    mergeChapterPDFs demo_env demo_dir demo_world_book = (Returned tt, w') /\
    f_data <$> files w' !! path_join (path_join demo_dir (JS.lit "processed"))
                                     (JS.lit "chapter_01_capitolo_1_inizio.pdf")
    = Some (CPdf [11%N; 12%N; 31%N]).
Proof.
  assert (H1 : read_manifest (files demo_world_book) demo_dir = Some demo_meta3)
    by (vm_compute; reflexivity).
  assert (H2 : NoDup (List.map outputFileName (identifyChapters (tableOfContents demo_meta3)))).
  { vm_compute. apply NoDup_singleton. }
  split; [exact H1|]. split; [exact H2|].
  destruct (mergeChapterPDFs_documents demo_env demo_dir demo_world_book demo_meta3 H1 H2)
    as (w' & Hrun & Hdocs).
  exists w'. split; [exact Hrun|].
  specialize (Hdocs demo_chapter3).
  replace (JS.lit "chapter_01_capitolo_1_inizio.pdf") with (outputFileName demo_chapter3)
    by (vm_compute; reflexivity).
  rewrite Hdocs; [vm_compute; reflexivity|].
  replace (identifyChapters (tableOfContents demo_meta3)) with [demo_chapter3]
    by (vm_compute; reflexivity).
  apply list_elem_of_singleton. reflexivity.
Defined.

(** ** The batches of downloadPagesInBatches *)

Lemma batches_from_sizes tocItems :
  forall fuel i,
    Forall (fun b => (1 <= length b <= batchSize)%nat) (batches_from fuel i tocItems).
Proof.
  induction fuel as [|fuel IH]; intros i; simpl; [constructor|].
  destruct (Nat.ltb_spec i (length tocItems)) as [Hlt|Hge]; [|constructor].
  constructor; [|apply IH].
  unfold slice. rewrite length_take, length_drop. unfold batchSize. lia.
Qed.

Lemma batches_from_count tocItems :
  forall fuel i,
    (length tocItems <= i + fuel)%nat ->
    length (batches_from fuel i tocItems) = ((length tocItems - i + 9) / 10)%nat.
Proof.
  induction fuel as [|fuel IH]; intros i Hfuel; cbn [batches_from].
  - replace (length tocItems - i + 9)%nat with 9%nat by lia. reflexivity.
  - destruct (Nat.ltb_spec i (length tocItems)) as [Hlt|Hge].
    + cbn [length]. rewrite IH by (unfold batchSize; lia). unfold batchSize.
      destruct (decide (length tocItems - i <= 10)%nat) as [Hsmall|Hbig].
      * replace (length tocItems - (i + 10) + 9)%nat with 9%nat by lia.
        change (9 / 10)%nat with 0%nat.
        apply (Nat.div_unique _ 10 1 (length tocItems - i + 9 - 10)); lia.
      * replace (length tocItems - i + 9)%nat
          with ((length tocItems - (i + 10) + 9) + 1 * 10)%nat by lia.
        rewrite Nat.div_add by lia. lia.
    + replace (length tocItems - i + 9)%nat with 9%nat by lia. reflexivity.
Qed.

(** X11: [downloadPagesInBatches] always returns; it forms the batches in
    order, every item is in exactly one batch, a batch holds between 1 and
    10 items, and [n] items make [ceil(n / 10)] batches. *)
Theorem downloadPagesInBatches_batches env tocItems bookDir bookNumber w :
  exists w' batches,
    downloadPagesInBatches env tocItems bookDir bookNumber w = (Returned tt, w') /\
    events w' = events w ++ List.map EvBatch batches /\
    concat batches = tocItems /\
    Forall (fun b => (1 <= length b <= 10)%nat) batches /\
    length batches = ((length tocItems + 9) / 10)%nat.
Proof.
  destruct (batch_loop_run env tocItems bookDir bookNumber (length tocItems) 0%nat w)
    as (w' & Hrun & Hev).
  exists w', (batches_from (length tocItems) 0 tocItems).
  split; [exact Hrun|]. split; [exact Hev|].
  split; [apply downloadPagesInBatches_covers|].
  split; [apply batches_from_sizes|].
  rewrite batches_from_count by lia. by rewrite Nat.sub_0_r.
Qed.

Lemma store_captures_app env bn bookDir l1 l2 fs :
  store_captures env bn bookDir (l1 ++ l2) fs
  = store_captures env bn bookDir l2 (store_captures env bn bookDir l1 fs).
Proof. apply List.fold_left_app. Qed.

Lemma for_each_captures env bn bookDir l :
  forall w,
    for_each (fun t => downloadSinglePageWithNewPage env t bookDir bn) l w
    = (Returned tt, {| files := store_captures env bn bookDir l (files w);
                       events := events w |}).
Proof.
  induction l as [|t l IH]; intros w; simpl.
  - by destruct w.
  - unfold bind at 1, downloadSinglePageWithNewPage, try_catch, capture_page.
    destruct (capture env bn t) as [f|]; simpl; by rewrite IH.
Qed.

Lemma batch_loop_files env tocItems bookDir bn :
  forall fuel i w,
    files (batch_loop env fuel i tocItems bookDir bn w).2
    = store_captures env bn bookDir (concat (batches_from fuel i tocItems)) (files w).
Proof.
  induction fuel as [|fuel IH]; intros i w; simpl; [done|].
  destruct (i <? length tocItems)%nat; [|done].
  unfold bind at 1, emit. unfold bind at 1. rewrite for_each_captures.
  simpl. rewrite IH. simpl. by rewrite store_captures_app.
Qed.

Lemma store_captures_other env bn bookDir items :
  forall fs p,
    (forall t, t ∈ items -> capture env bn t <> None ->
               p <> path_join bookDir (fileName_capture t)) ->
    store_captures env bn bookDir items fs !! p = fs !! p.
Proof.
  induction items as [|u items IH]; intros fs p Hp; [done|]. simpl.
  rewrite IH by (intros t Ht; apply Hp; by right).
  destruct (capture env bn u) as [f|] eqn:Hu; [|done].
  apply lookup_insert_ne, not_eq_sym, Hp; [by left|by rewrite Hu].
Qed.

Lemma store_captures_stored env bn bookDir items :
  forall fs t f,
    t ∈ items ->
    capture env bn t = Some f ->
    (forall u, u ∈ items -> fileName_capture u = fileName_capture t ->
               capture env bn u = Some f) ->
    store_captures env bn bookDir items fs !! path_join bookDir (fileName_capture t)
    = Some f.
Proof.
  induction items as [|u items IH] using rev_ind; intros fs t f Ht Hcap Hsame.
  - by apply elem_of_nil in Ht.
  - rewrite store_captures_app. simpl.
    destruct (decide (fileName_capture u = fileName_capture t)) as [Heq|Hne].
    + rewrite (Hsame u) by (try done; apply elem_of_app; right; by left).
      rewrite Heq. apply lookup_insert_eq.
    + assert (Ht' : t ∈ items).
      { apply elem_of_app in Ht as [Ht|Ht%list_elem_of_singleton]; [done|].
        by subst. }
      assert (IH' : store_captures env bn bookDir items fs
                      !! path_join bookDir (fileName_capture t) = Some f).
      { apply IH; [done..|]. intros v Hv. apply Hsame, elem_of_app. by left. }
      destruct (capture env bn u); [|done].
      rewrite lookup_insert_ne; [done|]. by intros H%path_join_inj.
Qed.

(** X12: the failure of one capture in [downloadPagesInBatches] does not
    touch the others: an item whose capture succeeds has its artifact in the
    directory afterwards (when the items that share its file name give the
    same artifact), and a path that is not the artifact path of a successful
    capture keeps what it held. *)
Theorem downloadPagesInBatches_isolates_failures env tocItems bookDir bookNumber w :
  (forall t f,
     t ∈ tocItems ->
     capture env bookNumber t = Some f ->
     (forall u, u ∈ tocItems -> fileName_capture u = fileName_capture t ->
                capture env bookNumber u = Some f) ->
     files (downloadPagesInBatches env tocItems bookDir bookNumber w).2
       !! path_join bookDir (fileName_capture t) = Some f) /\
  (forall p,
     (forall t, t ∈ tocItems -> capture env bookNumber t <> None ->
                p <> path_join bookDir (fileName_capture t)) ->
     files (downloadPagesInBatches env tocItems bookDir bookNumber w).2 !! p
     = files w !! p).
Proof.
  unfold downloadPagesInBatches.
  rewrite batch_loop_files, downloadPagesInBatches_covers.
  split.
  - intros t f. apply store_captures_stored.
  - intros p. apply store_captures_other.
Qed.

Lemma downloadPagesInBatches_isolates_failures_witness :
  capture demo_env_flaky [] (mk_item 2 "_11_2" "1.1 Sezione") = None /\
  files (downloadPagesInBatches demo_env_flaky demo_toc3 demo_dir [] empty_world).2
    !! path_join demo_dir (JS.lit "page_003__11_3.pdf")
  = Some {| f_size := Some 4096; f_data := CPdf [3%N] |} /\
  files (downloadPagesInBatches demo_env_flaky demo_toc3 demo_dir [] empty_world).2
    !! path_join demo_dir (JS.lit "page_002__11_2.pdf") = None.
Proof.
  split; [reflexivity|].
  destruct (downloadPagesInBatches_isolates_failures
              demo_env_flaky demo_toc3 demo_dir [] empty_world) as [Hgood Hother].
  split.
  - apply (Hgood (mk_item 3 "_11_3" "1.2 Sezione")).
    + apply list_elem_of_In. simpl. tauto.
    + reflexivity.
    + intros u Hu Hname. apply list_elem_of_In in Hu. simpl in Hu.
      destruct Hu as [<-|[<-|[<-|[]]]]; first [reflexivity|vm_compute in Hname; discriminate Hname].
  - rewrite Hother; [reflexivity|].
    intros t Ht Hcap Heq. apply list_elem_of_In in Ht. simpl in Ht.
    destruct Ht as [<-|[<-|[<-|[]]]];
      first [by apply Hcap|vm_compute in Heq; discriminate Heq].
Defined.

(** ** The first page and the manifest *)

(** X13: when the capture of the first page fails, the retry download
    throws after that one attempt: no batch is started and no file is
    written; with no page at all it throws at once. *)
Theorem downloadPagesAsPDFForRetry_fails_fast env first rest bookDir bookNumber w :
  capture env bookNumber first = None ->
  downloadPagesAsPDFForRetry env (first :: rest) bookDir bookNumber w
  = (Thrown CaptureFailed,
     {| files := files w; events := events w ++ [EvSequential first] |}) /\
  downloadPagesAsPDFForRetry env [] bookDir bookNumber w = (Thrown TypeError, w).
Proof.
  intros Hcap. split; [|done].
  unfold downloadPagesAsPDFForRetry, try_catch at 1, download_all, downloadSinglePage.
  unfold bind at 1, bind at 1, emit, try_catch, capture_page. by rewrite Hcap.
Qed.

Lemma downloadPagesAsPDFForRetry_fails_fast_witness :
  capture demo_env_flaky [] (mk_item 2 "_11_2" "1.1 Sezione") = None /\
  downloadPagesAsPDFForRetry demo_env_flaky (drop 1 demo_toc3) demo_dir [] empty_world
  = (Thrown CaptureFailed,
     {| files := ∅; events := [EvSequential (mk_item 2 "_11_2" "1.1 Sezione")] |}).
Proof.
  split; [reflexivity|].
  apply (downloadPagesAsPDFForRetry_fails_fast demo_env_flaky
           (mk_item 2 "_11_2" "1.1 Sezione") [mk_item 3 "_11_3" "1.2 Sezione"]
           demo_dir [] empty_world eq_refl).
Defined.

Lemma writes_only_capture_page env t bookDir bn :
  writes_only (is_artifact_path bookDir) (capture_page env t bookDir bn).
Proof.
  unfold capture_page. destruct (capture env bn t).
  - apply writes_only_putFile. by exists t.
  - apply writes_only_throw.
Qed.

Lemma writes_only_batch_loop env tocItems bookDir bn :
  forall fuel i,
    writes_only (is_artifact_path bookDir) (batch_loop env fuel i tocItems bookDir bn).
Proof.
  induction fuel as [|fuel IH]; intros i; simpl; [apply writes_only_ret|].
  destruct (i <? length tocItems)%nat; [|apply writes_only_ret].
  apply writes_only_bind; [apply writes_only_emit|]. intros _.
  apply writes_only_bind; [|intros _; apply IH].
  apply writes_only_for_each. intros t _.
  apply writes_only_try_catch; [apply writes_only_capture_page|].
  intros _. apply writes_only_ret.
Qed.

Lemma writes_only_download_all env tocItems bookDir bn :
  writes_only (is_artifact_path bookDir) (download_all env tocItems bookDir bn).
Proof.
  unfold download_all. destruct tocItems as [|first rest]; [apply writes_only_throw|].
  apply writes_only_bind.
  - apply writes_only_bind; [apply writes_only_emit|]. intros _.
    apply writes_only_try_catch; [apply writes_only_capture_page|].
    intros e. apply writes_only_throw.
  - intros _. destruct (1 <? length (first :: rest))%nat; [|apply writes_only_ret].
    apply writes_only_batch_loop.
Qed.

Lemma fileName_capture_not_json t :
  fileName_capture t <> JS.lit "output.json" /\ fileName_capture t <> JS.lit "metadata.json".
Proof. apply (fileName_check_not_json t). Qed.

Lemma metadata_not_artifact bookDir :
  ~ is_artifact_path bookDir (path_join bookDir (JS.lit "metadata.json")).
Proof.
  intros [t H%path_join_inj]. by destruct (fileName_capture_not_json t) as [_ Hm].
Qed.

Lemma output_not_artifact bookDir :
  ~ is_artifact_path bookDir (path_join bookDir (JS.lit "output.json")).
Proof.
  intros [t H%path_join_inj]. by destruct (fileName_capture_not_json t) as [Ho _].
Qed.

Lemma downloadPagesAsPDF_unfold env toc bookNumber bn w :
  final_book_number env bookNumber = Some bn ->
  (downloadPagesAsPDF env toc bookNumber w).2
  = ((download_all env toc (book_dir_of env bn) bn ;;;
      try_catch (mergeChapterPDFs env (book_dir_of env bn)) (fun _ => ret tt))
       {| files :=
            <[path_join (book_dir_of env bn) (JS.lit "metadata.json") :=
                {| f_size :=
                     Some (encoded_size env
                             (CMetadata {| bookNumber := bookNumber; extractedAt := now env;
                                           totalPages := Z.of_nat (length toc);
                                           tableOfContents := toc |}));
                   f_data :=
                     CMetadata {| bookNumber := bookNumber; extractedAt := now env;
                                  totalPages := Z.of_nat (length toc);
                                  tableOfContents := toc |} |}]> (files w);
          events := events w |}).2.
Proof.
  intros Hbn. unfold downloadPagesAsPDF, final_book_number in *.
  unfold try_catch at 1, bind at 1.
  assert (Hfirst :
    (match truthy bookNumber with
     | Some b => ret b
     | None => match page_url_book env with
               | Some b => ret b
               | None => throw NoBookNumberInUrl
               end
     end) w = (Returned bn, w)).
  { destruct (truthy bookNumber); [by injection Hbn as ->|]. by rewrite Hbn. }
  rewrite Hfirst. unfold bind at 1, writeFileSync. cbv beta iota.
  fold (book_dir_of env bn).
  match goal with |- (match ?c with _ => _ end).2 = _ => destruct c as [[[]|e|n] w'] end;
    reflexivity.
Qed.

Lemma writes_only_download_then_merge env toc bookDir bn :
  writes_only (fun p => is_artifact_path bookDir p \/ in_processed bookDir p)
              (download_all env toc bookDir bn ;;;
               try_catch (mergeChapterPDFs env bookDir) (fun _ => ret tt)).
Proof.
  apply writes_only_bind.
  - eapply writes_only_weaken; [|apply writes_only_download_all]. tauto.
  - intros _. apply writes_only_try_catch; [|intros _; apply writes_only_ret].
    eapply writes_only_weaken; [|apply writes_only_mergeChapterPDFs]. tauto.
Qed.

Lemma downloadPagesAsPDF_manifest env toc bookNumber bn w :
  final_book_number env bookNumber = Some bn ->
  read_manifest (files (downloadPagesAsPDF env toc bookNumber w).2) (book_dir_of env bn)
  = Some {| bookNumber := bookNumber; extractedAt := now env;
            totalPages := Z.of_nat (length toc); tableOfContents := toc |}.
Proof.
  intros Hbn. rewrite (downloadPagesAsPDF_unfold env toc bookNumber bn w Hbn).
  unfold read_manifest. rewrite writes_only_download_then_merge.
  - simpl. by rewrite lookup_insert_eq.
  - intros [H|H]; [by apply metadata_not_artifact in H|by apply not_in_processed in H].
Qed.

(** X14: when the book number is known, [downloadPagesAsPDF] leaves in the
    book directory a manifest listing the pages it was given, with
    [totalPages] their number, whatever happens to the captures; when the
    book number is not known it throws and writes nothing. *)
Theorem downloadPagesAsPDF_writes_manifest env toc bookNumber w :
  (forall bn,
     final_book_number env bookNumber = Some bn ->
     read_manifest (files (downloadPagesAsPDF env toc bookNumber w).2) (book_dir_of env bn)
     = Some {| bookNumber := bookNumber; extractedAt := now env;
               totalPages := Z.of_nat (length toc); tableOfContents := toc |}) /\
  (final_book_number env bookNumber = None ->
   downloadPagesAsPDF env toc bookNumber w = (Thrown NoBookNumberInUrl, w)).
Proof.
  split.
  - intros bn Hbn. by apply downloadPagesAsPDF_manifest.
  - unfold final_book_number, downloadPagesAsPDF, try_catch, bind.
    destruct (truthy bookNumber); [done|]. by intros ->.
Qed.

Lemma downloadPagesAsPDF_writes_manifest_witness :
  final_book_number demo_env None = Some (JS.lit "10.978.8815/415073") /\
  final_book_number demo_env_later None = None /\
  read_manifest (files (downloadPagesAsPDF demo_env demo_toc3 None empty_world).2)
                [JS.lit "downloads"; JS.lit "10_978_8815_415073"]
  = Some {| bookNumber := None; extractedAt := now demo_env;
            totalPages := 3; tableOfContents := demo_toc3 |} /\
  downloadPagesAsPDF demo_env_later demo_toc3 None empty_world
  = (Thrown NoBookNumberInUrl, empty_world).
Proof.
  split; [reflexivity|]. split; [reflexivity|]. split.
  - destruct (downloadPagesAsPDF_writes_manifest demo_env demo_toc3 None empty_world)
      as [H _].
    apply (H (JS.lit "10.978.8815/415073") eq_refl).
  - destruct (downloadPagesAsPDF_writes_manifest demo_env_later demo_toc3 None empty_world)
      as [_ H].
    apply H. reflexivity.
Defined.

Lemma has_viable_insert fs q f p :
  viable f -> has_viable fs p \/ p = q -> has_viable (<[q := f]> fs) p.
Proof.
  intros Hf Hp. unfold has_viable.
  destruct (decide (q = p)) as [->|Hne]; [exists f; by rewrite lookup_insert_eq|].
  destruct Hp as [(g & Hg & Hv)| ->]; [|done].
  exists g. by rewrite lookup_insert_ne.
Qed.

Lemma store_captures_viable env bn bookDir items :
  (forall u, u ∈ items -> exists f, capture env bn u = Some f /\ viable f) ->
  forall fs p,
    has_viable fs p \/ (exists t, t ∈ items /\ p = path_join bookDir (fileName_capture t)) ->
    has_viable (store_captures env bn bookDir items fs) p.
Proof.
  induction items as [|u items IH]; intros Hall fs p Hp.
  - destruct Hp as [Hp|(t & Ht & _)]; [done|by apply elem_of_nil in Ht].
  - simpl. destruct (Hall u) as (f & Hf & Hv); [by left|]. rewrite Hf.
    apply IH; [intros v Hv'; apply Hall; by right|].
    destruct Hp as [Hp|(t & Ht & Heq)].
    + left. apply has_viable_insert; auto.
    + apply elem_of_cons in Ht as [Ht|Ht].
      * left. subst. apply has_viable_insert; auto.
      * right. by exists t.
Qed.

Lemma download_all_files env first rest bookDir bn f w :
  capture env bn first = Some f ->
  files (download_all env (first :: rest) bookDir bn w).2
  = store_captures env bn bookDir rest
      (<[path_join bookDir (fileName_capture first) := f]> (files w)).
Proof.
  intros Hcap. unfold download_all, downloadSinglePage.
  unfold bind at 1, bind at 1, emit, try_catch, capture_page. rewrite Hcap.
  unfold putFile.
  destruct rest as [|second rest]; [done|].
  unfold downloadPagesInBatches. cbn -[batch_loop store_captures].
  rewrite batch_loop_files.
  change (S (length rest)) with (length (second :: rest)).
  by rewrite downloadPagesInBatches_covers.
Qed.

Lemma status_of_viable fs bookDir t :
  has_viable fs (path_join bookDir (fileName_capture t)) ->
  ds_status (status_of fs bookDir t) = success.
Proof.
  intros (f & Hf & Hv). apply status_of_success. exists f. split; [exact Hf|].
  unfold viable in Hv. destruct (f_size f) as [n|]; [right; by exists n|by left].
Qed.

Lemma downloadPagesAsPDF_artifacts env toc bookNumber bn w p :
  final_book_number env bookNumber = Some bn ->
  ~ in_processed (book_dir_of env bn) p ->
  files (downloadPagesAsPDF env toc bookNumber w).2 !! p
  = files (download_all env toc (book_dir_of env bn) bn
             {| files :=
                  <[path_join (book_dir_of env bn) (JS.lit "metadata.json") :=
                      {| f_size :=
                           Some (encoded_size env
                                   (CMetadata {| bookNumber := bookNumber;
                                                 extractedAt := now env;
                                                 totalPages := Z.of_nat (length toc);
                                                 tableOfContents := toc |}));
                         f_data :=
                           CMetadata {| bookNumber := bookNumber; extractedAt := now env;
                                        totalPages := Z.of_nat (length toc);
                                        tableOfContents := toc |} |}]> (files w);
                events := events w |}).2 !! p.
Proof.
  intros Hbn Hp. rewrite (downloadPagesAsPDF_unfold env toc bookNumber bn w Hbn).
  unfold bind at 1.
  match goal with |- context [download_all env toc ?d bn ?w0] =>
    destruct (download_all env toc d bn w0) as [[[]|e|n] w1]
  end; simpl; [|done..].
  apply (writes_only_try_catch (in_processed (book_dir_of env bn)));
    [apply writes_only_mergeChapterPDFs|intros _; apply writes_only_ret|done].
Qed.

Lemma filter_none {A} (P : A -> bool) (l : list A) :
  (forall x, x ∈ l -> P x = false) -> List.filter P l = [].
Proof.
  induction l as [|x l IH]; intros H; [done|]. simpl.
  rewrite (H x) by (by left). apply IH. intros y Hy. apply H. by right.
Qed.

(** X15: when the book number is known, the list of pages is not empty and
    every capture yields an artifact the reconciler accepts (size unknown or
    above 1000 bytes), [downloadPagesAsPDF] returns, and
    [checkDownloadStatus] on the book directory then reports every page as a
    success and no failed item. *)
Theorem download_then_check_all_success env env' toc bookNumber bn w :
  final_book_number env bookNumber = Some bn ->
  toc <> [] ->
  (forall t, t ∈ toc -> exists f, capture env bn t = Some f /\ viable f) ->
  exists w1 report w2,
    downloadPagesAsPDF env toc bookNumber w = (Returned tt, w1) /\
    checkDownloadStatus env' (book_dir_of env bn) w1 = (Returned report, w2) /\
    failedItems report = [] /\
    failedCount report = 0 /\
    successCount report = Z.of_nat (length toc) /\
    r_totalPages report = Z.of_nat (length toc).
Proof.
  intros Hbn Hne Hall.
  destruct toc as [|first rest]; [done|].
  destruct (Hall first) as (f0 & Hf0 & Hv0); [by left|].
  destruct (downloadPagesAsPDF_run env first rest bookNumber bn f0 w Hbn Hf0)
    as (w1 & Hrun & _).
  pose proof (downloadPagesAsPDF_manifest env (first :: rest) bookNumber bn w Hbn) as Hmeta.
  assert (Hw1 : w1 = (downloadPagesAsPDF env (first :: rest) bookNumber w).2)
    by (by rewrite Hrun).
  rewrite <- Hw1 in Hmeta.
  apply read_manifest_Some in Hmeta as (fm & Hfm & Hm).
  pose proof (checkDownloadStatus_run env' (book_dir_of env bn) w1 fm _ Hfm Hm) as Hcheck.
  eexists w1, _, _. split; [exact Hrun|]. split; [exact Hcheck|].
  assert (Hok : forall t, t ∈ first :: rest ->
                  is_failed (status_of (files w1) (book_dir_of env bn) t) = false).
  { intros t Ht. unfold is_failed. rewrite status_of_viable; [done|].
    unfold has_viable. rewrite Hw1.
    rewrite (downloadPagesAsPDF_artifacts env _ bookNumber bn w _ Hbn)
      by apply not_in_processed.
    rewrite (download_all_files _ _ _ _ _ f0) by done.
    apply store_captures_viable.
    - intros u Hu. apply Hall. by right.
    - apply elem_of_cons in Ht as [->|Ht].
      + left. apply has_viable_insert; auto.
      + right. by exists t. }
  pose proof (filter_none _ _ Hok) as Hfilter.
  cbn [failedItems failedCount successCount r_totalPages report_of totalPages
       tableOfContents].
  rewrite !filter_map_length.
  split; [exact Hfilter|]. split; [by rewrite Hfilter|]. split; [|done].
  f_equal.
  pose proof (filter_success_failed_length
                (List.map (status_of (files w1) (book_dir_of env bn)) (first :: rest))) as Hsum.
  rewrite !filter_map_length, length_map, Hfilter in Hsum. simpl in Hsum. simpl. lia.
Qed.

Lemma download_then_check_all_success_witness :
  final_book_number demo_env None = Some (JS.lit "10.978.8815/415073") /\
  exists w1 report w2,
    downloadPagesAsPDF demo_env demo_toc12 None empty_world = (Returned tt, w1) /\
    checkDownloadStatus demo_env_later
      [JS.lit "downloads"; JS.lit "10_978_8815_415073"] w1 = (Returned report, w2) /\
    failedItems report = [] /\ successCount report = 12.
Proof.
  split; [reflexivity|].
  destruct (download_then_check_all_success demo_env demo_env_later demo_toc12 None
              (JS.lit "10.978.8815/415073") empty_world eq_refl)
    as (w1 & report & w2 & H1 & H2 & H3 & _ & H4 & _).
  - discriminate.
  - intros t _. eexists. split; [reflexivity|]. unfold viable. simpl. lia.
  - exists w1, report, w2. split; [exact H1|]. split; [exact H2|].
    split; [exact H3|exact H4].
Defined.

(** ** retryFailedDownloads *)

Lemma reconstruct_items_run bookDir ids w :
  reconstruct_items bookDir ids w = (Returned (reconstructed (files w) bookDir ids), w).
Proof.
  unfold reconstruct_items, reconstructed, try_catch, bind, existsSync, readFileSync.
  destruct (files w !! path_join bookDir (JS.lit "output.json")) as [f|] eqn:Ho.
  - rewrite Ho. by destruct (f_data f).
  - destruct (files w !! path_join bookDir (JS.lit "metadata.json")) as [f|] eqn:Hm.
    + rewrite Hm. by destruct (f_data f).
    + done.
Qed.

Lemma fake_items_ids ids : List.map docbookId (fake_items ids) = ids.
Proof.
  unfold fake_items.
  assert (H : forall (k : nat) (l : list (list N)),
             List.map docbookId
               (imap (fun index id =>
                        {| docbookId := id;
                           title := JS.lit "Retry Page " ++ JS.toString (Z.of_nat (k + index) + 1);
                           pageNum := Z.of_nat (k + index) + 1 |}) l) = l).
  { intros k l. revert k. induction l as [|id l IH]; intros k; [done|].
    simpl. f_equal. rewrite <- (IH (S k)) at 2. f_equal.
    apply imap_ext. intros i x _. simpl. by rewrite Nat.add_succ_r. }
  apply (H 0%nat).
Qed.

(** X16: rebuilding the failed page descriptors never fails and reads
    only: whatever the directory holds, [reconstruct_items] returns one
    descriptor per failed id, with these ids in the same order, and changes
    nothing. *)
Theorem reconstruct_items_total bookDir ids w :
  exists items,
    reconstruct_items bookDir ids w = (Returned items, w) /\
    List.map docbookId items = ids /\
    length items = length ids.
Proof.
  exists (reconstructed (files w) bookDir ids).
  split; [apply reconstruct_items_run|].
  assert (H : List.map docbookId (reconstructed (files w) bookDir ids) = ids).
  { unfold reconstructed.
    repeat match goal with
           | |- context [match ?x with _ => _ end] => destruct x
           end;
      rewrite ?fake_items_ids, ?List.map_map; simpl; by rewrite ?List.map_id. }
  split; [exact H|]. by rewrite <- H at 2; rewrite length_map.
Qed.

Lemma find_status_of fs bookDir toc t :
  NoDup (List.map docbookId toc) ->
  t ∈ toc ->
  List.find (fun s => bool_decide (ds_docbookId s = docbookId t))
            (List.map (status_of fs bookDir) toc)
  = Some (status_of fs bookDir t).
Proof.
  induction toc as [|x toc IH]; intros Hnd Ht; [by apply elem_of_nil in Ht|].
  simpl in Hnd. apply NoDup_cons in Hnd as [Hx Hnd]. simpl.
  destruct (decide (docbookId x = docbookId t)) as [Heq|Hne].
  - rewrite bool_decide_eq_true_2 by done.
    apply elem_of_cons in Ht as [->|Ht]; [done|].
    exfalso. apply Hx. rewrite Heq. apply list_elem_of_fmap. by exists t.
  - rewrite bool_decide_eq_false_2 by done.
    apply elem_of_cons in Ht as [->|Ht]; [done|]. by apply IH.
Qed.

Lemma map_fixed {A} (f : A -> A) (l : list A) :
  (forall x, x ∈ l -> f x = x) -> List.map f l = l.
Proof.
  induction l as [|x l IH]; intros H; [done|]. simpl.
  rewrite (H x) by (by left). f_equal. apply IH. intros y Hy. apply H. by right.
Qed.

(** X17: after [checkDownloadStatus] on a manifest whose ids are pairwise
    different and whose titles are not empty, the descriptors the retry
    rebuilds from the report for the failed ids are the failed entries of
    the manifest themselves: same ids, titles and page numbers. *)
Theorem reconstruct_after_check env bookDir w m :
  read_manifest (files w) bookDir = Some m ->
  NoDup (List.map docbookId (tableOfContents m)) ->
  Forall (fun t => title t <> []) (tableOfContents m) ->
  exists report w1,
    checkDownloadStatus env bookDir w = (Returned report, w1) /\
    reconstruct_items bookDir (List.map docbookId (failedItems report)) w1
    = (Returned (failedItems report), w1).
Proof.
  intros (f & Hf & Hm)%read_manifest_Some Hnd Htitles.
  pose proof (checkDownloadStatus_run env bookDir w f m Hf Hm) as Hrun.
  eexists _, _. split; [exact Hrun|].
  rewrite reconstruct_items_run. f_equal. f_equal.
  unfold reconstructed. simpl. rewrite lookup_insert_eq. simpl.
  rewrite List.map_map. apply map_fixed.
  intros t Ht. apply list_elem_of_In, List.filter_In in Ht as [Ht _].
  apply list_elem_of_In in Ht.
  rewrite (find_status_of (files w) bookDir _ t Hnd Ht). simpl.
  rewrite Forall_forall in Htitles. specialize (Htitles t Ht).
  destruct t as [id ttl n]. simpl in *. unfold or_string, truthy.
  by destruct ttl.
Qed.

Lemma reconstruct_after_check_witness :
  read_manifest (files demo_world3) demo_dir = Some demo_meta3 /\
  NoDup (List.map docbookId (tableOfContents demo_meta3)) /\
  Forall (fun t => title t <> []) (tableOfContents demo_meta3) /\
  exists report w1,
    checkDownloadStatus demo_env demo_dir demo_world3 = (Returned report, w1) /\
    reconstruct_items demo_dir (List.map docbookId (failedItems report)) w1
    = (Returned (failedItems report), w1).
Proof.
  assert (H1 : read_manifest (files demo_world3) demo_dir = Some demo_meta3)
    by (vm_compute; reflexivity).
  assert (H2 : NoDup (List.map docbookId (tableOfContents demo_meta3))).
  { vm_compute. repeat (apply NoDup_cons; split;
      [intros H; repeat (apply elem_of_cons in H as [H|H]; [discriminate H|]);
       by apply elem_of_nil in H|]).
    apply NoDup_nil. done. }
  assert (H3 : Forall (fun t => title t <> []) (tableOfContents demo_meta3))
    by (repeat constructor; discriminate).
  split; [exact H1|]. split; [exact H2|]. split; [exact H3|].
  exact (reconstruct_after_check demo_env demo_dir demo_world3 demo_meta3 H1 H2 H3).
Defined.

(** X18: when the report lists failed items and the login fails,
    [retryFailedDownloads] ends the process with exit code 1; the browser
    was launched and closed, no page was captured and no file changed. *)
Theorem retryFailedDownloads_login_fails env bookDir bookId w fo report :
  files w !! path_join bookDir (JS.lit "output.json") = Some fo ->
  f_data fo = CReport report ->
  failedItems report <> [] ->
  login_ok env = false ->
  retryFailedDownloads env bookDir bookId w
  = (Exited 1, {| files := files w; events := events w ++ [EvLaunch; EvClose] |}).
Proof.
  intros Hfo Hr Hne Hlogin.
  unfold retryFailedDownloads, bind at 1, getFailedItems, bind at 1, existsSync.
  rewrite Hfo. simpl. unfold bind at 1, readFileSync. rewrite Hfo, Hr. simpl.
  destruct (failedItems report) as [|t l]; [done|]. simpl.
  unfold try_finally, try_catch, bind at 1, loginToPandoraCampus, bind at 1, emit.
  rewrite Hlogin. simpl. by rewrite <- app_assoc.
Qed.

Lemma retryFailedDownloads_login_fails_witness :
  login_ok demo_env_later = false /\
  retryFailedDownloads demo_env_later demo_dir None demo_world_checked
  = (Exited 1, {| files := files demo_world_checked; events := [EvLaunch; EvClose] |}).
Proof.
  split; [reflexivity|].
  eapply (retryFailedDownloads_login_fails demo_env_later demo_dir None demo_world_checked).
  - vm_compute. reflexivity.
  - reflexivity.
  - discriminate.
  - reflexivity.
Defined.

(** X19: when the report lists failed items, the login succeeds and the
    capture of the first rebuilt descriptor succeeds, [retryFailedDownloads]
    returns: the browser is launched, the first failed page is captured
    alone, the other failed pages are captured in batches, each exactly
    once and in order, and the browser is closed. *)
Theorem retryFailedDownloads_attempts_failed env bookDir bookId w fo report first rest f :
  files w !! path_join bookDir (JS.lit "output.json") = Some fo ->
  f_data fo = CReport report ->
  login_ok env = true ->
  reconstructed (files w) bookDir (List.map docbookId (failedItems report)) = first :: rest ->
  capture env (retry_book_number bookDir bookId) first = Some f ->
  exists w' batches,
    retryFailedDownloads env bookDir bookId w = (Returned tt, w') /\
    events w' = events w ++ [EvLaunch; EvSequential first]
                  ++ List.map EvBatch batches ++ [EvClose] /\
    concat batches = rest.
Proof.
  intros Hfo Hr Hlogin Hitems Hcap.
  assert (Hne : failedItems report <> []).
  { intros Hnil. rewrite Hnil in Hitems. unfold reconstructed in Hitems.
    rewrite Hfo, Hr in Hitems. discriminate Hitems. }
  unfold retryFailedDownloads, bind at 1, getFailedItems, bind at 1, existsSync.
  rewrite Hfo. simpl. unfold bind at 1, readFileSync. rewrite Hfo, Hr. simpl.
  destruct (failedItems report) as [|t l] eqn:Hfailed; [done|].
  cbn [length Nat.eqb].
  unfold try_finally, try_catch at 1, bind at 1, loginToPandoraCampus, bind at 1, emit.
  rewrite Hlogin. cbv beta iota. unfold ret at 1. cbv beta iota.
  unfold bind at 1. rewrite reconstruct_items_run. cbn [files]. rewrite Hitems.
  fold (retry_book_number bookDir bookId).
  unfold downloadPagesAsPDFForRetry, try_catch at 1.
  match goal with |- context [download_all env _ _ _ ?w0] =>
    destruct (download_all_run env first rest bookDir (retry_book_number bookDir bookId)
                f w0 Hcap) as (w1 & Hrun & Hev)
  end.
  rewrite Hrun. cbv beta iota. unfold bind, emit, ret.
  eexists _, (batches_from (length rest) 0 rest).
  split; [reflexivity|]. split.
  - cbn [events]. rewrite Hev. cbn [events]. by rewrite <- !app_assoc.
  - apply downloadPagesInBatches_covers.
Qed.

Lemma retryFailedDownloads_attempts_failed_witness :
  login_ok demo_env = true /\
  reconstructed (files demo_world_checked) demo_dir
                (List.map docbookId (drop 1 demo_toc3)) = drop 1 demo_toc3 /\
  exists w' batches,
    retryFailedDownloads demo_env demo_dir None demo_world_checked = (Returned tt, w') /\
    events w' = [EvLaunch; EvSequential (mk_item 2 "_11_2" "1.1 Sezione")]
                  ++ List.map EvBatch batches ++ [EvClose] /\
    concat batches = [mk_item 3 "_11_3" "1.2 Sezione"].
Proof.
  split; [reflexivity|]. split; [vm_compute; reflexivity|].
  eapply (retryFailedDownloads_attempts_failed demo_env demo_dir None demo_world_checked).
  - vm_compute. reflexivity.
  - reflexivity.
  - reflexivity.
  - vm_compute. reflexivity.
  - reflexivity.
Defined.

Lemma writes_only_checkDownloadStatus env bookDir :
  writes_only (fun p => p = path_join bookDir (JS.lit "output.json"))
              (checkDownloadStatus env bookDir).
Proof.
  unfold checkDownloadStatus.
  apply writes_only_bind; [apply writes_only_existsSync|]. intros present.
  destruct present; simpl; [|apply writes_only_throw].
  apply writes_only_bind; [apply writes_only_readFileSync|]. intros raw.
  apply writes_only_bind; [apply writes_only_as_metadata|]. intros metadata.
  apply writes_only_bind.
  - intros w p _. by rewrite check_loop_run.
  - intros [statuses failed].
    apply writes_only_bind; [by apply writes_only_writeFileSync|].
    intros _. apply writes_only_ret.
Qed.

Lemma writes_only_getFailedItems env bookDir :
  writes_only (fun p => p = path_join bookDir (JS.lit "output.json"))
              (getFailedItems env bookDir).
Proof.
  unfold getFailedItems.
  apply writes_only_bind; [apply writes_only_existsSync|]. intros present.
  destruct present; simpl.
  - apply writes_only_bind; [apply writes_only_readFileSync|]. intros raw.
    destruct raw; auto using @writes_only_ret, @writes_only_throw.
  - apply writes_only_bind; [apply writes_only_checkDownloadStatus|].
    intros report. apply writes_only_ret.
Qed.

Lemma writes_only_retry_body env bookDir bookId ids :
  writes_only (is_artifact_path bookDir)
    (try_finally
       (try_catch
          (loginToPandoraCampus env ;;;
           tocItems <- reconstruct_items bookDir ids ;;
           downloadPagesAsPDFForRetry env tocItems bookDir
             match truthy bookId with
             | Some b => b
             | None => inferred_book_number bookDir
             end)
          (fun _ => exit 1))
       (emit EvClose)).
Proof.
  apply writes_only_try_finally; [|apply writes_only_emit].
  apply writes_only_try_catch; [|intros _; apply writes_only_exit].
  apply writes_only_bind.
  { unfold loginToPandoraCampus.
    apply writes_only_bind; [apply writes_only_emit|]. intros _.
    destruct (login_ok env); [apply writes_only_ret|].
    apply writes_only_bind; [apply writes_only_emit|]. intros _. apply writes_only_throw. }
  intros _. apply writes_only_bind.
  { intros w p _. by rewrite reconstruct_items_run. }
  intros items. unfold downloadPagesAsPDFForRetry.
  apply writes_only_try_catch; [|intros e; apply writes_only_throw].
  apply writes_only_download_all.
Qed.

Lemma writes_only_retryFailedDownloads env bookDir bookId :
  writes_only (fun p => p = path_join bookDir (JS.lit "output.json") \/
                        is_artifact_path bookDir p)
              (retryFailedDownloads env bookDir bookId).
Proof.
  unfold retryFailedDownloads.
  apply writes_only_bind.
  { eapply writes_only_weaken; [|apply writes_only_getFailedItems]. tauto. }
  intros [failed|]; [|apply writes_only_throw].
  destruct (length failed =? 0)%nat; [apply writes_only_ret|].
  eapply writes_only_weaken; [|apply writes_only_retry_body]. tauto.
Qed.

(** X20: [retryFailedDownloads] changes nothing but page artifacts and, when
    it is missing, [output.json]: the manifest and the chapter documents
    stay as they are, and an existing report is not rewritten, so the report
    still lists the old failures until [checkDownloadStatus] runs again. *)
Theorem retryFailedDownloads_frame env bookDir bookId w :
  (forall p, p <> path_join bookDir (JS.lit "output.json") ->
             ~ is_artifact_path bookDir p ->
             files (retryFailedDownloads env bookDir bookId w).2 !! p = files w !! p) /\
  files (retryFailedDownloads env bookDir bookId w).2
    !! path_join bookDir (JS.lit "metadata.json")
  = files w !! path_join bookDir (JS.lit "metadata.json") /\
  (forall fo, files w !! path_join bookDir (JS.lit "output.json") = Some fo ->
              files (retryFailedDownloads env bookDir bookId w).2
                !! path_join bookDir (JS.lit "output.json") = Some fo).
Proof.
  split; [|split].
  - intros p Hp Ha. apply writes_only_retryFailedDownloads. tauto.
  - apply writes_only_retryFailedDownloads.
    intros [H|H]; [symmetry in H; by apply metadata_not_output in H
                  |by apply metadata_not_artifact in H].
  - intros fo Hfo.
    unfold retryFailedDownloads, bind at 1, getFailedItems, bind at 1, existsSync.
    rewrite Hfo. cbn [negb]. cbv beta iota. unfold bind at 1, readFileSync. rewrite Hfo.
    cbv beta iota.
    destruct (f_data fo) as [m|r| |]; cbv beta iota; try done.
    unfold ret at 1. cbv beta iota.
    destruct (length (failedItems r) =? 0)%nat; [done|].
    rewrite (writes_only_retry_body env bookDir bookId _ w _ (output_not_artifact bookDir)).
    exact Hfo.
Qed.

Lemma retryFailedDownloads_frame_witness :
  files (retryFailedDownloads demo_env demo_dir None demo_world_checked).2
    !! path_join demo_dir (JS.lit "output.json")
  = files demo_world_checked !! path_join demo_dir (JS.lit "output.json") /\
  files (retryFailedDownloads demo_env demo_dir None demo_world_checked).2
    !! path_join demo_dir (JS.lit "metadata.json")
  = Some {| f_size := Some 300; f_data := CMetadata demo_meta3 |}.
Proof.
  destruct (retryFailedDownloads_frame demo_env demo_dir None demo_world_checked)
    as (_ & Hmeta & Hout).
  split.
  - destruct (files demo_world_checked !! path_join demo_dir (JS.lit "output.json"))
      as [fo|] eqn:Hfo; [by apply Hout|].
    vm_compute in Hfo. discriminate Hfo.
  - rewrite Hmeta. vm_compute. reflexivity.
Defined.

(** ** The book number inferred from the directory name *)

Lemma alnum_not_special (c : N) :
  JS.is_alnum c = true -> (c =? 95)%N = false /\ (c =? 46)%N = false.
Proof.
  intros H. split.
  - destruct (N.eqb_spec c 95) as [->|]; [discriminate H|done].
  - destruct (N.eqb_spec c 46) as [->|]; [discriminate H|done].
Qed.

Lemma map_fixed_iff {A} (f : A -> A) (l : list A) :
  List.map f l = l <-> Forall (fun x => f x = x) l.
Proof.
  induction l as [|x l IH]; simpl.
  - split; [constructor|done].
  - split.
    + intros H. injection H as Hx Hl. constructor; [done|by apply IH].
    + intros H. apply Forall_cons in H as [Hx Hl]. rewrite Hx. f_equal. by apply IH.
Qed.

(** X21: the book number [retryFailedDownloads] infers from the directory
    [downloadPagesAsPDF] created for a book number is that number with every
    non-alphanumeric code unit replaced by a dot; it is the number itself
    only when dots are its only non-alphanumeric code units (a number with
    a slash is not recovered). *)
Theorem inferred_book_number_of_book_dir env bn :
  retry_book_number (book_dir_of env bn) None
  = List.map (fun c => if JS.is_alnum c then c else 46%N) bn /\
  (retry_book_number (book_dir_of env bn) None = bn <->
   Forall (fun c => JS.is_alnum c = true \/ c = 46%N) bn).
Proof.
  assert (H : retry_book_number (book_dir_of env bn) None
              = List.map (fun c => if JS.is_alnum c then c else 46%N) bn).
  { unfold retry_book_number, inferred_book_number, book_dir_of. simpl.
    rewrite last_app. simpl.
    change (JS.lit ".") with [46%N]. change (JS.lit "_") with [95%N].
    rewrite !replace_class_map, List.map_map.
    apply List.map_ext. intros c. unfold subst_class.
    destruct (JS.is_alnum c) eqn:Hc; simpl; [|done].
    by destruct (alnum_not_special c Hc) as [-> _]. }
  split; [exact H|]. rewrite H, map_fixed_iff.
  split; intros HF; (eapply Forall_impl; [exact HF|]); intros c; simpl.
  - destruct (JS.is_alnum c); [by left|]. intros <-. by right.
  - intros [->| ->]; [done|reflexivity].
Qed.

Example inferred_book_number_example :
  retry_book_number (book_dir_of demo_env (JS.lit "10.978.8815/415073")) None
  = JS.lit "10.978.8815.415073".
Proof. vm_compute. reflexivity. Qed.

(** ** cleanup-files.ts: the expected files *)

Lemma fileName_check_nonempty t : fileName_check t <> [].
Proof. intros H. apply (f_equal head) in H. vm_compute in H. discriminate H. Qed.

Lemma filter_nonempty_names fs bookDir toc :
  List.filter (fun n => negb (bool_decide (n = [])))
              (List.map ds_fileName (List.map (status_of fs bookDir) toc))
  = List.map fileName_cleanup toc.
Proof.
  induction toc as [|t toc IH]; [done|].
  cbn [List.map List.filter].
  change (ds_fileName (status_of fs bookDir t)) with (fileName_check t).
  rewrite bool_decide_eq_false_2 by apply fileName_check_nonempty.
  cbn [negb]. by rewrite IH.
Qed.

(** X22: [getExpectedFiles] never fails and reads only; the set it returns
    always holds [output.json] and [metadata.json]. *)
Theorem getExpectedFiles_total bookDir w :
  exists expected : gset (list N),
    getExpectedFiles bookDir w = (Returned expected, w) /\
    JS.lit "output.json" ∈ expected /\ JS.lit "metadata.json" ∈ expected.
Proof.
  unfold getExpectedFiles, try_catch, bind, existsSync, readFileSync.
  destruct (files w !! path_join bookDir (JS.lit "output.json")) as [f|] eqn:Ho.
  - rewrite Ho. destruct (f_data f); simpl; eexists; (split; [reflexivity|set_solver]).
  - destruct (files w !! path_join bookDir (JS.lit "metadata.json")) as [f|] eqn:Hm.
    + rewrite Hm. destruct (f_data f); simpl; eexists; (split; [reflexivity|set_solver]).
    + simpl. eexists. split; [reflexivity|set_solver].
Qed.

(** X23: the cleanup tool expects the same files whether it reads the
    manifest or the report made from it: before and after
    [checkDownloadStatus], [getExpectedFiles] returns [output.json],
    [metadata.json] and the artifact names of the manifest entries. *)
Theorem getExpectedFiles_report_agrees env bookDir w m :
  read_manifest (files w) bookDir = Some m ->
  files w !! path_join bookDir (JS.lit "output.json") = None ->
  let expected : gset (list N) :=
    {[ JS.lit "output.json"; JS.lit "metadata.json" ]}
    ∪ list_to_set (List.map fileName_cleanup (tableOfContents m)) in
  let w1 := (checkDownloadStatus env bookDir w).2 in
  getExpectedFiles bookDir w = (Returned expected, w) /\
  getExpectedFiles bookDir w1 = (Returned expected, w1).
Proof.
  intros (f & Hf & Hm)%read_manifest_Some Hout. simpl. split.
  - unfold getExpectedFiles, try_catch, bind, existsSync, readFileSync.
    rewrite Hout, Hf. cbv beta iota. rewrite Hf, Hm. reflexivity.
  - rewrite (checkDownloadStatus_run env bookDir w f m Hf Hm). cbn [snd].
    unfold getExpectedFiles, try_catch, bind, existsSync, readFileSync. cbn [files].
    rewrite lookup_insert_eq. cbv beta iota. cbn [files]. rewrite lookup_insert_eq.
    cbn [f_data downloadStatuses report_of ret]. cbv beta iota.
    by rewrite filter_nonempty_names.
Qed.

Lemma getExpectedFiles_report_agrees_witness :
  read_manifest (files demo_world3) demo_dir = Some demo_meta3 /\
  files demo_world3 !! path_join demo_dir (JS.lit "output.json") = None /\
  (getExpectedFiles demo_dir demo_world3).1
  = (getExpectedFiles demo_dir demo_world_checked).1.
Proof.
  assert (H1 : read_manifest (files demo_world3) demo_dir = Some demo_meta3)
    by (vm_compute; reflexivity).
  assert (H2 : files demo_world3 !! path_join demo_dir (JS.lit "output.json") = None)
    by (vm_compute; reflexivity).
  split; [exact H1|]. split; [exact H2|].
  destruct (getExpectedFiles_report_agrees demo_env demo_dir demo_world3 demo_meta3 H1 H2)
    as [Ha Hb].
  unfold demo_world_checked. by rewrite Ha, Hb.
Defined.

(** ** cleanup-files.ts: cleanupDirectory *)

Lemma entry_name_path_join dir name : entry_name dir (path_join dir name) = Some name.
Proof.
  unfold entry_name, path_join.
  rewrite take_app_length, drop_app_length.
  by rewrite bool_decide_eq_true_2.
Qed.

Lemma elem_of_dir_entries fs dir name :
  name ∈ dir_entries fs dir <->
  exists p, is_Some (fs !! p) /\ entry_name dir p = Some name.
Proof.
  unfold dir_entries.
  rewrite elem_of_elements, elem_of_list_to_set, list_elem_of_omap.
  split.
  - intros (p & Hp & He). exists p. split; [|done].
    by apply elem_of_dom, elem_of_elements.
  - intros (p & Hp & He). exists p. split; [|done].
    by apply elem_of_elements, elem_of_dom.
Qed.

Lemma file_in_dir_entries fs dir name f :
  fs !! path_join dir name = Some f -> name ∈ dir_entries fs dir.
Proof.
  intros H. apply elem_of_dir_entries. exists (path_join dir name).
  split; [by exists f|apply entry_name_path_join].
Qed.

Lemma size_inhabited (X : gset (list N)) name : name ∈ X -> size X <> 0%nat.
Proof. intros HX H0%size_empty_iff. by apply (not_elem_of_empty (C:=gset (list N)) name), H0. Qed.

Lemma getExpectedFiles_read bookDir w :
  exists expected : gset (list N),
    getExpectedFiles bookDir w = (Returned expected, w) /\ size expected <> 0%nat.
Proof.
  assert (Hne : forall X : gset (list N), JS.lit "output.json" ∈ X -> size X <> 0%nat)
    by (intros X; apply size_inhabited).
  unfold getExpectedFiles, try_catch, bind, existsSync, readFileSync.
  destruct (files w !! path_join bookDir (JS.lit "output.json")) as [f|] eqn:Ho.
  - rewrite Ho. destruct (f_data f); simpl; eexists;
      (split; [reflexivity|apply Hne; set_solver]).
  - destruct (files w !! path_join bookDir (JS.lit "metadata.json")) as [f|] eqn:Hm.
    + rewrite Hm. destruct (f_data f); simpl; eexists;
        (split; [reflexivity|apply Hne; set_solver]).
    + simpl. eexists. split; [reflexivity|apply Hne; set_solver].
Qed.

Lemma world_eta w : {| files := files w; events := events w |} = w.
Proof. by destruct w. Qed.

Lemma stat_loop_run dir names w :
  for_each (fun file => stat_entry (path_join dir file)) names w
  = (if stat_all_ok (files w) dir names then Returned tt else Thrown StatFailed, w).
Proof.
  induction names as [|name names IH]; [done|].
  cbn [for_each stat_all_ok forallb]. unfold bind, stat_entry at 1.
  destruct (files w !! path_join dir name) as [f|]; [destruct (f_size f)|];
    cbn [andb]; try apply IH; reflexivity.
Qed.

Lemma unlink_loop_run dir names w :
  for_each (fun file => try_catch (unlinkSync (path_join dir file)) (fun _ => ret tt))
           names w
  = (Returned tt, {| files := unlink_all dir names (files w); events := events w |}).
Proof.
  revert w. induction names as [|name names IH]; intros w.
  - cbn. by rewrite world_eta.
  - cbn [for_each unlink_all fold_left]. unfold bind, try_catch at 1, unlinkSync.
    destruct (files w !! path_join dir name) as [f|] eqn:E.
    + by rewrite IH.
    + unfold ret. rewrite IH. by rewrite (delete_id _ _ E).
Qed.

Lemma unlink_all_removed dir names fs name :
  name ∈ names -> unlink_all dir names fs !! path_join dir name = None.
Proof.
  assert (Hstay : forall l fs', fs' !! path_join dir name = None ->
                                unlink_all dir l fs' !! path_join dir name = None).
  { induction l as [|a l IH]; intros fs' H; [done|].
    cbn. apply IH. destruct (decide (path_join dir a = path_join dir name)) as [->|Hne].
    - apply lookup_delete_eq.
    - by rewrite lookup_delete_ne. }
  revert fs. induction names as [|a names IH]; intros fs Hin.
  - by apply elem_of_nil in Hin.
  - apply elem_of_cons in Hin as [->|Hin]; cbn.
    + apply Hstay, lookup_delete_eq.
    + by apply IH.
Qed.

Lemma unlink_all_kept dir names fs p :
  (forall name, name ∈ names -> p <> path_join dir name) ->
  unlink_all dir names fs !! p = fs !! p.
Proof.
  revert fs. induction names as [|a names IH]; intros fs H; [done|].
  change (unlink_all dir names (delete (path_join dir a) fs) !! p = fs !! p).
  rewrite IH.
  - apply lookup_delete_ne. intros Heq. apply (H a); [by left|done].
  - intros name Hn. apply H. by right.
Qed.

Lemma unlink_all_only_removes dir names fs p :
  unlink_all dir names fs !! p = fs !! p \/ unlink_all dir names fs !! p = None.
Proof.
  destruct (decide (p ∈ List.map (path_join dir) names)) as [Hin|Hout].
  - right. apply list_elem_of_In, List.in_map_iff in Hin as (name & <- & Hn).
    apply unlink_all_removed. by apply list_elem_of_In.
  - left. apply unlink_all_kept. intros name Hn ->. apply Hout.
    apply list_elem_of_In, List.in_map. by apply list_elem_of_In.
Qed.

Lemma elem_of_stray_entries fs dir expected name :
  name ∈ stray_entries fs dir expected <->
  name ∈ dir_entries fs dir /\ name ∉ expected.
Proof.
  unfold stray_entries. rewrite list_elem_of_In, List.filter_In, <- list_elem_of_In.
  rewrite negb_true_iff, bool_decide_eq_false. done.
Qed.

(** What [cleanupDirectory] does, in one equation. *)
Lemma cleanupDirectory_run bookDir dryRun w expected :
  getExpectedFiles bookDir w = (Returned expected, w) ->
  size expected <> 0%nat ->
  cleanupDirectory bookDir dryRun w
  = match files w !! bookDir with
    | Some _ => (Thrown NoSuchFile, w)
    | None =>
        if stat_all_ok (files w) bookDir (stray_entries (files w) bookDir expected)
        then (Returned tt,
              if dryRun then w
              else {| files := unlink_all bookDir
                                 (stray_entries (files w) bookDir expected) (files w);
                      events := events w |})
        else (Thrown StatFailed, w)
    end.
Proof.
  intros He Hsz.
  unfold cleanupDirectory, bind at 1, existsSync_any.
  destruct (files w !! bookDir) as [f|] eqn:Hd.
  - cbn [negb]. unfold bind at 1. rewrite He.
    apply Nat.eqb_neq in Hsz. rewrite Hsz.
    unfold bind at 1, readdirSync. by rewrite Hd.
  - fold (stray_entries (files w) bookDir expected).
    destruct (dir_entries (files w) bookDir) as [|n ns] eqn:Hents.
    + cbn [negb]. unfold stray_entries. rewrite Hents. cbn.
      destruct dryRun; [done|]. by rewrite world_eta.
    + cbn [negb]. unfold bind at 1. rewrite He.
      apply Nat.eqb_neq in Hsz. rewrite Hsz.
      unfold bind at 1, readdirSync. rewrite Hd.
      fold (stray_entries (files w) bookDir expected).
      destruct (stray_entries (files w) bookDir expected) as [|s ss] eqn:Hs.
      * cbn. destruct dryRun; [done|]. by rewrite world_eta.
      * cbn [length Nat.ltb Nat.leb]. unfold bind at 1. rewrite stat_loop_run.
        destruct (stat_all_ok (files w) bookDir (s :: ss)); [|done].
        destruct dryRun; cbn [negb]; [done|].
        by rewrite unlink_loop_run.
Qed.

Lemma getExpectedFiles_same bookDir w expected :
  (getExpectedFiles bookDir w).1 = Returned expected ->
  getExpectedFiles bookDir w = (Returned expected, w) /\ size expected <> 0%nat.
Proof.
  destruct (getExpectedFiles_read bookDir w) as (e & He & Hsz).
  rewrite He. cbn [fst]. intros [= <-]. done.
Qed.

Lemma stray_not_expected fs dir expected name :
  name ∈ expected ->
  forall name', name' ∈ stray_entries fs dir expected ->
                path_join dir name <> path_join dir name'.
Proof.
  intros Hin name' [_ Hout]%elem_of_stray_entries Heq%path_join_inj.
  by subst.
Qed.

Lemma cleanupDirectory_events bookDir dryRun w :
  events (cleanupDirectory bookDir dryRun w).2 = events w.
Proof.
  destruct (getExpectedFiles_read bookDir w) as (e & He & Hsz).
  rewrite (cleanupDirectory_run bookDir dryRun w e He Hsz).
  destruct (files w !! bookDir); [done|].
  destruct (stat_all_ok _ _ _); [|done]. by destruct dryRun.
Qed.

Lemma cleanupDirectory_lookup bookDir dryRun w expected p :
  getExpectedFiles bookDir w = (Returned expected, w) ->
  size expected <> 0%nat ->
  files (cleanupDirectory bookDir dryRun w).2 !! p = files w !! p \/
  files (cleanupDirectory bookDir dryRun w).2 !! p
  = unlink_all bookDir (stray_entries (files w) bookDir expected) (files w) !! p.
Proof.
  intros He Hsz. rewrite (cleanupDirectory_run bookDir dryRun w expected He Hsz).
  destruct (files w !! bookDir); [by left|].
  destruct (stat_all_ok _ _ _); [|by left].
  destruct dryRun; [by left|by right].
Qed.

Lemma cleanupDirectory_kept bookDir dryRun w expected name :
  getExpectedFiles bookDir w = (Returned expected, w) ->
  size expected <> 0%nat ->
  name ∈ expected ->
  files (cleanupDirectory bookDir dryRun w).2 !! path_join bookDir name
  = files w !! path_join bookDir name.
Proof.
  intros He Hsz Hin.
  destruct (cleanupDirectory_lookup bookDir dryRun w expected
              (path_join bookDir name) He Hsz) as [H|H]; [done|].
  rewrite H. apply unlink_all_kept.
  by apply stray_not_expected.
Qed.

(** X24: a dry run of [cleanupDirectory] changes nothing, and it ends as the
    live run on the same directory does: it returns when the live run
    returns, and throws the error the live run throws. *)
Theorem cleanupDirectory_dry_run bookDir w :
  (cleanupDirectory bookDir true w).2 = w /\
  (cleanupDirectory bookDir false w).1 = (cleanupDirectory bookDir true w).1.
Proof.
  destruct (getExpectedFiles_read bookDir w) as (e & He & Hsz).
  rewrite !(cleanupDirectory_run bookDir _ w e He Hsz).
  destruct (files w !! bookDir); [done|].
  by destruct (stat_all_ok _ _ _).
Qed.

(** X25: [cleanupDirectory], live or not, only removes files: it writes and
    creates nothing and uses no browser; it keeps every file whose name is
    expected, and every file that does not lie directly in [bookDir] (the
    chapter documents under [processed], files of other books). *)
Theorem cleanupDirectory_keeps bookDir dryRun w expected :
  (getExpectedFiles bookDir w).1 = Returned expected ->
  let w' := (cleanupDirectory bookDir dryRun w).2 in
  events w' = events w /\
  (forall p, files w' !! p = files w !! p \/ files w' !! p = None) /\
  (forall name, name ∈ expected ->
     files w' !! path_join bookDir name = files w !! path_join bookDir name) /\
  (forall p, (forall name, p <> path_join bookDir name) ->
     files w' !! p = files w !! p).
Proof.
  intros [He Hsz]%getExpectedFiles_same. cbv zeta.
  split; [apply cleanupDirectory_events|]. split; [|split].
  - intros p.
    destruct (cleanupDirectory_lookup bookDir dryRun w expected p He Hsz) as [H|H];
      [by left|].
    rewrite H. apply unlink_all_only_removes.
  - intros name Hin. by apply (cleanupDirectory_kept bookDir dryRun w expected).
  - intros p Hp.
    destruct (cleanupDirectory_lookup bookDir dryRun w expected p He Hsz) as [H|H];
      [done|].
    rewrite H. apply unlink_all_kept. intros name _. apply Hp.
Qed.

Lemma cleanupDirectory_keeps_witness :
  (getExpectedFiles demo_dir demo_world_messy).1
  = Returned ({[ JS.lit "output.json"; JS.lit "metadata.json" ]}
              ∪ list_to_set (List.map fileName_cleanup demo_toc3)) /\
  files (cleanupDirectory demo_dir false demo_world_messy).2
    !! path_join demo_dir (JS.lit "metadata.json")
  = files demo_world_messy !! path_join demo_dir (JS.lit "metadata.json").
Proof.
  assert (H : (getExpectedFiles demo_dir demo_world_messy).1
              = Returned ({[ JS.lit "output.json"; JS.lit "metadata.json" ]}
                          ∪ list_to_set (List.map fileName_cleanup demo_toc3)))
    by (vm_compute; reflexivity).
  split; [exact H|].
  destruct (cleanupDirectory_keeps demo_dir false demo_world_messy _ H)
    as (_ & _ & Hk & _).
  apply Hk. set_solver.
Defined.



(** X27: the sizes are read before anything is deleted and outside any
    [try]: when the size of one unexpected file lying directly in [bookDir]
    cannot be read, [cleanupDirectory] throws and deletes nothing, in live
    mode as in a dry run. *)
Theorem cleanupDirectory_stat_failure bookDir dryRun w expected name f :
  (getExpectedFiles bookDir w).1 = Returned expected ->
  files w !! bookDir = None ->
  name ∉ expected ->
  files w !! path_join bookDir name = Some f ->
  f_size f = None ->
  cleanupDirectory bookDir dryRun w = (Thrown StatFailed, w).
Proof.
  intros [He Hsz]%getExpectedFiles_same Hd Hout Hf Hnone.
  rewrite (cleanupDirectory_run bookDir dryRun w expected He Hsz), Hd.
  destruct (stat_all_ok (files w) bookDir (stray_entries (files w) bookDir expected))
    eqn:Hok; [|done].
  unfold stat_all_ok in Hok. rewrite forallb_forall in Hok.
  assert (Hin : name ∈ stray_entries (files w) bookDir expected).
  { apply elem_of_stray_entries. split; [by eapply file_in_dir_entries|done]. }
  apply list_elem_of_In in Hin. specialize (Hok name Hin).
  cbv beta in Hok. rewrite Hf, Hnone in Hok. discriminate Hok.
Qed.

Lemma cleanupDirectory_stat_failure_witness :
  let w := {| files := <[path_join demo_dir (JS.lit "notes.txt") :=
                           {| f_size := None; f_data := CRaw |}]> (files demo_world_messy);
              events := [] |} in
  cleanupDirectory demo_dir false w = (Thrown StatFailed, w).
Proof.
  intros w.
  apply (cleanupDirectory_stat_failure demo_dir false w
           ({[ JS.lit "output.json"; JS.lit "metadata.json" ]}
            ∪ list_to_set (List.map fileName_cleanup demo_toc3))
           (JS.lit "notes.txt") {| f_size := None; f_data := CRaw |}).
  - vm_compute. reflexivity.
  - vm_compute. reflexivity.
  - refine (proj1 (bool_decide_eq_false _) _). vm_compute. reflexivity.
  - vm_compute. reflexivity.
  - reflexivity.
Defined.

Lemma status_of_agree fs fs' bookDir t :
  fs' !! path_join bookDir (fileName_check t) = fs !! path_join bookDir (fileName_check t) ->
  status_of fs' bookDir t = status_of fs bookDir t.
Proof. intros H. unfold status_of. by rewrite H. Qed.

Lemma report_of_agree env fs fs' bookDir m :
  (forall t, t ∈ tableOfContents m ->
     fs' !! path_join bookDir (fileName_check t)
     = fs !! path_join bookDir (fileName_check t)) ->
  report_of env fs' bookDir m = report_of env fs bookDir m.
Proof.
  intros H. unfold report_of.
  assert (Hmap : List.map (status_of fs' bookDir) (tableOfContents m)
                 = List.map (status_of fs bookDir) (tableOfContents m)).
  { apply List.map_ext_in. intros t Ht%list_elem_of_In.
    by apply status_of_agree, H. }
  assert (Hfil : List.filter (fun t => is_failed (status_of fs' bookDir t)) (tableOfContents m)
                 = List.filter (fun t => is_failed (status_of fs bookDir t)) (tableOfContents m)).
  { apply List.filter_ext_in. intros t Ht%list_elem_of_In.
    by rewrite (status_of_agree fs fs' bookDir t (H t Ht)). }
  by rewrite Hmap, Hfil.
Qed.

Lemma getExpectedFiles_after_check env bookDir w f m :
  files w !! path_join bookDir (JS.lit "metadata.json") = Some f ->
  f_data f = CMetadata m ->
  let w1 := (checkDownloadStatus env bookDir w).2 in
  getExpectedFiles bookDir w1
  = (Returned ({[ JS.lit "output.json"; JS.lit "metadata.json" ]}
               ∪ list_to_set (List.map fileName_cleanup (tableOfContents m))), w1).
Proof.
  intros Hf Hm. cbv zeta.
  rewrite (checkDownloadStatus_run env bookDir w f m Hf Hm). cbn [snd].
  unfold getExpectedFiles, try_catch, bind, existsSync, readFileSync. cbn [files].
  rewrite lookup_insert_eq. cbv beta iota. cbn [files]. rewrite lookup_insert_eq.
  cbn [f_data downloadStatuses report_of ret]. cbv beta iota.
  by rewrite filter_nonempty_names.
Qed.

(** X28: a live cleanup after [checkDownloadStatus] removes nothing the
    check looks at: the manifest and the artifact of every manifest entry
    are as before, so checking again gives the same report. *)
Theorem cleanupDirectory_preserves_check env bookDir w m :
  read_manifest (files w) bookDir = Some m ->
  let w1 := (checkDownloadStatus env bookDir w).2 in
  let w2 := (cleanupDirectory bookDir false w1).2 in
  read_manifest (files w2) bookDir = Some m /\
  (forall t, t ∈ tableOfContents m ->
     files w2 !! path_join bookDir (fileName_check t)
     = files w !! path_join bookDir (fileName_check t)) /\
  (checkDownloadStatus env bookDir w2).1 = (checkDownloadStatus env bookDir w).1.
Proof.
  intros Hman. destruct (read_manifest_Some _ _ _ Hman) as (f & Hf & Hm).
  cbv zeta.
  pose proof (getExpectedFiles_after_check env bookDir w f m Hf Hm) as He.
  cbv zeta in He.
  set (w1 := (checkDownloadStatus env bookDir w).2) in *.
  set (expected := ({[ JS.lit "output.json"; JS.lit "metadata.json" ]}
                    ∪ list_to_set (List.map fileName_cleanup (tableOfContents m))
                    : gset (list N))) in *.
  assert (Hsz : size expected <> 0%nat).
  { apply (size_inhabited _ (JS.lit "output.json")). unfold expected. set_solver. }
  assert (Hw1 : forall p, p <> path_join bookDir (JS.lit "output.json") ->
                          files w1 !! p = files w !! p).
  { intros p Hp. unfold w1.
    rewrite (checkDownloadStatus_run env bookDir w f m Hf Hm). cbn [snd files].
    by rewrite lookup_insert_ne. }
  assert (Hmeta : files (cleanupDirectory bookDir false w1).2
                    !! path_join bookDir (JS.lit "metadata.json") = Some f).
  { rewrite (cleanupDirectory_kept bookDir false w1 expected _ He Hsz)
      by (unfold expected; set_solver).
    rewrite Hw1; [done|]. intros H. symmetry in H. by apply metadata_not_output in H. }
  assert (Hart : forall t, t ∈ tableOfContents m ->
             files (cleanupDirectory bookDir false w1).2
               !! path_join bookDir (fileName_check t)
             = files w !! path_join bookDir (fileName_check t)).
  { intros t Ht.
    rewrite (cleanupDirectory_kept bookDir false w1 expected _ He Hsz).
    - apply Hw1. intros H%path_join_inj.
      by destruct (fileName_check_not_json t) as [Ho _].
    - unfold expected. apply elem_of_union_r, elem_of_list_to_set.
      apply list_elem_of_In. change (fileName_check t) with (fileName_cleanup t).
      apply List.in_map. by apply list_elem_of_In. }
  split; [|split].
  - unfold read_manifest. by rewrite Hmeta, Hm.
  - exact Hart.
  - rewrite (checkDownloadStatus_run env bookDir _ f m Hmeta Hm).
    rewrite (checkDownloadStatus_run env bookDir w f m Hf Hm). cbn [fst].
    f_equal. by apply report_of_agree.
Qed.

Lemma cleanupDirectory_preserves_check_witness :
  read_manifest (files demo_world3) demo_dir = Some demo_meta3 /\
  (checkDownloadStatus demo_env demo_dir
     (cleanupDirectory demo_dir false demo_world_checked).2).1
  = (checkDownloadStatus demo_env demo_dir demo_world3).1.
Proof.
  assert (H : read_manifest (files demo_world3) demo_dir = Some demo_meta3)
    by (vm_compute; reflexivity).
  split; [exact H|].
  exact (proj2 (proj2 (cleanupDirectory_preserves_check demo_env demo_dir demo_world3
                         demo_meta3 H))).
Defined.

(** ** File names and the numbers in them *)

Lemma uint_of_units_string (d : Decimal.uint) :
  uint_of_units (JS.lit (NilEmpty.string_of_uint d)) = Some d.
Proof.
  induction d; [reflexivity|..];
    cbn [NilEmpty.string_of_uint JS.lit list_ascii_of_string List.map uint_of_units];
    fold (JS.lit (NilEmpty.string_of_uint d)); rewrite IHd; reflexivity.
Qed.

Lemma digits_value_toString (n : Z) : 0 <= n -> digits_value (JS.toString n) = Some n.
Proof.
  intros Hn. destruct n as [|p|p]; [reflexivity| |lia].
  unfold JS.toString, digits_value. cbn [Z.to_int NilZero.string_of_int].
  pose proof (DecimalPos.Unsigned.of_to p) as Hp.
  assert (Hs : NilZero.string_of_uint (Pos.to_uint p)
               = NilEmpty.string_of_uint (Pos.to_uint p)).
  { destruct (Pos.to_uint p); [discriminate Hp|reflexivity..]. }
  rewrite Hs, uint_of_units_string. unfold Z.of_uint. by rewrite Hp.
Qed.

Lemma digits_value_zeros (k : nat) (s : list N) :
  digits_value (List.repeat 48%N k ++ s) = digits_value s.
Proof.
  induction k as [|k IH]; [done|].
  unfold digits_value in *. cbn [List.repeat app uint_of_units].
  destruct (uint_of_units (List.repeat 48%N k ++ s)) as [d|];
    destruct (uint_of_units s) as [d'|]; try done.
Qed.

Lemma fill_zero (k : nat) : JS.fill [48%N] k [48%N] = List.repeat 48%N k.
Proof.
  induction k as [|k IH]; [done|]. cbn [JS.fill List.repeat]. f_equal.
  destruct k; [done|]. exact IH.
Qed.

Lemma digits_value_padStart (len : nat) (s : list N) :
  digits_value (JS.padStart len (JS.lit "0") s) = digits_value s.
Proof.
  unfold JS.padStart. destruct (len <=? length s)%nat; [done|].
  change (JS.lit "0") with [48%N]. by rewrite fill_zero, digits_value_zeros.
Qed.

(** A digit string is cut at the first underscore that follows it. *)
Lemma digits_then_underscore (d1 d2 r1 r2 : list N) :
  is_Some (digits_value d1) -> is_Some (digits_value d2) ->
  d1 ++ 95%N :: r1 = d2 ++ 95%N :: r2 -> d1 = d2 /\ r1 = r2.
Proof.
  unfold digits_value. revert d2.
  induction d1 as [|a d1 IH]; intros [|b d2] H1 H2 Heq.
  - by injection Heq.
  - injection Heq as <- _. cbn in H2.
    destruct (uint_of_units d2); by destruct H2.
  - injection Heq as -> _. cbn in H1.
    destruct (uint_of_units d1); by destruct H1.
  - injection Heq as -> Heq. cbn [uint_of_units] in H1, H2.
    destruct (IH d2) as [-> ->]; [| |done|done].
    + destruct (uint_of_units d1); [by eexists|by destruct H1].
    + destruct (uint_of_units d2); [by eexists|by destruct H2].
Qed.

Lemma padded_number_inj (len len' : nat) (a b : Z) (r1 r2 : list N) :
  0 <= a -> 0 <= b ->
  JS.padStart len (JS.lit "0") (JS.toString a) ++ 95%N :: r1
  = JS.padStart len' (JS.lit "0") (JS.toString b) ++ 95%N :: r2 ->
  a = b /\ r1 = r2.
Proof.
  intros Ha Hb Heq.
  pose proof (digits_value_padStart len (JS.toString a)) as Hva.
  pose proof (digits_value_padStart len' (JS.toString b)) as Hvb.
  rewrite digits_value_toString in Hva, Hvb by done.
  apply digits_then_underscore in Heq as [Hd ->];
    [|by rewrite Hva|by rewrite Hvb].
  split; [|done]. rewrite Hd in Hva. rewrite Hva in Hvb. by injection Hvb.
Qed.

Lemma NoDup_map_via {A B C} (f : A -> B) (g : A -> C) (l : list A) :
  (forall x y, x ∈ l -> y ∈ l -> f x = f y -> g x = g y) ->
  NoDup (List.map g l) -> NoDup (List.map f l).
Proof.
  induction l as [|a l IH]; intros Hfg Hg; [constructor|].
  cbn [List.map] in *. apply NoDup_cons in Hg as [Hga Hg].
  apply NoDup_cons. split.
  - intros (y & Hy & Hin)%list_elem_of_In%List.in_map_iff. apply Hga.
    apply list_elem_of_In, List.in_map_iff. exists y. split; [|done].
    apply Hfg; [by right; apply list_elem_of_In|by left|done].
  - apply IH; [|done]. intros x y Hx Hy. apply Hfg; by right.
Qed.

Lemma fileName_check_parts (t : TocItem) :
  fileName_check t
  = JS.lit "page_"
    ++ (JS.padStart 3 (JS.lit "0") (JS.toString (pageNum t))
        ++ 95%N :: (sanitized_id t ++ JS.lit ".pdf")).
Proof. reflexivity. Qed.

Lemma fileName_check_inj (t1 t2 : TocItem) :
  0 <= pageNum t1 -> 0 <= pageNum t2 ->
  fileName_check t1 = fileName_check t2 ->
  pageNum t1 = pageNum t2 /\ sanitized_id t1 = sanitized_id t2.
Proof.
  intros H1 H2. rewrite !fileName_check_parts. intros Heq%app_inv_head.
  apply padded_number_inj in Heq as [Hn Hid%app_inv_tail]; done.
Qed.

(** X29: for page numbers that are not negative, the artifact name fixes
    the page number: two entries have the same artifact name exactly when
    they have the same page number and the same identifier up to the
    replacement of its non-alphanumeric code units.  So a manifest with
    pairwise different page numbers names pairwise different artifacts. *)
Theorem artifact_names_distinct :
  (forall t1 t2, 0 <= pageNum t1 -> 0 <= pageNum t2 ->
     (fileName_check t1 = fileName_check t2 <->
      pageNum t1 = pageNum t2 /\ sanitized_id t1 = sanitized_id t2)) /\
  (forall toc, Forall (fun t => 0 <= pageNum t) toc ->
     NoDup (List.map pageNum toc) ->
     NoDup (List.map fileName_check toc) /\ NoDup (List.map fileName_capture toc)).
Proof.
  split.
  - intros t1 t2 H1 H2. split; [by apply fileName_check_inj|].
    intros [Hn Hid]. by rewrite !fileName_check_parts, Hn, Hid.
  - intros toc Hpos Hnd.
    assert (H : NoDup (List.map fileName_check toc)); [|by split].
    apply (NoDup_map_via fileName_check pageNum); [|done].
    rewrite Forall_forall in Hpos.
    intros x y Hx Hy Heq. by apply fileName_check_inj; [apply Hpos..|].
Qed.

Lemma artifact_names_distinct_witness :
  NoDup (List.map fileName_check demo_toc12) /\
  (fileName_check (mk_item 7 "a.b" "x") = fileName_check (mk_item 7 "a_b" "y")).
Proof.
  destruct artifact_names_distinct as [Hiff Hnd]. split.
  - apply Hnd.
    + repeat constructor; vm_compute; discriminate.
    + assert (Hseq : List.map pageNum demo_toc12 = seqZ 1 12) by (vm_compute; reflexivity).
      rewrite Hseq. apply NoDup_seqZ.
  - apply Hiff; [vm_compute; discriminate..|]. split; reflexivity.
Defined.

(** ** Chapter documents *)

Lemma outputFileName_number (c1 c2 : Chapter) :
  0 <= chapterNumber c1 -> 0 <= chapterNumber c2 ->
  outputFileName c1 = outputFileName c2 -> chapterNumber c1 = chapterNumber c2.
Proof.
  intros H1 H2. unfold outputFileName.
  destruct (chapterNumber c1 =? 0) eqn:E1; destruct (chapterNumber c2 =? 0) eqn:E2.
  - lia.
  - intros H. apply (f_equal head) in H. discriminate H.
  - intros H. apply (f_equal head) in H. discriminate H.
  - intros Heq%app_inv_head.
    change (JS.lit "_" ++ ?x) with (95%N :: x) in Heq.
    by apply padded_number_inj in Heq as [Hn _].
Qed.

Lemma numbered_by_zeros (chs : list Chapter) (ms : list TocItem) :
  Forall2 numbered_by chs ms ->
  length (List.filter (fun n => n =? 0) (List.map chapterNumber chs))
  = length (premessa_pages ms).
Proof.
  unfold premessa_pages.
  induction 1 as [|c m chs ms [Hzero _] _ IH]; [done|].
  cbn [List.map List.filter].
  destruct (is_premessa (title m)) eqn:Hp; destruct (chapterNumber c =? 0) eqn:Hc;
    cbn [length]; try by rewrite IH.
  - apply Z.eqb_neq in Hc. by destruct Hc; apply Hzero.
  - apply Z.eqb_eq, Hzero in Hc. congruence.
Qed.

Lemma premessa_pages_markers (toc : list TocItem) :
  premessa_pages (List.filter is_marker toc) = premessa_pages toc.
Proof.
  unfold premessa_pages, is_marker.
  induction toc as [|x toc IH]; [done|]. cbn [List.filter].
  destruct (is_premessa (title x)) eqn:Hp; cbn [orb List.filter].
  - by rewrite Hp, IH.
  - destruct (isChapterStart (title x)); cbn [List.filter]; by rewrite ?Hp, IH.
Qed.

Lemma NoDup_split_filter {A} (P Q : A -> bool) (l : list A) :
  (forall x, Q x = negb (P x)) ->
  NoDup (List.filter P l) -> NoDup (List.filter Q l) -> NoDup l.
Proof.
  intros HQ. induction l as [|a l IH]; [constructor|].
  cbn [List.filter]. rewrite HQ.
  assert (Hin : forall R : A -> bool, R a = true -> a ∈ l -> a ∈ List.filter R l).
  { intros R HR Ha. apply list_elem_of_In, List.filter_In.
    split; [by apply list_elem_of_In|done]. }
  destruct (P a) eqn:HP; cbn [negb]; intros H1 H2; apply NoDup_cons.
  - apply NoDup_cons in H1 as [Ha H1]. split; [|by apply IH].
    intros Hl. by apply Ha, Hin.
  - apply NoDup_cons in H2 as [Ha H2]. split; [|by apply IH].
    intros Hl. apply Ha, Hin; [|done]. by rewrite HQ, HP.
Qed.

Lemma identifyChapters_numbered (toc : list TocItem) :
  Forall2 numbered_by (identifyChapters toc) (List.filter is_marker toc).
Proof.
  apply identifyChapters_rel.
  - intros e c m H. exact H.
  - intros x c m H. exact H.
  - intros item Hp. split; [done|]. simpl. lia.
  - intros item n len Hp _ Hn. unfold numbered_by. simpl. rewrite Hp.
    split; [split; [lia|done]|lia].
Qed.

Lemma identifyChapters_nonzero_numbers (toc : list TocItem) :
  List.filter (fun n => negb (n =? 0)) (List.map chapterNumber (identifyChapters toc))
  = seqZ 1 (Z.of_nat (length (List.filter is_numbered_marker toc))).
Proof.
  destruct toc as [|x toc]; [done|].
  unfold identifyChapters. rewrite segment_finish_numbers by done.
  by rewrite (segment_loop_numbers _ _ segment_init 0%nat).
Qed.

Lemma premessa_documents_collide (chs : list Chapter) :
  NoDup (List.map outputFileName chs) ->
  (length (List.filter (fun n => (n =? 0)%Z) (List.map chapterNumber chs)) <= 1)%nat.
Proof.
  induction chs as [|c chs IH]; [cbn; lia|].
  cbn [List.map List.filter]. intros [Hc Hnd]%NoDup_cons.
  specialize (IH Hnd).
  destruct (chapterNumber c =? 0) eqn:Ec; [|done].
  destruct (List.filter (fun n => n =? 0) (List.map chapterNumber chs))
    as [|n ns] eqn:Hz; [cbn; lia|].
  exfalso. apply Hc.
  assert (Hn : List.In n (List.filter (fun n => n =? 0) (List.map chapterNumber chs)))
    by (rewrite Hz; by left).
  apply List.filter_In in Hn as [(c' & <- & Hc')%List.in_map_iff Hn0].
  apply list_elem_of_In, List.in_map_iff. exists c'. split; [|done].
  unfold outputFileName. by rewrite Ec, Hn0.
Qed.

(** X30: the chapter documents of [mergeChapterPDFs] have pairwise
    different file names exactly when the table of contents has at most one
    Premessa page: the numbered chapters never share a name, whatever their
    titles, and every Premessa chapter is written to [premessa.pdf]. *)
Theorem chapter_documents_distinct (toc : list TocItem) :
  NoDup (List.map outputFileName (identifyChapters toc)) <->
  (length (premessa_pages toc) <= 1)%nat.
Proof.
  pose proof (identifyChapters_numbered toc) as Hnum.
  rewrite <- premessa_pages_markers, <- (numbered_by_zeros _ _ Hnum).
  split; [apply premessa_documents_collide|].
  intros Hz.
  apply (NoDup_map_via outputFileName chapterNumber).
  - intros c1 c2 H1 H2. apply outputFileName_number.
    + apply list_elem_of_lookup in H1 as [i Hi].
      destruct (Forall2_lookup_l _ _ _ _ _ Hnum Hi) as (m & _ & _ & Hpos). exact Hpos.
    + apply list_elem_of_lookup in H2 as [i Hi].
      destruct (Forall2_lookup_l _ _ _ _ _ Hnum Hi) as (m & _ & _ & Hpos). exact Hpos.
  - apply (NoDup_split_filter (fun n => negb (n =? 0)) (fun n => n =? 0)).
    + intros n. by rewrite negb_involutive.
    + rewrite identifyChapters_nonzero_numbers. apply NoDup_seqZ.
    + destruct (List.filter (fun n => n =? 0)
                  (List.map chapterNumber (identifyChapters toc))) as [|a [|b l]];
        [constructor|apply NoDup_singleton|cbn in Hz; lia].
Qed.
